(** * MediMantra: the doctor controller

    A shallow embedding of [server/controllers/doctor.controller.js] and the
    properties of its request handlers.

    The handlers are asynchronous JavaScript functions over a document
    database (Mongoose), an external file store and the JavaScript [Date]
    object.  They are embedded as functions in a small state-and-exception
    monad over an explicit [World]: the committed database, the view of the
    open transaction, and the file store. *)

From Stdlib Require Import ZArith List String Bool Lia QArith_base Sorted Permutation.
From stdpp Require Import base list.
Import ListNotations.

Local Open Scope string_scope.
Local Open Scope Z_scope.

(** ** JavaScript values of a request body *)

Module JS.

(** A JSON value as [express] hands it to a handler, plus [undefined] for a
    key that is absent.  Numbers are modelled as integers. *)
#[warnings="-register-all"]
Inductive jsval : Type :=
| JUndefined
| JNull
| JBool (b : bool)
| JNum (n : Z)
| JStr (s : string)
| JArr (items : list jsval)
| JObj (fields : list (string * jsval)).

(** [ToBoolean]: the test performed by [if (v)], [!v] and [v || w]. *)
Definition truthy (v : jsval) : bool :=
  match v with
  | JUndefined | JNull => false
  | JBool b => b
  | JNum n => negb (n =? 0)
  | JStr s => negb (s =? "")%string
  | JArr _ | JObj _ => true
  end.

(** [v || w] *)
Definition or_else (v w : jsval) : jsval := if truthy v then v else w.

(** [v !== undefined] *)
Definition defined (v : jsval) : bool :=
  match v with JUndefined => false | _ => true end.

End JS.
Export JS.

(** ** Documents *)

Definition ObjectId := nat.

Record VerificationDocument := mkVerificationDocument {
  vd_name : string;
  vd_url : string;          (* the empty string stands for a missing url *)
  vd_verified : bool
}.

Record Slot := mkSlot {
  startTime : string;
  endTime : string
}.

Record DayAvailability := mkDayAvailability {
  day : string;
  isAvailable : bool;
  slots : list Slot
}.

Record Review := mkReview {
  rv_patient : ObjectId;
  rv_rating : Z;
  rv_comment : string;
  rv_date : Z
}.

Record Doctor := mkDoctor {
  dr_id : ObjectId;
  dr_user : ObjectId;
  registrationNumber : string;
  registrationCouncil : jsval;
  qualifications : jsval;
  specialties : jsval;
  experience : jsval;
  clinicDetails : jsval;
  hospitalAffiliations : jsval;
  consultationFee : jsval;
  languages : jsval;
  bio : jsval;
  videoConsultation : jsval;
  acceptingNewPatients : jsval;
  availability : list DayAvailability;
  verificationDocuments : list VerificationDocument;
  isVerified : bool;
  reviews : list Review;
  averageRating : Q;
  totalReviews : nat
}.

Record User := mkUser {
  us_id : ObjectId;
  role : string
}.

Record Patient := mkPatient {
  pt_id : ObjectId;
  pt_user : ObjectId
}.

Record Appointment := mkAppointment {
  ap_id : ObjectId;
  ap_doctor : ObjectId;
  ap_patient : ObjectId;
  appointmentDate : Z;      (* a Date: milliseconds since the epoch *)
  appointmentTime : string;
  status : string;
  cancellationReason : option string;
  createdAt : Z
}.

(** ** The database, the file store and the world *)

Record DB := mkDB {
  doctors : list Doctor;
  users : list User;
  patients : list Patient;
  appointments : list Appointment
}.

Inductive FileEvent :=
| Uploaded (url : string)
| DeleteRequested (url : string).

(** [committed] is what every reader sees; [pending] is the view of the open
    transaction (writes made with [{ session }]), if any; [storage] lists the
    urls held by the file store and [fileLog] every call made to it, newest
    first. *)
Record World := mkWorld {
  committed : DB;
  pending : option DB;
  storage : list string;
  fileLog : list FileEvent
}.

Definition with_committed (w : World) (d : DB) : World :=
  mkWorld d (pending w) (storage w) (fileLog w).

Definition with_pending (w : World) (p : option DB) : World :=
  mkWorld (committed w) p (storage w) (fileLog w).

(** ** The monad of a handler

    Every [await] on the database or on the file store may reject; which
    ones do is fixed by an oracle, indexed by the number of calls already
    made to that collaborator. *)

Record Oracle := mkOracle {
  db_fault : nat -> bool;
  fs_fault : nat -> bool
}.

Definition no_db_fault (o : Oracle) : Prop := forall n, db_fault o n = false.
Definition no_fs_fault (o : Oracle) : Prop := forall n, fs_fault o n = false.
Definition no_fault : Oracle := mkOracle (fun _ => false) (fun _ => false).

Record Ticks := mkTicks { db_calls : nat; fs_calls : nat }.

Inductive Outcome (A : Type) : Type :=
| Ok (a : A)
| Thrown.
Arguments Ok {A} a.
Arguments Thrown {A}.

Definition IO (A : Type) : Type :=
  Oracle -> Ticks -> World -> Outcome A * Ticks * World.

Definition ret {A} (a : A) : IO A := fun _ t w => (Ok a, t, w).

Definition bind {A B} (m : IO A) (k : A -> IO B) : IO B :=
  fun o t w =>
    match m o t w with
    | (Ok a, t', w') => k a o t' w'
    | (Thrown, t', w') => (Thrown, t', w')
    end.

Declare Scope io_scope.
Delimit Scope io_scope with io.
Notation "x <- m ;; k" := (bind m (fun x => k))
  (at level 100, m at next level, right associativity) : io_scope.
Notation "m ;;; k" := (bind m (fun _ => k))
  (at level 100, right associativity) : io_scope.
Local Open Scope io_scope.

(** [try { body } catch (error) { handler }] *)
Definition try_catch {A} (body handler : IO A) : IO A :=
  fun o t w =>
    match body o t w with
    | (Ok a, t', w') => (Ok a, t', w')
    | (Thrown, t', w') => handler o t' w'
    end.

(** [try { body } finally { fin }], for a [fin] that cannot throw. *)
Definition finally {A} (body : IO A) (fin : World -> World) : IO A :=
  fun o t w =>
    match body o t w with
    | (r, t', w') => (r, t', fin w')
    end.

(** An awaited database call: it rejects without effect when the oracle says
    so. *)
Definition await_db {A} (call : World -> A * World) : IO A :=
  fun o t w =>
    let t' := mkTicks (S (db_calls t)) (fs_calls t) in
    if db_fault o (db_calls t) then (Thrown, t', w)
    else let '(a, w') := call w in (Ok a, t', w').

(** An awaited call to the file store; [before] is what the call leaves behind
    even when it rejects. *)
Definition await_fs {A} (before : World -> World) (call : World -> A * World) : IO A :=
  fun o t w =>
    let t' := mkTicks (db_calls t) (S (fs_calls t)) in
    if fs_fault o (fs_calls t) then (Thrown, t', before w)
    else let '(a, w') := call (before w) in (Ok a, t', w').

(** [for (const x of xs) { await body(x) }] *)
Fixpoint for_of {A} (xs : list A) (body : A -> IO unit) : IO unit :=
  match xs with
  | [] => ret tt
  | x :: rest => body x ;;; for_of rest body
  end.

Definition run {A} (m : IO A) (o : Oracle) (w : World) : Outcome A * World :=
  let '(r, _, w') := m o (mkTicks 0 0) w in (r, w').

(** ** The Mongoose calls the handlers make *)

Module Mongoose.

(** [session.startTransaction()]: the transaction starts from the committed
    state.  One request runs at a time, so committing replaces the committed
    state by the view of the transaction. *)
Definition startTransaction (w : World) : World :=
  with_pending w (Some (committed w)).

Definition endSession (w : World) : World := with_pending w None.

(** A write: with [{ session }] inside a transaction it lands in the pending
    view, otherwise in the committed state at once. *)
Definition write (session : bool) (f : DB -> DB) (w : World) : World :=
  match session, pending w with
  | true, Some d => with_pending w (Some (f d))
  | _, _ => with_committed w (f (committed w))
  end.

Definition startSession : IO unit := await_db (fun w => (tt, w)).

Definition commitTransaction : IO unit :=
  await_db (fun w =>
    match pending w with
    | Some d => (tt, mkWorld d None (storage w) (fileLog w))
    | None => (tt, w)
    end).

Definition abortTransaction : IO unit :=
  await_db (fun w => (tt, with_pending w None)).

Definition set_doctors (f : list Doctor -> list Doctor) (d : DB) : DB :=
  mkDB (f (doctors d)) (users d) (patients d) (appointments d).

Definition set_users (f : list User -> list User) (d : DB) : DB :=
  mkDB (doctors d) (f (users d)) (patients d) (appointments d).

Definition set_appointments (f : list Appointment -> list Appointment) (d : DB) : DB :=
  mkDB (doctors d) (users d) (patients d) (f (appointments d)).

(** Reads are made without a session in every handler: they see the committed
    state. *)
Definition Doctor_findOne (p : Doctor -> bool) : IO (option Doctor) :=
  await_db (fun w => (List.find p (doctors (committed w)), w)).

Definition Doctor_findById (id : ObjectId) : IO (option Doctor) :=
  Doctor_findOne (fun d => Nat.eqb (dr_id d) id).

Definition User_findById (id : ObjectId) : IO (option User) :=
  await_db (fun w => (List.find (fun u => Nat.eqb (us_id u) id) (users (committed w)), w)).

Definition Patient_findOne (p : Patient -> bool) : IO (option Patient) :=
  await_db (fun w => (List.find p (patients (committed w)), w)).

Definition Appointment_findOne (p : Appointment -> bool) : IO (option Appointment) :=
  await_db (fun w => (List.find p (appointments (committed w)), w)).

Definition Appointment_find (p : Appointment -> bool) : IO (list Appointment) :=
  await_db (fun w => (List.filter p (appointments (committed w)), w)).

Definition Appointment_countDocuments (p : Appointment -> bool) : IO nat :=
  await_db (fun w => (length (List.filter p (appointments (committed w))), w)).

(** [Appointment.updateMany(filter, update, { session })] *)
Definition Appointment_updateMany (session : bool)
    (p : Appointment -> bool) (upd : Appointment -> Appointment) : IO unit :=
  await_db (fun w =>
    (tt, write session (set_appointments (map (fun a => if p a then upd a else a))) w)).

(** [Doctor.findByIdAndDelete(id, { session })]; [_id] is the key of the
    collection. *)
Definition Doctor_findByIdAndDelete (session : bool) (id : ObjectId) : IO unit :=
  await_db (fun w =>
    (tt, write session (set_doctors (List.filter (fun d => negb (Nat.eqb (dr_id d) id)))) w)).

(** [doc.save()] of a document made with [new Doctor(...)]. *)
Definition Doctor_insert (session : bool) (d : Doctor) : IO unit :=
  await_db (fun w => (tt, write session (set_doctors (fun ds => (ds ++ [d])%list)) w)).

(** [doc.save()] of a document that was read from the collection. *)
Definition Doctor_save (session : bool) (d : Doctor) : IO unit :=
  await_db (fun w =>
    (tt, write session
           (set_doctors (map (fun d0 => if Nat.eqb (dr_id d0) (dr_id d) then d else d0))) w)).

Definition User_save (session : bool) (u : User) : IO unit :=
  await_db (fun w =>
    (tt, write session
           (set_users (map (fun u0 => if Nat.eqb (us_id u0) (us_id u) then u else u0))) w)).

End Mongoose.
Export Mongoose.

(** ** The file store ([utils/fileUpload.js]) *)

Record File := mkFile {
  originalname : string;
  file_url : string          (* the url the file store gives the file *)
}.

Definition log_file (e : FileEvent) (w : World) : World :=
  mkWorld (committed w) (pending w) (storage w) (e :: fileLog w).

(** [uploadFile(file, folder)] resolves to [{ url }]. *)
Definition uploadFile (f : File) (folder : string) : IO string :=
  await_fs (fun w => w)
    (fun w => (file_url f,
               mkWorld (committed w) (pending w) (file_url f :: storage w)
                       (Uploaded (file_url f) :: fileLog w))).

(** [deleteFile(url)] *)
Definition deleteFile (url : string) : IO unit :=
  await_fs (log_file (DeleteRequested url))
    (fun w => (tt,
               mkWorld (committed w) (pending w)
                       (List.filter (fun u => negb (u =? url)%string) (storage w))
                       (fileLog w))).

(** ** Requests and responses *)

Record AuthUser := mkAuthUser {
  au_id : ObjectId;
  au_role : string
}.

(** The JSON envelope [{ success, message, data }] with its HTTP status. *)
Record Response (D : Type) := mkResponse {
  res_status : nat;
  res_success : bool;
  res_message : string;
  res_data : option D
}.
Arguments mkResponse {D} _ _ _ _.
Arguments res_status {D} _.
Arguments res_success {D} _.
Arguments res_message {D} _.
Arguments res_data {D} _.

Definition fail {D} (code : nat) (msg : string) : Response D :=
  mkResponse code false msg None.

Definition server_error {D} : Response D := fail 500%nat "Server error".

(** The outcome is a success response. *)
Definition succeeded {D} (r : Outcome (Response D)) : bool :=
  match r with
  | Ok resp => res_success resp
  | Thrown => false
  end.

(** ** deleteDoctor, deleteDoctorByAdmin *)

Definition set_role (u : User) (r : string) : User := mkUser (us_id u) r.

Definition cancel_appointment (a : Appointment) : Appointment :=
  mkAppointment (ap_id a) (ap_doctor a) (ap_patient a) (appointmentDate a)
    (appointmentTime a) "cancelled" (Some "Doctor no longer available") (createdAt a).

(** The filter of the active-appointment count:
    [{ doctor, status: 'scheduled', appointmentDate: { $gte: new Date() } }] *)
Definition is_active (doctor : ObjectId) (now : Z) (a : Appointment) : bool :=
  Nat.eqb (ap_doctor a) doctor && (status a =? "scheduled")%string
  && (now <=? appointmentDate a).

(** The filter of the bulk update: [{ doctor, status: { $ne: 'completed' } }] *)
Definition not_completed_of (doctor : ObjectId) (a : Appointment) : bool :=
  Nat.eqb (ap_doctor a) doctor && negb (status a =? "completed")%string.

(** The body of the file loop of [deleteDoctor]: a failed deletion is logged
    and the loop goes on. *)
Definition delete_document_file (doc : VerificationDocument) : IO unit :=
  if negb (vd_url doc =? "")%string
  then try_catch (deleteFile (vd_url doc)) (ret tt)
  else ret tt.

Definition deleteDoctor (now : Z) (user : AuthUser) : IO (Response unit) :=
  startSession ;;;
  (fun o t w =>
  finally
    (try_catch
      (let userId := au_id user in
       doctor <- Doctor_findOne (fun d => Nat.eqb (dr_user d) userId) ;;
       match doctor with
       | None => ret (fail 404%nat "Doctor profile not found")
       | Some doctor =>
         activeAppointments <- Appointment_countDocuments (is_active (dr_id doctor) now) ;;
         if (0 <? activeAppointments)%nat then
           ret (fail 400%nat
             "Cannot delete account with active appointments. Please reschedule or cancel them first.")
         else
           for_of (verificationDocuments doctor) delete_document_file ;;;
           Appointment_updateMany true (not_completed_of (dr_id doctor)) cancel_appointment ;;;
           Doctor_findByIdAndDelete true (dr_id doctor) ;;;
           user <- User_findById userId ;;
           match user with
           | Some user => User_save true (set_role user "user")
           | None => ret tt
           end ;;;
           commitTransaction ;;;
           ret (mkResponse 200%nat true "Doctor account deleted successfully" None)
       end)
      (abortTransaction ;;; ret server_error))
    endSession o t (startTransaction w)).

Definition deleteDoctorByAdmin (doctorId : ObjectId) (user : AuthUser) : IO (Response unit) :=
  startSession ;;;
  (fun o t w =>
  finally
    (try_catch
      (if negb (au_role user =? "admin")%string then
         ret (fail 403%nat "Not authorized to delete doctor profiles")
       else
         doctor <- Doctor_findById doctorId ;;
         match doctor with
         | None => ret (fail 404%nat "Doctor not found")
         | Some doctor =>
           for_of (verificationDocuments doctor) (fun doc => deleteFile (vd_url doc)) ;;;
           Doctor_findByIdAndDelete true doctorId ;;;
           user <- User_findById (dr_user doctor) ;;
           match user with
           | Some user => User_save true (set_role user "user")
           | None => ret tt
           end ;;;
           commitTransaction ;;;
           ret (mkResponse 200%nat true "Doctor profile deleted successfully" None)
         end)
      (abortTransaction ;;; ret server_error))
    endSession o t (startTransaction w)).

(** ** createDoctor *)

Record CreateBody := mkCreateBody {
  cb_qualifications : jsval;
  cb_specialties : jsval;
  cb_experience : jsval;
  cb_registrationNumber : string;
  cb_registrationCouncil : jsval;
  cb_clinicDetails : jsval;
  cb_hospitalAffiliations : jsval;
  cb_consultationFee : jsval;
  cb_languages : jsval;
  cb_bio : jsval
}.

(** [new Doctor({ user, qualifications: qualifications || [], ... })].  The
    schema is not part of the controller: [blank] is the document
    [new Doctor({})] makes, the schema defaults under a fresh [_id]. *)
Definition new_Doctor (blank : Doctor) (userId : ObjectId) (b : CreateBody)
    (docs : list VerificationDocument) : Doctor :=
  mkDoctor (dr_id blank) userId (cb_registrationNumber b) (cb_registrationCouncil b)
    (or_else (cb_qualifications b) (JArr []))
    (or_else (cb_specialties b) (JArr []))
    (cb_experience b)
    (cb_clinicDetails b)
    (or_else (cb_hospitalAffiliations b) (JArr []))
    (cb_consultationFee b)
    (or_else (cb_languages b) (JArr []))
    (cb_bio b)
    (videoConsultation blank) (acceptingNewPatients blank) (availability blank)
    docs false (reviews blank) (averageRating blank) (totalReviews blank).

(** The upload loop: [verificationDocuments.push({ name, url, verified: false })]
    after each awaited upload. *)
Fixpoint upload_all (files : list File) (acc : list VerificationDocument)
    : IO (list VerificationDocument) :=
  match files with
  | [] => ret acc
  | file :: rest =>
    url <- uploadFile file "doctors/verification" ;;
    upload_all rest (acc ++ [mkVerificationDocument (originalname file) url false])%list
  end.

Definition createDoctor (blank : Doctor) (user : AuthUser) (body : CreateBody)
    (files : list File) : IO (Response Doctor) :=
  startSession ;;;
  (fun o t w =>
  finally
    (try_catch
      (existingDoctor <- Doctor_findOne
           (fun d => (registrationNumber d =? cb_registrationNumber body)%string) ;;
       match existingDoctor with
       | Some _ =>
         ret (fail 400%nat "Doctor with this registration number already exists")
       | None =>
         let userId := au_id user in
         user <- User_findById userId ;;
         match user with
         | None => ret (fail 404%nat "User not found")
         | Some user =>
           if negb (role user =? "doctor")%string && negb (role user =? "admin")%string then
             ret (fail 403%nat "User is not authorized to create a doctor profile")
           else
             verificationDocuments <- upload_all files [] ;;
             let newDoctor := new_Doctor blank userId body verificationDocuments in
             Doctor_insert true newDoctor ;;;
             (if negb (role user =? "doctor")%string
              then User_save true (set_role user "doctor")
              else ret tt) ;;;
             commitTransaction ;;;
             ret (mkResponse 201%nat true
                    "Doctor profile created successfully and pending verification"
                    (Some newDoctor))
         end
       end)
      (abortTransaction ;;; ret server_error))
    endSession o t (startTransaction w)).

(** ** updateDoctor, updateDoctorProfile *)

Record UpdateBody := mkUpdateBody {
  ub_qualifications : jsval;
  ub_specialties : jsval;
  ub_experience : jsval;
  ub_clinicDetails : jsval;
  ub_hospitalAffiliations : jsval;
  ub_consultationFee : jsval;
  ub_languages : jsval;
  ub_bio : jsval;
  ub_availability : option (list DayAvailability);  (* [None]: absent or falsy *)
  ub_videoConsultation : jsval;
  ub_acceptingNewPatients : jsval
}.

(** [if (v) doctor.f = v;] *)
Definition if_truthy (v old : jsval) : jsval := if truthy v then v else old.

(** [if (v !== undefined) doctor.f = v;] *)
Definition if_defined (v old : jsval) : jsval := if defined v then v else old.

(** The eleven assignments of [updateDoctor]. *)
Definition updateDoctor_fields (doctor : Doctor) (b : UpdateBody) : Doctor :=
  mkDoctor (dr_id doctor) (dr_user doctor) (registrationNumber doctor)
    (registrationCouncil doctor)
    (if_truthy (ub_qualifications b) (qualifications doctor))
    (if_truthy (ub_specialties b) (specialties doctor))
    (if_truthy (ub_experience b) (experience doctor))
    (if_truthy (ub_clinicDetails b) (clinicDetails doctor))
    (if_truthy (ub_hospitalAffiliations b) (hospitalAffiliations doctor))
    (if_truthy (ub_consultationFee b) (consultationFee doctor))
    (if_truthy (ub_languages b) (languages doctor))
    (if_truthy (ub_bio b) (bio doctor))
    (if_defined (ub_videoConsultation b) (videoConsultation doctor))
    (if_defined (ub_acceptingNewPatients b) (acceptingNewPatients doctor))
    (match ub_availability b with Some a => a | None => availability doctor end)
    (verificationDocuments doctor) (isVerified doctor) (reviews doctor)
    (averageRating doctor) (totalReviews doctor).

(** The ten assignments of [updateDoctorProfile]: [availability] is not read. *)
Definition updateDoctorProfile_fields (doctor : Doctor) (b : UpdateBody) : Doctor :=
  mkDoctor (dr_id doctor) (dr_user doctor) (registrationNumber doctor)
    (registrationCouncil doctor)
    (if_truthy (ub_qualifications b) (qualifications doctor))
    (if_truthy (ub_specialties b) (specialties doctor))
    (if_truthy (ub_experience b) (experience doctor))
    (if_truthy (ub_clinicDetails b) (clinicDetails doctor))
    (if_truthy (ub_hospitalAffiliations b) (hospitalAffiliations doctor))
    (if_truthy (ub_consultationFee b) (consultationFee doctor))
    (if_truthy (ub_languages b) (languages doctor))
    (if_truthy (ub_bio b) (bio doctor))
    (if_defined (ub_videoConsultation b) (videoConsultation doctor))
    (if_defined (ub_acceptingNewPatients b) (acceptingNewPatients doctor))
    (availability doctor)
    (verificationDocuments doctor) (isVerified doctor) (reviews doctor)
    (averageRating doctor) (totalReviews doctor).

Definition with_documents (doctor : Doctor) (docs : list VerificationDocument)
    (verified : bool) : Doctor :=
  mkDoctor (dr_id doctor) (dr_user doctor) (registrationNumber doctor)
    (registrationCouncil doctor) (qualifications doctor) (specialties doctor)
    (experience doctor) (clinicDetails doctor) (hospitalAffiliations doctor)
    (consultationFee doctor) (languages doctor) (bio doctor)
    (videoConsultation doctor) (acceptingNewPatients doctor) (availability doctor)
    docs verified (reviews doctor) (averageRating doctor) (totalReviews doctor).

Definition updateDoctor (doctorId : ObjectId) (user : AuthUser) (body : UpdateBody)
    (files : list File) : IO (Response Doctor) :=
  try_catch
    (doctor <- Doctor_findById doctorId ;;
     match doctor with
     | None => ret (fail 404%nat "Doctor not found")
     | Some doctor =>
       if negb (Nat.eqb (dr_user doctor) (au_id user))
          && negb (au_role user =? "admin")%string then
         ret (fail 403%nat "Not authorized to update this profile")
       else
         let doctor := updateDoctor_fields doctor body in
         doctor <-
           match files with
           | [] => ret doctor
           | _ =>
             docs <- upload_all files (verificationDocuments doctor) ;;
             ret (with_documents doctor docs false)
           end ;;
         Doctor_save false doctor ;;;
         ret (mkResponse 200%nat true "Doctor profile updated successfully" (Some doctor))
     end)
    (ret server_error).

Definition updateDoctorProfile (user : AuthUser) (body : UpdateBody)
    : IO (Response Doctor) :=
  try_catch
    (doctor <- Doctor_findOne (fun d => Nat.eqb (dr_user d) (au_id user)) ;;
     match doctor with
     | None => ret (fail 404%nat "Doctor profile not found")
     | Some doctor =>
       let doctor := updateDoctorProfile_fields doctor body in
       Doctor_save false doctor ;;;
       ret (mkResponse 200%nat true "Doctor profile updated successfully" (Some doctor))
     end)
    (ret server_error).

(** ** The JavaScript [Date] object

    A time value is a number of milliseconds since the epoch.  The functions
    are the abstract operations of ECMAScript (Day, WeekDay, DayFromYear,
    YearFromTime, MonthFromTime, MakeDay, MakeTime, LocalTime, UTC).  The time
    zone of the server is a fixed offset [tza], in milliseconds, of local time
    from UTC (no daylight saving). *)

Module JSDate.

Definition msPerDay : Z := 86400000.

Definition Day (t : Z) : Z := t / msPerDay.

Definition WeekDay (t : Z) : Z := (Day t + 4) mod 7.

Definition DayFromYear (y : Z) : Z :=
  365 * (y - 1970) + (y - 1969) / 4 - (y - 1901) / 100 + (y - 1601) / 400.

Definition InLeapYear (y : Z) : bool :=
  ((y mod 4 =? 0) && negb (y mod 100 =? 0)) || (y mod 400 =? 0).

(** The largest [y] with [DayFromYear y <= d], found from an estimate that is
    off by at most one year. *)
Definition YearFromDay (d : Z) : Z :=
  let y0 := 1970 + (d * 400) / 146097 in
  if DayFromYear (y0 + 1) <=? d then y0 + 1
  else if DayFromYear y0 <=? d then y0
  else y0 - 1.

Definition YearFromTime (t : Z) : Z := YearFromDay (Day t).

(** The day within the year on which month [m] (0 = January) starts. *)
Definition month_start (leap : bool) (m : Z) : Z :=
  let l := if leap then 1 else 0 in
  if m <=? 0 then 0
  else if m =? 1 then 31
  else if m =? 2 then 59 + l
  else if m =? 3 then 90 + l
  else if m =? 4 then 120 + l
  else if m =? 5 then 151 + l
  else if m =? 6 then 181 + l
  else if m =? 7 then 212 + l
  else if m =? 8 then 243 + l
  else if m =? 9 then 273 + l
  else if m =? 10 then 304 + l
  else if m =? 11 then 334 + l
  else 365 + l.

Definition MonthFromTime (t : Z) : Z :=
  let y := YearFromTime t in
  let leap := InLeapYear y in
  let d := Day t - DayFromYear y in
  if d <? month_start leap 1 then 0
  else if d <? month_start leap 2 then 1
  else if d <? month_start leap 3 then 2
  else if d <? month_start leap 4 then 3
  else if d <? month_start leap 5 then 4
  else if d <? month_start leap 6 then 5
  else if d <? month_start leap 7 then 6
  else if d <? month_start leap 8 then 7
  else if d <? month_start leap 9 then 8
  else if d <? month_start leap 10 then 9
  else if d <? month_start leap 11 then 10
  else 11.

(** [MakeDay(year, month, date)]: months outside 0..11 carry into the year. *)
Definition MakeDay (year month date : Z) : Z :=
  let ym := year + month / 12 in
  let mn := month mod 12 in
  DayFromYear ym + month_start (InLeapYear ym) mn + date - 1.

Definition MakeTime (h m s ms : Z) : Z :=
  h * 3600000 + m * 60000 + s * 1000 + ms.

Definition MakeDate (d time : Z) : Z := d * msPerDay + time.

Section Zone.
Variable tza : Z.

Definition LocalTime (t : Z) : Z := t + tza.
Definition UTC (t : Z) : Z := t - tza.

(** [new Date(year, month, date)]; a year in 0..99 means 1900 + year. *)
Definition Date_ymd (year month date : Z) : Z :=
  let yr := if (0 <=? year) && (year <=? 99) then 1900 + year else year in
  UTC (MakeDate (MakeDay yr month date) 0).

Definition getFullYear (t : Z) : Z := YearFromTime (LocalTime t).
Definition getMonth (t : Z) : Z := MonthFromTime (LocalTime t).
Definition getDay (t : Z) : Z := WeekDay (LocalTime t).

(** [d.setHours(h, m, s)]: the local day and the milliseconds are kept. *)
Definition setHours (t h m s : Z) : Z :=
  let lt := LocalTime t in
  UTC (MakeDate (Day lt) (MakeTime h m s (lt mod 1000))).

End Zone.

(** MongoDB's [$year] and [$month] read a date in UTC; [$month] counts from 1. *)
Definition mongo_year (t : Z) : Z := YearFromTime t.
Definition mongo_month (t : Z) : Z := MonthFromTime t + 1.

End JSDate.
Export JSDate.

(** [new Date("YYYY-MM-DD")]: ECMAScript reads a date-only string as the UTC
    midnight of that date, whatever the zone of the server ("date-only forms
    are interpreted as a UTC time"); [month] counts from 1, as in the
    string. *)
Definition Date_parse_date_only (year month date : Z) : Z :=
  MakeDate (MakeDay year (month - 1) date) 0.

(** ** addDoctorReview *)

Record ReviewBody := mkReviewBody {
  rb_rating : option Z;       (* [None]: no rating was sent *)
  rb_comment : string
}.

(** [!rating || rating < 1 || rating > 5] *)
Definition rating_rejected (r : option Z) : bool :=
  match r with
  | None => true
  | Some n => (n =? 0) || (n <? 1) || (5 <? n)
  end.

(** [Array.prototype.findIndex]: the first index whose element satisfies [p],
    or -1. *)
Fixpoint findIndex_from {A} (p : A -> bool) (l : list A) (i : Z) : Z :=
  match l with
  | [] => -1
  | x :: rest => if p x then i else findIndex_from p rest (i + 1)
  end.

Definition findIndex {A} (p : A -> bool) (l : list A) : Z := findIndex_from p l 0.

Definition with_reviews (doctor : Doctor) (rs : list Review) : Doctor :=
  mkDoctor (dr_id doctor) (dr_user doctor) (registrationNumber doctor)
    (registrationCouncil doctor) (qualifications doctor) (specialties doctor)
    (experience doctor) (clinicDetails doctor) (hospitalAffiliations doctor)
    (consultationFee doctor) (languages doctor) (bio doctor)
    (videoConsultation doctor) (acceptingNewPatients doctor) (availability doctor)
    (verificationDocuments doctor) (isVerified doctor) rs
    (averageRating doctor) (totalReviews doctor).

Definition with_averageRating (doctor : Doctor) (avg : Q) : Doctor :=
  mkDoctor (dr_id doctor) (dr_user doctor) (registrationNumber doctor)
    (registrationCouncil doctor) (qualifications doctor) (specialties doctor)
    (experience doctor) (clinicDetails doctor) (hospitalAffiliations doctor)
    (consultationFee doctor) (languages doctor) (bio doctor)
    (videoConsultation doctor) (acceptingNewPatients doctor) (availability doctor)
    (verificationDocuments doctor) (isVerified doctor) (reviews doctor)
    avg (totalReviews doctor).

Definition average_of (rs : list Review) : Q :=
  match rs with
  | [] => Qmake 0 1
  | _ => Qmake (fold_right (fun r acc => rv_rating r + acc) 0 rs)
               (Pos.of_nat (length rs))
  end.

(** Modelled from the spec: [doctor.updateAverageRating()] is a method of the
    Doctor model, which is not part of the controller.  "After every
    insert/update, the doctor's cached average rating must be recomputed from
    the full review list": the mean of the ratings is stored in the document
    and the document is saved; the review list is left as it is. *)
Definition updateAverageRating (doctor : Doctor) : IO Doctor :=
  let doctor := with_averageRating doctor (average_of (reviews doctor)) in
  Doctor_save false doctor ;;;
  ret doctor.

(** The review list after the find-then-update-or-push of the handler. *)
Definition upsert_review (rs : list Review) (patient : ObjectId)
    (rating : Z) (comment : string) (now : Z) : list Review :=
  let existingReviewIndex := findIndex (fun r => Nat.eqb (rv_patient r) patient) rs in
  if -1 <? existingReviewIndex then
    alter (fun r => mkReview (rv_patient r) rating comment now)
          (Z.to_nat existingReviewIndex) rs
  else
    (rs ++ [mkReview patient rating comment now])%list.

(** [now] is the value of [Date.now()]. *)
Definition addDoctorReview (now : Z) (doctorId : ObjectId) (user : AuthUser)
    (body : ReviewBody) : IO (Response (list Review)) :=
  try_catch
    (match rb_rating body with
     | Some rating =>
       if rating_rejected (rb_rating body) then
         ret (fail 400%nat "Rating must be between 1 and 5")
       else
         doctor <- Doctor_findById doctorId ;;
         match doctor with
         | None => ret (fail 404%nat "Doctor not found")
         | Some doctor =>
           patient <- Patient_findOne (fun p => Nat.eqb (pt_user p) (au_id user)) ;;
           match patient with
           | None => ret (fail 404%nat "Patient profile not found")
           | Some patient =>
             hadAppointment <- Appointment_findOne (fun a =>
               Nat.eqb (ap_doctor a) doctorId && Nat.eqb (ap_patient a) (pt_id patient)
               && (status a =? "completed")%string) ;;
             match hadAppointment with
             | None =>
               ret (fail 403%nat
                      "You can only review doctors after completing an appointment")
             | Some _ =>
               let doctor :=
                 with_reviews doctor
                   (upsert_review (reviews doctor) (pt_id patient) rating
                      (rb_comment body) now) in
               doctor <- updateAverageRating doctor ;;
               ret (mkResponse 200%nat true "Review added successfully"
                      (Some (reviews doctor)))
             end
           end
         end
     | None => ret (fail 400%nat "Rating must be between 1 and 5")
     end)
    (ret server_error).

(** ** getDoctorAvailability *)

(** The [date] of the query string, as [new Date(date)] reads it. *)
Inductive DateParam :=
| NoDate                    (* absent or empty: [if (date)] fails *)
| InvalidDate               (* [new Date(date)] is an Invalid Date *)
| ValidDate (t : Z).

Record BookedSlot := mkBookedSlot {
  bs_slot : Slot;
  isBooked : bool
}.

Inductive AvailabilityData :=
| OnDay (dayOfWeek : string) (available : bool) (availableSlots : list BookedSlot)
| Schedule (week : list DayAvailability).

Definition day_names : list string :=
  ["Sunday"; "Monday"; "Tuesday"; "Wednesday"; "Thursday"; "Friday"; "Saturday"].

(** [bookedSlots.includes(s)] *)
Definition includes (l : list string) (s : string) : bool :=
  existsb (fun x => (x =? s)%string) l.

(** The filter of the appointment query:
    [{ doctor, appointmentDate: { $gte: lo, $lt: hi }, status: { $nin: [...] } }] *)
Definition booked_on (doctorId : ObjectId) (lo hi : Z) (a : Appointment) : bool :=
  Nat.eqb (ap_doctor a) doctorId
  && (lo <=? appointmentDate a) && (appointmentDate a <? hi)
  && negb (includes ["cancelled"; "no-show"] (status a)).

Definition getDoctorAvailability (tza : Z) (doctorId : ObjectId) (date : DateParam)
    : IO (Response AvailabilityData) :=
  try_catch
    (doctor <- Doctor_findById doctorId ;;
     match doctor with
     | None => ret (fail 404%nat "Doctor not found")
     | Some doctor =>
       match date with
       | NoDate =>
         ret (mkResponse 200%nat true "" (Some (Schedule (availability doctor))))
       | InvalidDate =>
         (* the query is given an Invalid Date and is rejected *)
         (fun _ t w => (Thrown, t, w))
       | ValidDate queryDate =>
         let dayOfWeek := nth (Z.to_nat (getDay tza queryDate)) day_names "" in
         let lo := setHours tza queryDate 0 0 0 in
         let hi := setHours tza lo 23 59 59 in
         appointments <- Appointment_find (booked_on doctorId lo hi) ;;
         let bookedSlots := map appointmentTime appointments in
         let dayAvailability :=
           List.find (fun a => (day a =? dayOfWeek)%string) (availability doctor) in
         match dayAvailability with
         | Some da =>
           if negb (isAvailable da) then
             ret (mkResponse 200%nat true "" (Some (OnDay dayOfWeek false [])))
           else
             let availableSlots :=
               map (fun slot => mkBookedSlot slot (includes bookedSlots (startTime slot)))
                   (slots da) in
             ret (mkResponse 200%nat true "" (Some (OnDay dayOfWeek true availableSlots)))
         | None =>
           ret (mkResponse 200%nat true "" (Some (OnDay dayOfWeek false [])))
         end
       end
     end)
    (ret server_error).

(** ** getMonthlyAppointmentStats *)

(** A document of the aggregation: [{ _id: { month, year }, count }]. *)
Record MonthGroup := mkMonthGroup {
  g_month : Z;
  g_year : Z;
  g_count : Z
}.

Record MonthStat := mkMonthStat {
  ms_month : string;
  ms_year : Z;
  ms_count : Z
}.

(** [$group] with [count: { $sum: 1 }]: one more in the group of the key. *)
Fixpoint group_add (m y : Z) (gs : list MonthGroup) : list MonthGroup :=
  match gs with
  | [] => [mkMonthGroup m y 1]
  | g :: rest =>
    if (g_month g =? m) && (g_year g =? y)
    then mkMonthGroup m y (g_count g + 1) :: rest
    else g :: group_add m y rest
  end.

Definition group_by_month (docs : list Appointment) : list MonthGroup :=
  fold_left
    (fun gs a => group_add (mongo_month (createdAt a)) (mongo_year (createdAt a)) gs)
    docs [].

(** [$sort: { "_id.year": 1, "_id.month": 1 }] *)
Definition group_le (a b : MonthGroup) : bool :=
  (g_year a <? g_year b) || ((g_year a =? g_year b) && (g_month a <=? g_month b)).

Fixpoint insert_group (g : MonthGroup) (l : list MonthGroup) : list MonthGroup :=
  match l with
  | [] => [g]
  | h :: rest => if group_le g h then g :: h :: rest else h :: insert_group g rest
  end.

Definition sort_groups (l : list MonthGroup) : list MonthGroup :=
  fold_right insert_group [] l.

(** The pipeline [$match], [$group], [$sort] over the collection. *)
Definition aggregate_months (doctorId : ObjectId) (sixMonthsAgo : Z)
    (docs : list Appointment) : list MonthGroup :=
  sort_groups
    (group_by_month
       (List.filter
          (fun a => Nat.eqb (ap_doctor a) doctorId && (sixMonthsAgo <=? createdAt a))
          docs)).

Definition month_names : list string :=
  ["Jan"; "Feb"; "Mar"; "Apr"; "May"; "Jun"; "Jul"; "Aug"; "Sep"; "Oct"; "Nov"; "Dec"].

(** The body of the loop for one [i]. *)
Definition month_entry (tza now : Z) (appointments : list MonthGroup) (i : Z) : MonthStat :=
  let d := Date_ymd tza (getFullYear tza now) (getMonth tza now - i) 1 in
  let month := getMonth tza d in
  let year := getFullYear tza d in
  let found :=
    List.find (fun a => (g_month a =? month + 1) && (g_year a =? year)) appointments in
  mkMonthStat (nth (Z.to_nat month) month_names "") year
    (match found with Some a => g_count a | None => 0 end).

(** [now] is the value of [new Date()]; [results.unshift] puts each entry in
    front of the earlier ones. *)
Definition getMonthlyAppointmentStats (tza now : Z) (doctorId : ObjectId)
    : IO (list MonthStat) :=
  let sixMonthsAgo := Date_ymd tza (getFullYear tza now) (getMonth tza now - 5) 1 in
  appointments <-
    await_db (fun w =>
      (aggregate_months doctorId sixMonthsAgo (appointments (committed w)), w)) ;;
  ret (fold_left (fun results i => month_entry tza now appointments i :: results)
         [0; 1; 2; 3; 4; 5] []).

(** ** What the contracts ask for

    These definitions follow the words of the specification; the theorems
    below compare the handlers with them. *)

(** "One review per (doctor, patient) pair". *)
Definition reviews_unique (rs : list Review) : Prop := NoDup (map rv_patient rs).

Definition reviews_by (patient : ObjectId) (rs : list Review) : list Review :=
  List.filter (fun r => Nat.eqb (rv_patient r) patient) rs.

(** "An appointment with status 'completed' exists between P and D". *)
Definition completed_between (doctorId patient : ObjectId) (a : Appointment) : Prop :=
  ap_doctor a = doctorId /\ ap_patient a = patient /\ status a = "completed".

(** "A non-cancelled, non-no-show appointment exists at that exact start time
    on that date": the appointment is dated on the local day of the queried
    date. *)
Definition spec_booked (tza : Z) (doctorId : ObjectId) (queryDate : Z)
    (docs : list Appointment) (slot : Slot) : bool :=
  existsb
    (fun a =>
       Nat.eqb (ap_doctor a) doctorId
       && (Day (LocalTime tza (appointmentDate a)) =? Day (LocalTime tza queryDate))
       && (appointmentTime a =? startTime slot)%string
       && negb (status a =? "cancelled")%string
       && negb (status a =? "no-show")%string)
    docs.

(** "The number of appointments whose creation timestamp falls in that calendar
    month for that doctor", the calendar being read [zone] milliseconds from
    UTC. *)
Definition spec_month_count (zone : Z) (doctorId : ObjectId) (year month : Z)
    (docs : list Appointment) : Z :=
  Z.of_nat (length (List.filter
    (fun a =>
       Nat.eqb (ap_doctor a) doctorId
       && (YearFromTime (createdAt a + zone) =? year)
       && (MonthFromTime (createdAt a + zone) =? month))
    docs)).

(** "Exactly 6 entries, one per calendar month, covering the current month and
    the 5 preceding months, oldest first". *)
Definition spec_monthly_stats (zone now : Z) (doctorId : ObjectId)
    (docs : list Appointment) : list MonthStat :=
  map
    (fun i =>
       let ym := 12 * YearFromTime (now + zone) + MonthFromTime (now + zone) - i in
       let year := ym / 12 in
       let month := ym mod 12 in
       mkMonthStat (nth (Z.to_nat month) month_names "") year
         (spec_month_count zone doctorId year month docs))
    [5; 4; 3; 2; 1; 0].

(** The writes the specification lists for a deletion: "profile delete + role
    write + appointment bulk-update". *)
Definition spec_deletion_mutation (doctor : Doctor) (db : DB) : DB :=
  mkDB (List.filter (fun d => negb (Nat.eqb (dr_id d) (dr_id doctor))) (doctors db))
       (map (fun u => if Nat.eqb (us_id u) (dr_user doctor) then set_role u "user" else u)
            (users db))
       (patients db)
       (map (fun a => if not_completed_of (dr_id doctor) a then cancel_appointment a else a)
            (appointments db)).

(** The writes of the admin handler: the profile delete and the role write. *)
Definition admin_deletion_mutation (doctor : Doctor) (db : DB) : DB :=
  mkDB (List.filter (fun d => negb (Nat.eqb (dr_id d) (dr_id doctor))) (doctors db))
       (map (fun u => if Nat.eqb (us_id u) (dr_user doctor) then set_role u "user" else u)
            (users db))
       (patients db)
       (appointments db).

(** The rule of the update handlers for one stored field. *)
Definition written_if (test : jsval -> bool) (sent old new : jsval) : Prop :=
  (test sent = true -> new = sent) /\ (test sent = false -> new = old).

(** [avail] is the availability the handler reads from the body:
    [updateDoctor] writes it when it is truthy, [updateDoctorProfile] does not
    read it. *)
Definition update_rule (avail : option (list DayAvailability)) (b : UpdateBody)
    (old new : Doctor) : Prop :=
  written_if truthy (ub_qualifications b) (qualifications old) (qualifications new)
  /\ written_if truthy (ub_specialties b) (specialties old) (specialties new)
  /\ written_if truthy (ub_experience b) (experience old) (experience new)
  /\ written_if truthy (ub_clinicDetails b) (clinicDetails old) (clinicDetails new)
  /\ written_if truthy (ub_hospitalAffiliations b) (hospitalAffiliations old)
       (hospitalAffiliations new)
  /\ written_if truthy (ub_consultationFee b) (consultationFee old) (consultationFee new)
  /\ written_if truthy (ub_languages b) (languages old) (languages new)
  /\ written_if truthy (ub_bio b) (bio old) (bio new)
  /\ written_if defined (ub_videoConsultation b) (videoConsultation old)
       (videoConsultation new)
  /\ written_if defined (ub_acceptingNewPatients b) (acceptingNewPatients old)
       (acceptingNewPatients new)
  /\ availability new = match avail with Some a => a | None => availability old end.

(** What a run of a transactional handler may leave: no open transaction; on
    failure the committed database as it was; on success what [Q] says. *)
Definition all_or_nothing {D} (w : World) (r : Outcome (Response D) * World)
    (Q : Response D -> DB -> Prop) : Prop :=
  pending (snd r) = None
  /\ (succeeded (fst r) = false -> committed (snd r) = committed w)
  /\ (forall resp, fst r = Ok resp -> res_success resp = true -> Q resp (committed (snd r))).

(** What an update request may leave in the collection: each stored document
    is a document that was stored before, or the target with its fields
    written by the rule. *)
Definition stored_after_update (avail : option (list DayAvailability)) (b : UpdateBody)
    (before after : list Doctor) : Prop :=
  forall new, In new after ->
    In new before
    \/ exists old, In old before /\ dr_id new = dr_id old /\ update_rule avail b old new.

(** ** Sample data *)

Module Sample.

Definition doctor : Doctor :=
  mkDoctor 1%nat 10%nat "REG-1" JUndefined (JArr []) (JArr []) (JNum 5) JUndefined
    (JArr []) (JNum 500) (JArr []) (JStr "Cardiologist") (JBool true) (JBool true)
    [mkDayAvailability "Monday" true [mkSlot "10:00" "10:30"; mkSlot "11:00" "11:30"];
     mkDayAvailability "Tuesday" false [mkSlot "10:00" "10:30"]]
    [mkVerificationDocument "licence.pdf" "files/licence.pdf" false]
    true [] (Qmake 0 1) 0%nat.

Definition doctor_user : AuthUser := mkAuthUser 10%nat "doctor".
Definition patient_user : AuthUser := mkAuthUser 20%nat "user".
Definition admin_user : AuthUser := mkAuthUser 30%nat "admin".

(** 2024-07-15T00:00:00.000Z, a Monday. *)
Definition monday : Z := 1721001600000.

(** A visit of patient 5 on that Monday at 10:00, booked on 2024-07-01. *)
Definition visit (st : string) : Appointment :=
  mkAppointment 100%nat 1%nat 5%nat monday "10:00" st None 1719792000000.

(** The same patient's visit dated 23:59:59 on that Monday. *)
Definition late_visit : Appointment :=
  mkAppointment 101%nat 1%nat 5%nat (monday + 86399000) "10:00" "scheduled" None
    1719792000000.

(** An appointment of doctor 1 created at the instant [created]. *)
Definition booking (id : ObjectId) (created : Z) : Appointment :=
  mkAppointment id 1%nat 5%nat monday "10:00" "scheduled" None created.

(** The doctor with a review of patient 5 and one of patient 6. *)
Definition reviewed_doctor : Doctor :=
  with_reviews doctor [mkReview 5%nat 3 "Fine" 1719800000000;
                       mkReview 6%nat 5 "Great" 1719900000000].

Definition db_of (d : Doctor) (appts : list Appointment) : DB :=
  mkDB [d]
       [mkUser 10%nat "doctor"; mkUser 20%nat "user"; mkUser 30%nat "admin"]
       [mkPatient 5%nat 20%nat]
       appts.

Definition world_of (d : Doctor) (appts : list Appointment) : World :=
  mkWorld (db_of d appts) None ["files/licence.pdf"] [].

Definition world (appts : list Appointment) : World := world_of doctor appts.

End Sample.

(** * The other handlers of the controller

    The handlers below are embedded on the same world.  [populate] is left
    out: a response carries the stored document, with references where the
    controller asks Mongoose to join the user or the patient. *)

(** ** Sorting and paging *)

(** A stable sort by insertion: [before x y] says that [x] may stand before
    [y].  It stands for [Array.prototype.sort] with a comparator, which is
    stable, and for the [sort] of a query.  MongoDB leaves the order of the
    documents that tie on the sort key open; the model keeps them in the order
    of the collection.  The properties of the queries below either hold for
    every order of the ties or assume that no two matching documents tie. *)
Fixpoint insert_by {A} (before : A -> A -> bool) (x : A) (l : list A) : list A :=
  match l with
  | [] => [x]
  | y :: rest => if before x y then x :: y :: rest else y :: insert_by before x rest
  end.

Definition sort_by {A} (before : A -> A -> bool) (l : list A) : list A :=
  fold_right (insert_by before) [] l.

(** [parseInt(s) || d]: [parsed] is the integer [parseInt] reads, if any. *)
Definition or_default (parsed : option Z) (d : Z) : Z :=
  match parsed with
  | Some n => if n =? 0 then d else n
  | None => d
  end.

(** [Math.ceil(total / limit)], for a limit that is not 0. *)
Definition ceil_div (total limit : Z) : Z := - ((- total) / limit).

Record Pagination := mkPagination {
  pg_total : nat;
  pg_page : Z;
  pg_limit : Z;
  pg_pages : Z
}.

(** What [.sort(...).skip(skip).limit(limit)] keeps of the matching documents;
    a negative limit counts as its absolute value. *)
Definition find_page {A} (before : A -> A -> bool) (skip limit : Z) (matching : list A)
    : list A :=
  firstn (Z.to_nat (Z.abs limit)) (skipn (Z.to_nat skip) (sort_by before matching)).

Module Queries.

(** A query the database refuses. *)
Definition refused {A} : IO A :=
  fun _ t w => (Thrown, mkTicks (S (db_calls t)) (fs_calls t), w).

(** [Appointment.find(filter).sort(...).skip(skip).limit(limit)]; the database
    refuses a negative skip. *)
Definition Appointment_find_page (p : Appointment -> bool)
    (before : Appointment -> Appointment -> bool) (skip limit : Z)
    : IO (list Appointment) :=
  if skip <? 0 then refused
  else await_db (fun w =>
         (find_page before skip limit (List.filter p (appointments (committed w))), w)).

Definition Doctor_find_page (p : Doctor -> bool)
    (before : Doctor -> Doctor -> bool) (skip limit : Z) : IO (list Doctor) :=
  if skip <? 0 then refused
  else await_db (fun w =>
         (find_page before skip limit (List.filter p (doctors (committed w))), w)).

Definition Doctor_countDocuments (p : Doctor -> bool) : IO nat :=
  await_db (fun w => (length (List.filter p (doctors (committed w))), w)).

(** [Appointment.distinct('patient', filter)] *)
Definition Appointment_distinct_patient (p : Appointment -> bool) : IO (list ObjectId) :=
  await_db (fun w =>
    (nodup Nat.eq_dec (map ap_patient (List.filter p (appointments (committed w)))), w)).

End Queries.
Export Queries.

(** ** getDoctorById, getDoctorProfile *)

Definition getDoctorById (doctorId : ObjectId) : IO (Response Doctor) :=
  try_catch
    (doctor <- Doctor_findById doctorId ;;
     match doctor with
     | None => ret (fail 404%nat "Doctor not found")
     | Some doctor =>
       if negb (isVerified doctor) then
         ret (fail 403%nat "This doctor profile is not available")
       else
         ret (mkResponse 200%nat true "" (Some doctor))
     end)
    (ret server_error).

Definition getDoctorProfile (user : AuthUser) : IO (Response Doctor) :=
  try_catch
    (doctor <- Doctor_findOne (fun d => Nat.eqb (dr_user d) (au_id user)) ;;
     match doctor with
     | None => ret (fail 404%nat "Doctor profile not found")
     | Some doctor => ret (mkResponse 200%nat true "" (Some doctor))
     end)
    (ret server_error).

(** ** verifyDoctor *)

(** [doc.verified = true] *)
Definition mark_verified (doc : VerificationDocument) : VerificationDocument :=
  mkVerificationDocument (vd_name doc) (vd_url doc) true.

Definition verifyDoctor (doctorId : ObjectId) (user : AuthUser) : IO (Response Doctor) :=
  try_catch
    (if negb (au_role user =? "admin")%string then
       ret (fail 403%nat "Not authorized to verify doctors")
     else
       doctor <- Doctor_findById doctorId ;;
       match doctor with
       | None => ret (fail 404%nat "Doctor not found")
       | Some doctor =>
         let doctor :=
           with_documents doctor (map mark_verified (verificationDocuments doctor)) true in
         Doctor_save false doctor ;;;
         ret (mkResponse 200%nat true "Doctor verified successfully" (Some doctor))
       end)
    (ret server_error).

(** ** updateDoctorAvailability, updateAvailability *)

Definition with_availability (doctor : Doctor) (a : list DayAvailability) : Doctor :=
  mkDoctor (dr_id doctor) (dr_user doctor) (registrationNumber doctor)
    (registrationCouncil doctor) (qualifications doctor) (specialties doctor)
    (experience doctor) (clinicDetails doctor) (hospitalAffiliations doctor)
    (consultationFee doctor) (languages doctor) (bio doctor)
    (videoConsultation doctor) (acceptingNewPatients doctor) a
    (verificationDocuments doctor) (isVerified doctor) (reviews doctor)
    (averageRating doctor) (totalReviews doctor).

(** [sent] is the [availability] of the body, [None] when it is not an array. *)
Definition updateDoctorAvailability (doctorId : ObjectId) (user : AuthUser)
    (sent : option (list DayAvailability))
    : IO (Response (list DayAvailability)) :=
  try_catch
    (doctor <- Doctor_findById doctorId ;;
     match doctor with
     | None => ret (fail 404%nat "Doctor not found")
     | Some doctor =>
       if negb (Nat.eqb (dr_user doctor) (au_id user)) then
         ret (fail 403%nat "Not authorized to update availability")
       else
         match sent with
         | None => ret (fail 400%nat "Availability must be an array")
         | Some week =>
           let doctor := with_availability doctor week in
           Doctor_save false doctor ;;;
           ret (mkResponse 200%nat true "Availability updated successfully"
                  (Some (availability doctor)))
         end
     end)
    (ret server_error).

Definition updateAvailability (user : AuthUser)
    (sent : option (list DayAvailability))
    : IO (Response (list DayAvailability)) :=
  try_catch
    (doctor <- Doctor_findOne (fun d => Nat.eqb (dr_user d) (au_id user)) ;;
     match doctor with
     | None => ret (fail 404%nat "Doctor profile not found")
     | Some doctor =>
       match sent with
       | None => ret (fail 400%nat "Availability must be an array")
       | Some week =>
         let doctor := with_availability doctor week in
         Doctor_save false doctor ;;;
         ret (mkResponse 200%nat true "Availability updated successfully"
                (Some (availability doctor)))
       end
     end)
    (ret server_error).

(** ** getDoctorAppointments *)

Record AppointmentQuery := mkAppointmentQuery {
  aq_page : option Z;        (* [parseInt(req.query.page)], if it is a number *)
  aq_limit : option Z;
  aq_status : string;        (* the empty string: no status was given *)
  aq_startDate : DateParam;
  aq_endDate : DateParam
}.

(** The [filter] object the handler builds, or [None] when a date of the range
    is an Invalid Date, which the query refuses to cast. *)
Definition appointment_filter (doctorId : ObjectId) (q : AppointmentQuery)
    : option (Appointment -> bool) :=
  let by_status (a : Appointment) :=
    if (aq_status q =? "")%string then true else (status a =? aq_status q)%string in
  match aq_startDate q, aq_endDate q with
  | NoDate, _ | _, NoDate =>
    Some (fun a => Nat.eqb (ap_doctor a) doctorId && by_status a)
  | ValidDate lo, ValidDate hi =>
    Some (fun a => Nat.eqb (ap_doctor a) doctorId && by_status a
                   && (lo <=? appointmentDate a) && (appointmentDate a <=? hi))
  | _, _ => None
  end.

(** [sort({ appointmentDate: -1, appointmentTime: -1 })] *)
Definition latest_first (a b : Appointment) : bool :=
  (appointmentDate b <? appointmentDate a)
  || ((appointmentDate b =? appointmentDate a)
      && String.leb (appointmentTime b) (appointmentTime a)).

Definition getDoctorAppointments (user : AuthUser) (q : AppointmentQuery)
    : IO (Response (list Appointment * Pagination)) :=
  try_catch
    (doctor <- Doctor_findOne (fun d => Nat.eqb (dr_user d) (au_id user)) ;;
     match doctor with
     | None => ret (fail 404%nat "Doctor profile not found")
     | Some doctor =>
       let page := or_default (aq_page q) 1 in
       let limit := or_default (aq_limit q) 10 in
       let skip := (page - 1) * limit in
       match appointment_filter (dr_id doctor) q with
       | None => refused
       | Some filter =>
         appointments <- Appointment_find_page filter latest_first skip limit ;;
         total <- Appointment_countDocuments filter ;;
         ret (mkResponse 200%nat true ""
                (Some (appointments,
                       mkPagination total page limit (ceil_div (Z.of_nat total) limit))))
       end
     end)
    (ret server_error).

(** ** filterDoctorsBySpecialty *)

(** [{ specialties: { $regex: specialty, $options: 'i' } }] on the stored
    specialties: a string matches by itself, an array when one of its strings
    does.  [matches] is the case-insensitive match of the pattern. *)
Definition specialty_matches (matches : string -> bool) (v : jsval) : bool :=
  match v with
  | JStr s => matches s
  | JArr items =>
    existsb (fun item => match item with JStr s => matches s | _ => false end) items
  | _ => false
  end.

(** [sort({ averageRating: -1 })] *)
Definition best_rated_first (a b : Doctor) : bool :=
  Qle_bool (averageRating b) (averageRating a).

(** [regex_i pattern] is MongoDB's case-insensitive match of [pattern], or
    [None] when [pattern] is not a regular expression and the query is
    refused. *)
Definition filterDoctorsBySpecialty (regex_i : string -> option (string -> bool))
    (specialty : string) (page_sent limit_sent : option Z)
    : IO (Response (list Doctor * Pagination)) :=
  try_catch
    (let page := or_default page_sent 1 in
     let limit := or_default limit_sent 10 in
     let skip := (page - 1) * limit in
     if (specialty =? "")%string then
       ret (fail 400%nat "Specialty is required")
     else
       match regex_i specialty with
       | None => refused
       | Some matches =>
         let filter (d : Doctor) := specialty_matches matches (specialties d) && isVerified d in
         doctors <- Doctor_find_page filter best_rated_first skip limit ;;
         total <- Doctor_countDocuments filter ;;
         ret (mkResponse 200%nat true ""
                (Some (doctors,
                       mkPagination total page limit (ceil_div (Z.of_nat total) limit))))
       end)
    (ret server_error).

(** ** getDoctorReviews *)

Record ReviewsData := mkReviewsData {
  rd_reviews : list Review;
  rd_averageRating : Q;
  rd_totalReviews : nat
}.

(** The comparator [(a, b) => b.date - a.date]. *)
Definition newest_first (a b : Review) : bool := rv_date b <=? rv_date a.

Definition getDoctorReviews (user : AuthUser) : IO (Response ReviewsData) :=
  try_catch
    (doctor <- Doctor_findOne (fun d => Nat.eqb (dr_user d) (au_id user)) ;;
     match doctor with
     | None => ret (fail 404%nat "Doctor profile not found")
     | Some doctor =>
       let reviews := sort_by newest_first (reviews doctor) in
       ret (mkResponse 200%nat true ""
              (Some (mkReviewsData reviews (averageRating doctor) (totalReviews doctor))))
     end)
    (ret server_error).

(** ** getDoctorDashboardStats *)

Module JSDateFields.

(** [DateFromTime]: the day of the month, from 1. *)
Definition DateFromTime (t : Z) : Z :=
  let y := YearFromTime t in
  Day t - DayFromYear y - month_start (InLeapYear y) (MonthFromTime t) + 1.

Definition getDate (tza t : Z) : Z := DateFromTime (LocalTime tza t).

(** [d.setDate(date)]: the local year, month and time of day are kept. *)
Definition setDate (tza t date : Z) : Z :=
  let lt := LocalTime tza t in
  UTC tza (MakeDate (MakeDay (YearFromTime lt) (MonthFromTime lt) date) (lt mod msPerDay)).

(** [d.setHours(h, m, s, ms)] *)
Definition setHours_ms (tza t h m s ms : Z) : Z :=
  UTC tza (MakeDate (Day (LocalTime tza t)) (MakeTime h m s ms)).

End JSDateFields.
Export JSDateFields.

Record DashboardData := mkDashboardData {
  todayAppointments : list Appointment;
  upcomingAppointments : nat;
  totalAppointments : nat;
  totalPatients : nat;
  dd_averageRating : Q;
  dd_totalReviews : nat;
  monthlyStats : list MonthStat;
  recentReviews : list Review
}.

(** [{ doctor, appointmentDate: { $gte: today, $lt: tomorrow } }] *)
Definition dated_today (doctorId : ObjectId) (today tomorrow : Z) (a : Appointment) : bool :=
  Nat.eqb (ap_doctor a) doctorId
  && (today <=? appointmentDate a) && (appointmentDate a <? tomorrow).

(** [{ doctor, appointmentDate: { $gt: tomorrow, $lte: nextWeek }, status: 'scheduled' }] *)
Definition dated_upcoming (doctorId : ObjectId) (tomorrow nextWeek : Z) (a : Appointment)
    : bool :=
  Nat.eqb (ap_doctor a) doctorId
  && (tomorrow <? appointmentDate a) && (appointmentDate a <=? nextWeek)
  && (status a =? "scheduled")%string.

(** [now] is the [new Date()] of the handler and [later] the one of
    [getMonthlyAppointmentStats]. *)
Definition getDoctorDashboardStats (tza now later : Z) (user : AuthUser)
    : IO (Response DashboardData) :=
  try_catch
    (doctor <- Doctor_findOne (fun d => Nat.eqb (dr_user d) (au_id user)) ;;
     match doctor with
     | None => ret (fail 404%nat "Doctor profile not found")
     | Some doctor =>
       let doctorId := dr_id doctor in
       let today := setHours_ms tza now 0 0 0 0 in
       let tomorrow := setDate tza today (getDate tza today + 1) in
       todayAppointments <- Appointment_find (dated_today doctorId today tomorrow) ;;
       let nextWeek := setDate tza today (getDate tza today + 7) in
       upcomingAppointments <-
         Appointment_countDocuments (dated_upcoming doctorId tomorrow nextWeek) ;;
       totalAppointments <-
         Appointment_countDocuments (fun a => Nat.eqb (ap_doctor a) doctorId) ;;
       uniquePatients <-
         Appointment_distinct_patient (fun a => Nat.eqb (ap_doctor a) doctorId) ;;
       monthlyStats <- getMonthlyAppointmentStats tza later doctorId ;;
       let recentReviews := firstn 5 (sort_by newest_first (reviews doctor)) in
       ret (mkResponse 200%nat true ""
              (Some (mkDashboardData todayAppointments upcomingAppointments
                       totalAppointments (length uniquePatients)
                       (averageRating doctor) (totalReviews doctor)
                       monthlyStats recentReviews)))
     end)
    (ret server_error).

(** ** From creation to verification *)

Definition document_of (f : File) : VerificationDocument :=
  mkVerificationDocument (originalname f) (file_url f) false.

(** * Properties *)

(** ** Running a handler step by step *)

Lemma bind_unfold {A B} (m : IO A) (k : A -> IO B) o t w :
  bind m k o t w =
  match m o t w with
  | (Ok a, t', w') => k a o t' w'
  | (Thrown, t', w') => (Thrown, t', w')
  end.
Proof. reflexivity. Qed.

Lemma await_db_unfold {A} (call : World -> A * World) o t w :
  await_db call o t w =
  if db_fault o (db_calls t)
  then (Thrown, mkTicks (S (db_calls t)) (fs_calls t), w)
  else (Ok (fst (call w)), mkTicks (S (db_calls t)) (fs_calls t), snd (call w)).
Proof.
  unfold await_db. destruct (db_fault o (db_calls t)); [reflexivity|].
  destruct (call w); reflexivity.
Qed.

Lemma await_fs_unfold {A} before (call : World -> A * World) o t w :
  await_fs before call o t w =
  if fs_fault o (fs_calls t)
  then (Thrown, mkTicks (db_calls t) (S (fs_calls t)), before w)
  else (Ok (fst (call (before w))), mkTicks (db_calls t) (S (fs_calls t)),
        snd (call (before w))).
Proof.
  unfold await_fs. destruct (fs_fault o (fs_calls t)); [reflexivity|].
  destruct (call (before w)); reflexivity.
Qed.

Lemma world_eta w :
  pending w = None -> mkWorld (committed w) None (storage w) (fileLog w) = w.
Proof. destruct w; simpl; intros ->; reflexivity. Qed.

Ltac io_unfold :=
  cbv beta iota delta
    [run bind ret try_catch finally startSession commitTransaction abortTransaction
     Doctor_findOne Doctor_findById User_findById Patient_findOne Appointment_findOne
     Appointment_find Appointment_countDocuments Appointment_updateMany
     Doctor_findByIdAndDelete Doctor_insert Doctor_save User_save updateAverageRating
     startTransaction endSession with_pending with_committed write
     succeeded fail server_error];
  cbn [db_calls fs_calls committed pending storage fileLog fst snd res_success
       res_status res_data res_message].

(** One awaited database call: either the oracle makes it reject, or it
    returns. *)
Ltac io_db E :=
  rewrite await_db_unfold; io_unfold;
  match goal with
  | |- context [db_fault ?o ?n] => destruct (db_fault o n) eqn:E
  end; io_unfold.

(** One awaited database call under [no_db_fault]. *)
Ltac io_ok H := rewrite await_db_unfold, H; io_unfold.

Ltac fault_contra :=
  match goal with
  | H : no_db_fault ?o, E : db_fault ?o ?n = true |- _ =>
    rewrite H in E; discriminate E
  end.

Lemma filter_count_pos {A} (p : A -> bool) l a :
  In a l -> p a = true -> (0 <? length (List.filter p l))%nat = true.
Proof.
  intros Hin Hp. apply Nat.ltb_lt.
  assert (In a (List.filter p l)) as Hf by (apply filter_In; auto).
  destruct (List.filter p l); [contradiction | simpl; lia].
Qed.

Lemma filter_count_zero {A} (p : A -> bool) l :
  (forall a, In a l -> p a = false) -> (0 <? length (List.filter p l))%nat = false.
Proof.
  intros H. apply Nat.ltb_ge.
  induction l as [|x l IH]; simpl; [lia|].
  rewrite (H x) by (left; reflexivity). apply IH. intros a Ha. apply H. right; exact Ha.
Qed.

(** ** deleteDoctor with an active appointment (C6) *)

(** C6. A self-deletion by a doctor who has a 'scheduled' appointment dated now
    or later is never accepted and changes nothing: the database, the file
    store and the record of calls to it are as before, whichever calls fail;
    when no database call fails the answer is the 400 response. *)
Theorem deleteDoctor_active_rejected now user o w d a :
  pending w = None ->
  List.find (fun d => Nat.eqb (dr_user d) (au_id user)) (doctors (committed w)) = Some d ->
  In a (appointments (committed w)) ->
  is_active (dr_id d) now a = true ->
  succeeded (fst (run (deleteDoctor now user) o w)) = false
  /\ snd (run (deleteDoctor now user) o w) = w
  /\ (no_db_fault o ->
      exists msg, fst (run (deleteDoctor now user) o w) = Ok (fail 400%nat msg)).
Proof.
  intros Hp Hd Hin Hact.
  pose proof (filter_count_pos _ _ _ Hin Hact) as Hc.
  unfold deleteDoctor. io_unfold.
  io_db E0.
  { repeat split; auto. intros H; fault_contra. }
  io_db E1.
  { io_db E2; rewrite (world_eta _ Hp); repeat split; auto; intros H; fault_contra. }
  rewrite Hd. io_unfold.
  io_db E2.
  { io_db E3; rewrite (world_eta _ Hp); repeat split; auto; intros H; fault_contra. }
  rewrite Hc. io_unfold. rewrite (world_eta _ Hp). repeat split; eauto.
Qed.


Lemma deleteDoctor_active_rejected_witness :
  let r := run (deleteDoctor (Sample.monday - 1000) Sample.doctor_user) no_fault
             (Sample.world [Sample.visit "scheduled"]) in
  succeeded (fst r) = false
  /\ snd r = Sample.world [Sample.visit "scheduled"]
  /\ (no_db_fault no_fault -> exists msg, fst r = Ok (fail 400%nat msg)).
Proof.
  apply (deleteDoctor_active_rejected (Sample.monday - 1000) Sample.doctor_user no_fault
           (Sample.world [Sample.visit "scheduled"]) Sample.doctor
           (Sample.visit "scheduled")).
  - reflexivity.
  - reflexivity.
  - simpl. left. reflexivity.
  - reflexivity.
Defined.

(** ** createDoctor with a registration number on file (C7) *)

(** C7. A creation request whose registration number belongs to a stored
    doctor profile is never accepted and writes nothing: no profile, no file,
    no user record changes, whichever calls fail; when no database call fails
    the answer is the 400 response, given before any upload or write. *)
Theorem createDoctor_duplicate_rejected blank user body files o w d :
  pending w = None ->
  List.find (fun d => (registrationNumber d =? cb_registrationNumber body)%string)
    (doctors (committed w)) = Some d ->
  succeeded (fst (run (createDoctor blank user body files) o w)) = false
  /\ snd (run (createDoctor blank user body files) o w) = w
  /\ (no_db_fault o ->
      exists msg,
        fst (run (createDoctor blank user body files) o w) = Ok (fail 400%nat msg)).
Proof.
  intros Hp Hd.
  unfold createDoctor. io_unfold.
  io_db E0.
  { repeat split; auto. intros H; fault_contra. }
  io_db E1.
  { io_db E2; rewrite (world_eta _ Hp); repeat split; auto; intros H; fault_contra. }
  rewrite Hd. io_unfold. rewrite (world_eta _ Hp). repeat split; eauto.
Qed.

Lemma createDoctor_duplicate_rejected_witness :
  let body := mkCreateBody (JArr []) (JArr []) (JNum 3) "REG-1" (JStr "MCI")
                JUndefined (JArr []) (JNum 300) (JArr []) (JStr "") in
  let r := run (createDoctor Sample.doctor Sample.admin_user body
                  [mkFile "degree.pdf" "files/degree.pdf"])
             no_fault (Sample.world []) in
  succeeded (fst r) = false
  /\ snd r = Sample.world []
  /\ (no_db_fault no_fault -> exists msg, fst r = Ok (fail 400%nat msg)).
Proof.
  apply (createDoctor_duplicate_rejected Sample.doctor Sample.admin_user
           (mkCreateBody (JArr []) (JArr []) (JNum 3) "REG-1" (JStr "MCI")
              JUndefined (JArr []) (JNum 300) (JArr []) (JStr ""))
           [mkFile "degree.pdf" "files/degree.pdf"] no_fault (Sample.world [])
           Sample.doctor).
  - reflexivity.
  - reflexivity.
Defined.

(** ** The file loops *)

Lemma delete_document_file_run doc o t w :
  exists w',
    delete_document_file doc o t w
    = (Ok tt, mkTicks (db_calls t) (if negb (vd_url doc =? "")%string
                                    then S (fs_calls t) else fs_calls t), w')
    /\ committed w' = committed w
    /\ pending w' = pending w
    /\ (forall e, In e (fileLog w) -> In e (fileLog w'))
    /\ (vd_url doc <> "" -> In (DeleteRequested (vd_url doc)) (fileLog w')).
Proof.
  unfold delete_document_file.
  destruct (vd_url doc =? "")%string eqn:Eu; cbn [negb].
  - exists w. unfold ret. destruct t. repeat split; auto.
    apply String.eqb_eq in Eu. intros Hne. contradiction.
  - unfold try_catch, deleteFile. rewrite await_fs_unfold.
    destruct (fs_fault o (fs_calls t)); cbn [fst snd ret]; eexists;
      (split; [reflexivity|]); cbn; repeat split; auto.
Qed.

(** The deletion loop of [deleteDoctor] never throws and touches neither the
    database nor the transaction; every document with a url has its file
    submitted for deletion. *)
Lemma delete_files_tolerant docs : forall o t w,
  exists t' w',
    for_of docs delete_document_file o t w = (Ok tt, t', w')
    /\ db_calls t' = db_calls t
    /\ committed w' = committed w
    /\ pending w' = pending w
    /\ (forall e, In e (fileLog w) -> In e (fileLog w'))
    /\ (forall doc, In doc docs -> vd_url doc <> "" ->
        In (DeleteRequested (vd_url doc)) (fileLog w')).
Proof.
  induction docs as [|doc docs IH]; intros o t w.
  - exists t, w. simpl. unfold ret. repeat split; auto. intros doc [].
  - cbn [for_of]. rewrite bind_unfold.
    destruct (delete_document_file_run doc o t w) as (w1 & Hrun1 & Hc1 & Hp1 & Hlog1 & Hreq1).
    rewrite Hrun1.
    match goal with
    | |- context [for_of docs _ o ?t1 w1] =>
      destruct (IH o t1 w1) as (t' & w' & Hrun & Ht & Hc & Hp & Hlog & Hreq)
    end.
    exists t', w'. rewrite Hrun. repeat split.
    + rewrite Ht. reflexivity.
    + congruence.
    + congruence.
    + auto.
    + intros doc' [<-|Hin] Hne; auto.
Qed.

(** ** deleteDoctor without an active appointment (C4) *)

Lemma role_after_save id user0 us u :
  us_id user0 = id ->
  In u (map (fun u0 => if Nat.eqb (us_id u0) (us_id (set_role user0 "user"))
                       then set_role user0 "user" else u0) us) ->
  us_id u = id -> role u = "user".
Proof.
  intros Hid Hin Hu. apply in_map_iff in Hin. destruct Hin as (u0 & Heq & _).
  cbn [set_role us_id] in Heq.
  destruct (Nat.eqb (us_id u0) (us_id user0)) eqn:E.
  - subst u. reflexivity.
  - subst u0. apply Nat.eqb_neq in E. congruence.
Qed.

Lemma find_none_no_user id us u :
  List.find (fun u0 => Nat.eqb (us_id u0) id) us = None ->
  In u us -> us_id u <> id.
Proof.
  intros Hf Hin Hu. pose proof (find_none _ _ Hf u Hin) as Hn. cbn in Hn.
  apply Nat.eqb_neq in Hn. contradiction.
Qed.

(** C4. A self-deletion by a doctor who has no 'scheduled' appointment dated
    now or later succeeds when no database call fails (file-store failures are
    tolerated).  Afterwards every appointment of the doctor that was not
    'completed' is 'cancelled' with the reason 'Doctor no longer available',
    the profile is gone, every verification document with a url has had its
    file submitted for deletion, and the owning user's role is 'user'. *)
Theorem deleteDoctor_succeeds now user o w d :
  no_db_fault o ->
  pending w = None ->
  List.find (fun d => Nat.eqb (dr_user d) (au_id user)) (doctors (committed w)) = Some d ->
  (forall a, In a (appointments (committed w)) -> is_active (dr_id d) now a = false) ->
  let r := run (deleteDoctor now user) o w in
  (exists msg, fst r = Ok (mkResponse 200%nat true msg None))
  /\ (forall i a,
        nth_error (appointments (committed w)) i = Some a ->
        ap_doctor a = dr_id d -> status a <> "completed" ->
        exists a',
          nth_error (appointments (committed (snd r))) i = Some a'
          /\ ap_id a' = ap_id a
          /\ status a' = "cancelled"
          /\ cancellationReason a' = Some "Doctor no longer available")
  /\ (forall d', In d' (doctors (committed (snd r))) -> dr_id d' <> dr_id d)
  /\ (forall doc, In doc (verificationDocuments d) -> vd_url doc <> "" ->
        In (DeleteRequested (vd_url doc)) (fileLog (snd r)))
  /\ (forall u, In u (users (committed (snd r))) -> us_id u = au_id user ->
        role u = "user").
Proof.
  intros H Hp Hd Hact r. subst r.
  pose proof (filter_count_zero _ _ Hact) as Hc0.
  unfold deleteDoctor. io_unfold.
  io_ok H. io_ok H. rewrite Hd. io_unfold. io_ok H. rewrite Hc0.
  match goal with
  | |- context [for_of ?docs delete_document_file o ?t1 ?w1] =>
    destruct (delete_files_tolerant docs o t1 w1)
      as (t' & w' & Hrun & Ht & Hc & Hpe & Hlog & Hreq)
  end.
  rewrite Hrun. cbn [pending committed] in Hc, Hpe.
  io_ok H. rewrite Hpe. io_unfold. io_ok H. io_ok H. rewrite Hc.
  assert (Hcancel : forall i a,
    nth_error (appointments (committed w)) i = Some a ->
    ap_doctor a = dr_id d -> status a <> "completed" ->
    exists a',
      nth_error
        (map (fun a0 => if not_completed_of (dr_id d) a0 then cancel_appointment a0 else a0)
             (appointments (committed w))) i = Some a'
      /\ ap_id a' = ap_id a /\ status a' = "cancelled"
      /\ cancellationReason a' = Some "Doctor no longer available").
  { intros i a Hi Hdoc Hst. exists (cancel_appointment a).
    rewrite nth_error_map, Hi. cbn [option_map].
    unfold not_completed_of. rewrite Hdoc, Nat.eqb_refl.
    destruct (status a =? "completed")%string eqn:Es.
    - apply String.eqb_eq in Es. contradiction.
    - repeat split; reflexivity. }
  assert (Hgone : forall d',
    In d' (List.filter (fun d0 => negb (Nat.eqb (dr_id d0) (dr_id d)))
             (doctors (committed w))) -> dr_id d' <> dr_id d).
  { intros d' Hin. apply filter_In in Hin. destruct Hin as [_ Hn].
    apply negb_true_iff, Nat.eqb_neq in Hn. exact Hn. }
  destruct (List.find (fun u => Nat.eqb (us_id u) (au_id user)) (users (committed w)))
    as [user0|] eqn:Hu.
  - io_ok H. io_ok H.
    repeat split; eauto.
    intros u Hin Hid. cbn [Mongoose.set_users Mongoose.set_doctors Mongoose.set_appointments users] in Hin.
    apply find_some in Hu. destruct Hu as [_ Hu]. apply Nat.eqb_eq in Hu.
    exact (role_after_save (au_id user) user0 (users (committed w)) u Hu Hin Hid).
  - io_ok H.
    repeat split; eauto.
    intros u Hin Hid. cbn [Mongoose.set_users Mongoose.set_doctors Mongoose.set_appointments users] in Hin.
    exact (False_ind _ (find_none_no_user (au_id user) (users (committed w)) u Hu Hin Hid)).
Qed.

Lemma deleteDoctor_succeeds_witness :
  let o := mkOracle (fun _ => false) (fun _ => true) in
  let w := Sample.world [Sample.visit "scheduled"; Sample.visit "completed"] in
  let r := run (deleteDoctor (Sample.monday + 1) Sample.doctor_user) o w in
  (exists msg, fst r = Ok (mkResponse 200%nat true msg None))
  /\ (forall i a,
        nth_error (appointments (committed w)) i = Some a ->
        ap_doctor a = dr_id Sample.doctor -> status a <> "completed" ->
        exists a',
          nth_error (appointments (committed (snd r))) i = Some a'
          /\ ap_id a' = ap_id a
          /\ status a' = "cancelled"
          /\ cancellationReason a' = Some "Doctor no longer available")
  /\ (forall d', In d' (doctors (committed (snd r))) -> dr_id d' <> dr_id Sample.doctor)
  /\ (forall doc, In doc (verificationDocuments Sample.doctor) -> vd_url doc <> "" ->
        In (DeleteRequested (vd_url doc)) (fileLog (snd r)))
  /\ (forall u, In u (users (committed (snd r))) -> us_id u = au_id Sample.doctor_user ->
        role u = "user").
Proof.
  apply (deleteDoctor_succeeds (Sample.monday + 1) Sample.doctor_user
           (mkOracle (fun _ => false) (fun _ => true))
           (Sample.world [Sample.visit "scheduled"; Sample.visit "completed"])
           Sample.doctor).
  - intros n. reflexivity.
  - reflexivity.
  - reflexivity.
  - intros a [<-|[<-|[]]]; reflexivity.
Defined.

(** ** The transactions of createDoctor, deleteDoctorByAdmin and deleteDoctor (C5) *)

(** Uploads touch neither the database nor the transaction. *)
Lemma upload_all_frame files : forall acc o t w,
  exists r t' w',
    upload_all files acc o t w = (r, t', w')
    /\ db_calls t' = db_calls t
    /\ committed w' = committed w
    /\ pending w' = pending w.
Proof.
  induction files as [|f files IH]; intros acc o t w.
  - exists (Ok acc), t, w. repeat split; reflexivity.
  - cbn [upload_all]. rewrite bind_unfold. unfold uploadFile. rewrite await_fs_unfold.
    destruct (fs_fault o (fs_calls t)); cbn [fst snd].
    + do 3 eexists. split; [reflexivity|]. repeat split; reflexivity.
    + match goal with
      | |- context [upload_all files ?a o ?t1 ?w1] =>
        destruct (IH a o t1 w1) as (r & t' & w' & Hrun & Ht & Hc & Hp)
      end.
      exists r, t', w'. rewrite Hrun. repeat split; assumption.
Qed.

(** So do the deletions of the admin handler, which may throw. *)
Lemma delete_files_frame docs : forall o t w,
  exists r t' w',
    for_of docs (fun doc => deleteFile (vd_url doc)) o t w = (r, t', w')
    /\ db_calls t' = db_calls t
    /\ committed w' = committed w
    /\ pending w' = pending w.
Proof.
  induction docs as [|doc docs IH]; intros o t w.
  - exists (Ok tt), t, w. repeat split; reflexivity.
  - cbn [for_of]. rewrite bind_unfold. unfold deleteFile at 1. rewrite await_fs_unfold.
    destruct (fs_fault o (fs_calls t)); cbn [fst snd].
    + do 3 eexists. split; [reflexivity|]. repeat split; reflexivity.
    + match goal with
      | |- context [for_of docs ?b o ?t1 ?w1] =>
        destruct (IH o t1 w1) as (r & t' & w' & Hrun & Ht & Hc & Hp)
      end.
      exists r, t', w'. rewrite Hrun. repeat split; assumption.
Qed.

Lemma role_write_as_map id role0 user0 us :
  us_id user0 = id ->
  map (fun u0 => if Nat.eqb (us_id u0) (us_id (set_role user0 role0))
                 then set_role user0 role0 else u0) us
  = map (fun u => if Nat.eqb (us_id u) id then set_role u role0 else u) us.
Proof.
  intros Hid. apply map_ext. intros u. cbn [set_role us_id]. rewrite Hid.
  destruct (Nat.eqb (us_id u) id) eqn:E; [|reflexivity].
  apply Nat.eqb_eq in E. unfold set_role. congruence.
Qed.

Lemma no_role_write_as_map id role0 us :
  List.find (fun u => Nat.eqb (us_id u) id) us = None ->
  us = map (fun u => if Nat.eqb (us_id u) id then set_role u role0 else u) us.
Proof.
  intros Hf. rewrite <- (map_id us) at 1. apply map_ext_in. intros u Hin.
  pose proof (find_none _ _ Hf u Hin) as Hn. cbn in Hn. rewrite Hn. reflexivity.
Qed.


Ltac aon_close :=
  unfold all_or_nothing; io_unfold;
  repeat match goal with
  | H : committed _ = _ |- _ => rewrite H
  | H : pending _ = _ |- _ => rewrite H
  end;
  (split; [reflexivity | split; [try reflexivity; try (intros; discriminate) | ]]);
  let resp := fresh "resp" in
  let Hr := fresh "Hr" in
  intros resp Hr;
  first [ discriminate Hr
        | injection Hr as <-; cbn [res_success]; first [ discriminate | intros _ ] ].

(** A step failed: the handler aborts and answers 500 (or throws). *)
Ltac aon_abort E := io_db E; aon_close.

Lemma deleteDoctor_atomic now user o w :
  pending w = None ->
  all_or_nothing w (run (deleteDoctor now user) o w)
    (fun _ db' =>
       exists d,
         List.find (fun d => Nat.eqb (dr_user d) (au_id user)) (doctors (committed w))
         = Some d
         /\ db' = spec_deletion_mutation d (committed w)).
Proof.
  intros Hp.
  unfold deleteDoctor. io_unfold.
  io_db E0.
  { aon_close. }
  io_db E1. { aon_abort Ea. }
  destruct (List.find _ (doctors (committed w))) as [d|] eqn:Hd; io_unfold.
  2: { aon_close. }
  io_db E2. { aon_abort Ea. }
  destruct (0 <? _)%nat; io_unfold.
  { aon_close. }
  match goal with
  | |- context [for_of ?docs delete_document_file o ?t1 ?w1] =>
    destruct (delete_files_tolerant docs o t1 w1)
      as (t' & w' & Hrun & Ht & Hc & Hpe & Hlog & Hreq)
  end.
  rewrite Hrun. cbn [pending committed] in Hc, Hpe.
  io_db E3. { aon_abort Ea. }
  rewrite Hpe. io_unfold.
  io_db E4. { aon_abort Ea. }
  io_db E5. { aon_abort Ea. }
  rewrite Hc.
  pose proof (find_some _ _ Hd) as [_ Hdu]. apply Nat.eqb_eq in Hdu.
  destruct (List.find (fun u => Nat.eqb (us_id u) (au_id user)) (users (committed w)))
    as [user0|] eqn:Hu.
  - io_db E6. { aon_abort Ea. }
    io_db E7. { aon_abort Ea. }
    aon_close. exists d. split; [reflexivity|].
    unfold spec_deletion_mutation, Mongoose.set_users, Mongoose.set_doctors,
      Mongoose.set_appointments. cbn [doctors users patients appointments].
    pose proof (find_some _ _ Hu) as [_ Hid]. apply Nat.eqb_eq in Hid.
    rewrite (role_write_as_map (au_id user) "user" user0 _ Hid), Hdu. reflexivity.
  - io_db E6. { aon_abort Ea. }
    aon_close. exists d. split; [reflexivity|].
    unfold spec_deletion_mutation, Mongoose.set_users, Mongoose.set_doctors,
      Mongoose.set_appointments. cbn [doctors users patients appointments].
    rewrite Hdu, <- (no_role_write_as_map (au_id user) "user" _ Hu). reflexivity.
Qed.

Lemma deleteDoctorByAdmin_atomic doctorId user o w :
  pending w = None ->
  all_or_nothing w (run (deleteDoctorByAdmin doctorId user) o w)
    (fun _ db' =>
       exists d,
         List.find (fun d => Nat.eqb (dr_id d) doctorId) (doctors (committed w)) = Some d
         /\ db' = admin_deletion_mutation d (committed w)).
Proof.
  intros Hp.
  unfold deleteDoctorByAdmin. io_unfold.
  io_db E0. { aon_close. }
  destruct (negb (au_role user =? "admin")%string); io_unfold.
  { aon_close. }
  io_db E1. { aon_abort Ea. }
  destruct (List.find _ (doctors (committed w))) as [d|] eqn:Hd; io_unfold.
  2: { aon_close. }
  match goal with
  | |- context [for_of ?docs ?b o ?t1 ?w1] =>
    destruct (delete_files_frame docs o t1 w1) as (r & t' & w' & Hrun & Ht & Hc & Hpe)
  end.
  rewrite Hrun. cbn [pending committed] in Hc, Hpe.
  destruct r as [[]|]. 2: { aon_abort Ea. }
  io_db E2. { aon_abort Ea. }
  rewrite Hpe. io_unfold.
  io_db E3. { aon_abort Ea. }
  rewrite Hc.
  pose proof (find_some _ _ Hd) as [_ Hdi]. apply Nat.eqb_eq in Hdi.
  destruct (List.find (fun u => Nat.eqb (us_id u) (dr_user d)) (users (committed w)))
    as [user0|] eqn:Hu.
  - io_db E4. { aon_abort Ea. }
    io_db E5. { aon_abort Ea. }
    aon_close. exists d. split; [reflexivity|].
    unfold admin_deletion_mutation, Mongoose.set_users, Mongoose.set_doctors.
    cbn [doctors users patients appointments].
    pose proof (find_some _ _ Hu) as [_ Hid]. apply Nat.eqb_eq in Hid.
    rewrite (role_write_as_map (dr_user d) "user" user0 _ Hid), Hdi. reflexivity.
  - io_db E4. { aon_abort Ea. }
    aon_close. exists d. split; [reflexivity|].
    unfold admin_deletion_mutation, Mongoose.set_users, Mongoose.set_doctors.
    cbn [doctors users patients appointments].
    rewrite Hdi, <- (no_role_write_as_map (dr_user d) "user" _ Hu). reflexivity.
Qed.

Lemma find_after_role_write id role0 user0 us :
  List.find (fun u => Nat.eqb (us_id u) id) us = Some user0 ->
  List.find (fun u => Nat.eqb (us_id u) id)
    (map (fun u0 => if Nat.eqb (us_id u0) (us_id (set_role user0 role0))
                    then set_role user0 role0 else u0) us)
  = Some (set_role user0 role0).
Proof.
  intros Hf. pose proof (find_some _ _ Hf) as [_ Hid]. apply Nat.eqb_eq in Hid.
  subst id. cbn [set_role us_id]. revert Hf.
  induction us as [|u us IH]; cbn [List.find map]; [discriminate|].
  destruct (Nat.eqb (us_id u) (us_id user0)) eqn:E.
  - intros _. cbn [set_role us_id]. rewrite Nat.eqb_refl. reflexivity.
  - intros Hf. rewrite E. apply IH; assumption.
Qed.

Lemma createDoctor_atomic blank user body files o w :
  pending w = None ->
  all_or_nothing w (run (createDoctor blank user body files) o w)
    (fun resp db' =>
       exists docs,
         res_data resp = Some (new_Doctor blank (au_id user) body docs)
         /\ doctors db'
            = (doctors (committed w) ++ [new_Doctor blank (au_id user) body docs])%list
         /\ (exists u,
               List.find (fun u => Nat.eqb (us_id u) (au_id user)) (users db') = Some u
               /\ role u = "doctor")
         /\ patients db' = patients (committed w)
         /\ appointments db' = appointments (committed w)).
Proof.
  intros Hp.
  unfold createDoctor. io_unfold.
  io_db E0. { aon_close. }
  io_db E1. { aon_abort Ea. }
  destruct (List.find _ (doctors (committed w))) as [d|] eqn:Hd; io_unfold.
  { aon_close. }
  io_db E2. { aon_abort Ea. }
  destruct (List.find _ (users (committed w))) as [user0|] eqn:Hu; io_unfold.
  2: { aon_close. }
  destruct (negb (role user0 =? "doctor")%string && negb (role user0 =? "admin")%string);
    io_unfold.
  { aon_close. }
  match goal with
  | |- context [upload_all files ?a o ?t1 ?w1] =>
    destruct (upload_all_frame files a o t1 w1) as (r & t' & w' & Hrun & Ht & Hc & Hpe)
  end.
  rewrite Hrun. cbn [pending committed] in Hc, Hpe.
  destruct r as [docs|]. 2: { aon_abort Ea. }
  io_db E3. { aon_abort Ea. }
  rewrite Hpe. io_unfold.
  destruct (role user0 =? "doctor")%string eqn:Er; cbn [negb]; io_unfold.
  - io_db E4. { aon_abort Ea. }
    aon_close. exists docs.
    cbn [Mongoose.set_doctors doctors users patients appointments].
    repeat split. exists user0. split; [exact Hu|]. apply String.eqb_eq; exact Er.
  - io_db E4. { aon_abort Ea. }
    io_db E5. { aon_abort Ea. }
    aon_close. exists docs.
    cbn [Mongoose.set_doctors Mongoose.set_users doctors users patients appointments].
    repeat split. exists (set_role user0 "doctor"). split; [|reflexivity].
    apply find_after_role_write. exact Hu.
Qed.

(** X21. Each of the three handlers runs its database writes in one
    transaction: whichever call fails, no transaction is left open and, unless
    the handler answers with success, the committed database is as before.
    On success the committed writes are: for creation the new profile and the
    role 'doctor'; for the admin deletion the profile delete and the role write
    (the handler touches no appointment); for the self deletion the profile
    delete, the role write and the bulk cancellation of the appointments. *)
Theorem transactions_all_or_nothing o w :
  pending w = None ->
  (forall blank user body files,
     all_or_nothing w (run (createDoctor blank user body files) o w)
       (fun resp db' =>
          exists docs,
            res_data resp = Some (new_Doctor blank (au_id user) body docs)
            /\ doctors db'
               = (doctors (committed w) ++ [new_Doctor blank (au_id user) body docs])%list
            /\ (exists u,
                  List.find (fun u => Nat.eqb (us_id u) (au_id user)) (users db') = Some u
                  /\ role u = "doctor")
            /\ patients db' = patients (committed w)
            /\ appointments db' = appointments (committed w)))
  /\ (forall doctorId user,
        all_or_nothing w (run (deleteDoctorByAdmin doctorId user) o w)
          (fun _ db' =>
             exists d,
               List.find (fun d => Nat.eqb (dr_id d) doctorId) (doctors (committed w))
               = Some d
               /\ db' = admin_deletion_mutation d (committed w)))
  /\ (forall now user,
        all_or_nothing w (run (deleteDoctor now user) o w)
          (fun _ db' =>
             exists d,
               List.find (fun d => Nat.eqb (dr_user d) (au_id user)) (doctors (committed w))
               = Some d
               /\ db' = spec_deletion_mutation d (committed w))).
Proof.
  intros Hp. split; [|split].
  - intros. apply createDoctor_atomic; exact Hp.
  - intros. apply deleteDoctorByAdmin_atomic; exact Hp.
  - intros. apply deleteDoctor_atomic; exact Hp.
Qed.

Lemma transactions_all_or_nothing_witness :
  let o := mkOracle (fun n => Nat.eqb n 4) (fun _ => false) in
  let w := Sample.world [Sample.visit "scheduled"] in
  (forall blank user body files,
     all_or_nothing w (run (createDoctor blank user body files) o w)
       (fun resp db' =>
          exists docs,
            res_data resp = Some (new_Doctor blank (au_id user) body docs)
            /\ doctors db'
               = (doctors (committed w) ++ [new_Doctor blank (au_id user) body docs])%list
            /\ (exists u,
                  List.find (fun u => Nat.eqb (us_id u) (au_id user)) (users db') = Some u
                  /\ role u = "doctor")
            /\ patients db' = patients (committed w)
            /\ appointments db' = appointments (committed w)))
  /\ (forall doctorId user,
        all_or_nothing w (run (deleteDoctorByAdmin doctorId user) o w)
          (fun _ db' =>
             exists d,
               List.find (fun d => Nat.eqb (dr_id d) doctorId) (doctors (committed w))
               = Some d
               /\ db' = admin_deletion_mutation d (committed w)))
  /\ (forall now user,
        all_or_nothing w (run (deleteDoctor now user) o w)
          (fun _ db' =>
             exists d,
               List.find (fun d => Nat.eqb (dr_user d) (au_id user)) (doctors (committed w))
               = Some d
               /\ db' = spec_deletion_mutation d (committed w))).
Proof.
  apply (transactions_all_or_nothing (mkOracle (fun n => Nat.eqb n 4) (fun _ => false))
           (Sample.world [Sample.visit "scheduled"])).
  reflexivity.
Defined.

(** C5 fails for the admin handler: the transaction of [deleteDoctorByAdmin]
    holds the profile delete and the role write but no appointment
    bulk-update.  An admin deletes the profile of a doctor who has a scheduled
    appointment, no call failing: the deletion succeeds, the profile is gone
    and the appointment is as it was, still 'scheduled' and still naming the
    deleted doctor, so the committed state is not the one the contract lists
    for a deletion.  On the same world the doctor's own [deleteDoctor], run
    after the date of the appointment, cancels it, as the contract lists. *)
Lemma deleteDoctorByAdmin_no_bulk_update :
  let w := Sample.world [Sample.visit "scheduled"] in
  let r := run (deleteDoctorByAdmin 1%nat Sample.admin_user) no_fault w in
  succeeded (fst r) = true
  /\ appointments (committed (snd r)) = [Sample.visit "scheduled"]
  /\ appointments (spec_deletion_mutation Sample.doctor (committed w))
     = [cancel_appointment (Sample.visit "scheduled")]
  /\ ~ all_or_nothing w r
         (fun _ db' =>
            exists d,
              List.find (fun d => Nat.eqb (dr_id d) 1%nat) (doctors (committed w)) = Some d
              /\ db' = spec_deletion_mutation d (committed w))
  /\ doctors (committed (snd r)) = []
  /\ ap_doctor (Sample.visit "scheduled") = dr_id Sample.doctor
  /\ (let self := run (deleteDoctor (Sample.monday + msPerDay) Sample.doctor_user)
                     no_fault w in
      succeeded (fst self) = true
      /\ doctors (committed (snd self)) = []
      /\ appointments (committed (snd self))
         = [cancel_appointment (Sample.visit "scheduled")]).
Proof.
  cbv zeta. split; [reflexivity|]. split; [reflexivity|]. split; [reflexivity|].
  split.
  - intros (_ & _ & H).
    destruct (H _ eq_refl eq_refl) as (d & Hd & Heq).
    vm_compute in Hd. injection Hd as <-.
    apply (f_equal appointments) in Heq. vm_compute in Heq. discriminate Heq.
  - repeat split; reflexivity.
Qed.

(** ** updateDoctor, updateDoctorProfile (C10) *)

Lemma written_if_holds test sent old :
  written_if test sent old (if test sent then sent else old).
Proof. unfold written_if. destruct (test sent); split; congruence. Qed.

Lemma updateDoctor_fields_rule d b :
  update_rule (ub_availability b) b d (updateDoctor_fields d b).
Proof.
  unfold update_rule, updateDoctor_fields, if_truthy, if_defined.
  cbn [qualifications specialties experience clinicDetails hospitalAffiliations
       consultationFee languages bio videoConsultation acceptingNewPatients availability].
  repeat (split; [apply written_if_holds|]). reflexivity.
Qed.

Lemma updateDoctorProfile_fields_rule d b :
  update_rule None b d (updateDoctorProfile_fields d b).
Proof.
  unfold update_rule, updateDoctorProfile_fields, if_truthy, if_defined.
  cbn [qualifications specialties experience clinicDetails hospitalAffiliations
       consultationFee languages bio videoConsultation acceptingNewPatients availability].
  repeat (split; [apply written_if_holds|]). reflexivity.
Qed.

Lemma with_documents_rule avail b d d' docs v :
  update_rule avail b d d' -> update_rule avail b d (with_documents d' docs v).
Proof. intros H. exact H. Qed.

Lemma stored_after_update_refl avail b ds : stored_after_update avail b ds ds.
Proof. intros new Hin. left; exact Hin. Qed.

Lemma stored_after_save avail b ds d d' :
  In d ds -> dr_id d' = dr_id d -> update_rule avail b d d' ->
  stored_after_update avail b ds
    (map (fun d0 => if Nat.eqb (dr_id d0) (dr_id d') then d' else d0) ds).
Proof.
  intros Hin Hid Hrule new Hnew.
  apply in_map_iff in Hnew. destruct Hnew as (d0 & Heq & Hd0).
  destruct (Nat.eqb (dr_id d0) (dr_id d')); subst new.
  - right. exists d. auto.
  - left. exact Hd0.
Qed.

(** A falsy value is never written: a stored fee of 0 or an empty bio was
    there before the request. *)
Lemma stored_after_update_fee avail b before after :
  stored_after_update avail b before after ->
  forall new, In new after -> truthy (consultationFee new) = false ->
    exists old, In old before /\ consultationFee old = consultationFee new.
Proof.
  intros H new Hin Hf. destruct (H new Hin) as [Hold|(old & Hold & _ & Hrule)].
  - exists new. auto.
  - exists old. split; [exact Hold|].
    destruct Hrule as (_ & _ & _ & _ & _ & [Hw Hk] & _).
    destruct (truthy (ub_consultationFee b)) eqn:E.
    + rewrite (Hw eq_refl) in Hf. congruence.
    + symmetry. apply Hk. reflexivity.
Qed.

Lemma stored_after_update_bio avail b before after :
  stored_after_update avail b before after ->
  forall new, In new after -> truthy (bio new) = false ->
    exists old, In old before /\ bio old = bio new.
Proof.
  intros H new Hin Hf. destruct (H new Hin) as [Hold|(old & Hold & _ & Hrule)].
  - exists new. auto.
  - exists old. split; [exact Hold|].
    destruct Hrule as (_ & _ & _ & _ & _ & _ & _ & [Hw Hk] & _).
    destruct (truthy (ub_bio b)) eqn:E.
    + rewrite (Hw eq_refl) in Hf. congruence.
    + symmetry. apply Hk. reflexivity.
Qed.

Lemma updateDoctor_stored doctorId user body files o w :
  stored_after_update (ub_availability body) body (doctors (committed w))
    (doctors (committed (snd (run (updateDoctor doctorId user body files) o w)))).
Proof.
  unfold updateDoctor. io_unfold.
  io_db E0. { apply stored_after_update_refl. }
  destruct (List.find _ (doctors (committed w))) as [d|] eqn:Hd; io_unfold.
  2: { apply stored_after_update_refl. }
  destruct (negb (Nat.eqb (dr_user d) (au_id user)) && negb (au_role user =? "admin")%string);
    io_unfold.
  { apply stored_after_update_refl. }
  pose proof (find_some _ _ Hd) as [Hin _].
  destruct files as [|f files]; io_unfold.
  - io_db E1. { apply stored_after_update_refl. }
    destruct (pending w); cbn [Mongoose.set_doctors doctors];
      apply stored_after_save with (d := d); auto using updateDoctor_fields_rule.
  - match goal with
    | |- context [upload_all ?fs ?a o ?t1 ?w1] =>
      destruct (upload_all_frame fs a o t1 w1) as (r & t' & w' & Hrun & Ht & Hc & Hpe)
    end.
    rewrite Hrun. destruct r as [docs|]; io_unfold.
    2: { rewrite Hc. apply stored_after_update_refl. }
    io_db E1. { rewrite Hc. apply stored_after_update_refl. }
    destruct (pending w'); cbn [Mongoose.set_doctors doctors]; rewrite Hc;
      apply stored_after_save with (d := d); auto;
      apply with_documents_rule, updateDoctor_fields_rule.
Qed.

Lemma updateDoctorProfile_stored user body o w :
  stored_after_update None body (doctors (committed w))
    (doctors (committed (snd (run (updateDoctorProfile user body) o w)))).
Proof.
  unfold updateDoctorProfile. io_unfold.
  io_db E0. { apply stored_after_update_refl. }
  destruct (List.find _ (doctors (committed w))) as [d|] eqn:Hd; io_unfold.
  2: { apply stored_after_update_refl. }
  pose proof (find_some _ _ Hd) as [Hin _].
  io_db E1. { apply stored_after_update_refl. }
  destruct (pending w); cbn [Mongoose.set_doctors doctors];
    apply stored_after_save with (d := d); auto using updateDoctorProfile_fields_rule.
Qed.

(** ** getDoctorAvailability on a day that is not available (C9) *)



(** C9 fails on a server west of UTC.  The query is [date=2024-07-16], a
    Tuesday, and the doctor's Tuesday is configured with [isAvailable] false.
    [new Date("2024-07-16")] is the UTC midnight of that date; five hours
    west of UTC that instant is Monday 19:00, so [getDay] answers Monday and
    the handler reports Monday, available, with Monday's two slots, where the
    contract asks for the queried date to be reported unavailable with no
    slot.  On a server in UTC the same query is answered as the contract
    asks. *)
Theorem availability_weekday_of_wrong_day :
  let queryDate := Date_parse_date_only 2024 7 16 in
  let w := Sample.world [] in
  nth (Z.to_nat (WeekDay queryDate)) day_names "" = "Tuesday"
  /\ List.find (fun a => (day a =? "Tuesday")%string) (availability Sample.doctor)
     = Some (mkDayAvailability "Tuesday" false [mkSlot "10:00" "10:30"])
  /\ run (getDoctorAvailability (-18000000) 1%nat (ValidDate queryDate)) no_fault w
     = (Ok (mkResponse 200%nat true ""
              (Some (OnDay "Monday" true
                       [mkBookedSlot (mkSlot "10:00" "10:30") false;
                        mkBookedSlot (mkSlot "11:00" "11:30") false]))), w)
  /\ run (getDoctorAvailability 0 1%nat (ValidDate queryDate)) no_fault w
     = (Ok (mkResponse 200%nat true "" (Some (OnDay "Tuesday" false []))), w).
Proof.
  cbv zeta. split; [vm_compute; reflexivity|]. split; [reflexivity|].
  split; vm_compute; reflexivity.
Qed.

(** ** addDoctorReview (C2, C8) *)

Lemma find_completed doctorId patient appts :
  (exists a, In a appts /\ completed_between doctorId patient a)
  <-> exists a,
        List.find (fun a => Nat.eqb (ap_doctor a) doctorId && Nat.eqb (ap_patient a) patient
                            && (status a =? "completed")%string) appts = Some a.
Proof.
  split.
  - intros (a & Hin & Hd & Hp & Hs).
    destruct (List.find _ appts) as [a'|] eqn:Hf; [eauto|].
    pose proof (find_none _ _ Hf a Hin) as Hn. cbn in Hn.
    rewrite Hd, Hp, Hs, !Nat.eqb_refl, String.eqb_refl in Hn. discriminate.
  - intros (a & Hf). apply find_some in Hf. destruct Hf as [Hin Hb].
    apply andb_true_iff in Hb. destruct Hb as [Hb Hs].
    apply andb_true_iff in Hb. destruct Hb as [Hd Hp].
    exists a. split; [exact Hin|]. unfold completed_between.
    apply Nat.eqb_eq in Hd, Hp. apply String.eqb_eq in Hs. auto.
Qed.

Lemma rating_in_range rating : 1 <= rating <= 5 -> rating_rejected (Some rating) = false.
Proof.
  intros [H1 H5]. unfold rating_rejected.
  destruct (Z.eqb_spec rating 0); [lia|].
  destruct (Z.ltb_spec rating 1); [lia|].
  destruct (Z.ltb_spec 5 rating); [lia|]. reflexivity.
Qed.

(** C8. With a rating from 1 to 5 and both profiles on file, a review is
    accepted exactly when a 'completed' appointment exists between the patient
    and the doctor; without one the answer is 403 and nothing changes (no
    database call failing). *)
Theorem review_needs_completed_appointment now doctorId user body o w rating d p :
  no_db_fault o ->
  rb_rating body = Some rating ->
  1 <= rating <= 5 ->
  List.find (fun d => Nat.eqb (dr_id d) doctorId) (doctors (committed w)) = Some d ->
  List.find (fun p => Nat.eqb (pt_user p) (au_id user)) (patients (committed w)) = Some p ->
  let r := run (addDoctorReview now doctorId user body) o w in
  (succeeded (fst r) = true
   <-> exists a, In a (appointments (committed w))
                 /\ completed_between doctorId (pt_id p) a)
  /\ ((forall a, In a (appointments (committed w)) ->
         ~ completed_between doctorId (pt_id p) a) ->
      (exists msg, fst r = Ok (fail 403%nat msg)) /\ snd r = w).
Proof.
  intros H Hr Hrange Hd Hpt r. subst r.
  pose proof (rating_in_range rating Hrange) as Hrej.
  pose proof (find_completed doctorId (pt_id p) (appointments (committed w))) as Hfc.
  unfold addDoctorReview. rewrite Hr, Hrej. io_unfold.
  io_ok H. rewrite Hd. io_unfold. io_ok H. rewrite Hpt. io_unfold. io_ok H.
  destruct (List.find _ (appointments (committed w))) as [a|] eqn:Hf; io_unfold.
  - io_ok H. split.
    + split; [intros _|reflexivity]. apply Hfc. eauto.
    + intros Hnone. exfalso.
      destruct (proj2 Hfc (ex_intro _ a eq_refl)) as (a' & Hin & Hc).
      exact (Hnone a' Hin Hc).
  - split.
    + split; [discriminate|]. intros Hex. apply Hfc in Hex. destruct Hex as (a & Ha).
      discriminate Ha.
    + intros _. split; [eauto|reflexivity].
Qed.

Lemma review_needs_completed_appointment_witness :
  let body := mkReviewBody (Some 4) "Very attentive" in
  let w := Sample.world [Sample.visit "completed"] in
  let r := run (addDoctorReview 1721100000000 1%nat Sample.patient_user body) no_fault w in
  (succeeded (fst r) = true
   <-> exists a, In a (appointments (committed w)) /\ completed_between 1%nat 5%nat a)
  /\ ((forall a, In a (appointments (committed w)) -> ~ completed_between 1%nat 5%nat a) ->
      (exists msg, fst r = Ok (fail 403%nat msg)) /\ snd r = w).
Proof.
  apply (review_needs_completed_appointment 1721100000000 1%nat Sample.patient_user
           (mkReviewBody (Some 4) "Very attentive") no_fault
           (Sample.world [Sample.visit "completed"]) 4 Sample.doctor
           (mkPatient 5%nat 20%nat)).
  - intros n. reflexivity.
  - reflexivity.
  - lia.
  - reflexivity.
  - reflexivity.
Defined.

(** [findIndex] returns -1 when no element passes the test, and otherwise the
    position of the first one that does. *)
Lemma findIndex_from_spec {A} (p : A -> bool) (l : list A) : forall i,
  0 <= i ->
  (findIndex_from p l i = -1 /\ forall x, In x l -> p x = false)
  \/ (exists l1 x l2,
        l = (l1 ++ x :: l2)%list /\ p x = true
        /\ (forall y, In y l1 -> p y = false)
        /\ findIndex_from p l i = i + Z.of_nat (length l1)).
Proof.
  induction l as [|x l IH]; intros i Hi.
  - left. split; [reflexivity|]. intros x [].
  - cbn [findIndex_from]. destruct (p x) eqn:Hx.
    + right. exists [], x, l. cbn. repeat split; auto; [intros y []|lia].
    + destruct (IH (i + 1)) as [[Hm Hall]|(l1 & y & l2 & Hl & Hy & Hl1 & Hidx)]; [lia| |].
      * left. split; [exact Hm|]. intros z [<-|Hz]; auto.
      * right. exists (x :: l1), y, l2. subst l. cbn [length]. repeat split; auto.
        -- intros z [<-|Hz]; auto.
        -- rewrite Hidx. lia.
Qed.

Lemma upsert_review_new rs patient rating comment now :
  (forall r, In r rs -> rv_patient r <> patient) ->
  upsert_review rs patient rating comment now
  = (rs ++ [mkReview patient rating comment now])%list.
Proof.
  intros Hnone. unfold upsert_review, findIndex.
  destruct (findIndex_from_spec (fun r => Nat.eqb (rv_patient r) patient) rs 0)
    as [[Hm _]|(l1 & x & l2 & Hl & Hx & _ & _)]; [lia| |].
  - rewrite Hm. reflexivity.
  - exfalso. apply Nat.eqb_eq in Hx. apply (Hnone x); [|exact Hx].
    subst rs. apply in_or_app. right. left. reflexivity.
Qed.

Lemma upsert_review_existing rs patient rating comment now :
  (exists r, In r rs /\ rv_patient r = patient) ->
  exists l1 x l2,
    rs = (l1 ++ x :: l2)%list /\ rv_patient x = patient
    /\ (forall y, In y l1 -> rv_patient y <> patient)
    /\ upsert_review rs patient rating comment now
       = (l1 ++ mkReview patient rating comment now :: l2)%list.
Proof.
  intros (r & Hin & Hr). unfold upsert_review, findIndex.
  destruct (findIndex_from_spec (fun r => Nat.eqb (rv_patient r) patient) rs 0)
    as [[_ Hall]|(l1 & x & l2 & Hl & Hx & Hl1 & Hidx)]; [lia| |].
  - specialize (Hall r Hin). cbn in Hall. rewrite Hr, Nat.eqb_refl in Hall. discriminate.
  - exists l1, x, l2. apply Nat.eqb_eq in Hx. repeat split; auto.
    + intros y Hy Hp. specialize (Hl1 y Hy). cbn in Hl1.
      rewrite Hp, Nat.eqb_refl in Hl1. discriminate.
    + rewrite Hidx. destruct (Z.ltb_spec (-1) (0 + Z.of_nat (length l1))); [|lia].
      replace (Z.to_nat (0 + Z.of_nat (length l1))) with (length l1 + 0)%nat by lia.
      subst rs. rewrite alter_app_r. cbn. rewrite Hx. reflexivity.
Qed.

Lemma reviews_by_none patient rs :
  (forall y, In y rs -> rv_patient y <> patient) -> reviews_by patient rs = [].
Proof.
  intros H. unfold reviews_by. induction rs as [|y rs IH]; [reflexivity|].
  cbn [List.filter]. destruct (Nat.eqb (rv_patient y) patient) eqn:E.
  - apply Nat.eqb_eq in E. destruct (H y (or_introl eq_refl) E).
  - apply IH. intros z Hz. apply H. right; exact Hz.
Qed.

(** The find-then-update-or-push keeps one review per patient: the list has
    the same patients in the same order, or one more at the end. *)
Lemma upsert_review_unique rs patient rating comment now :
  reviews_unique rs ->
  reviews_unique (upsert_review rs patient rating comment now).
Proof.
  intros Hu. unfold reviews_unique in *.
  destruct (existsb (fun r => Nat.eqb (rv_patient r) patient) rs) eqn:Ex.
  - apply existsb_exists in Ex. destruct Ex as (r & Hin & Hr). apply Nat.eqb_eq in Hr.
    destruct (upsert_review_existing rs patient rating comment now)
      as (l1 & x & l2 & Hl & Hx & _ & Hup); [eauto|].
    rewrite Hup. subst rs. rewrite map_app in *. cbn [map rv_patient] in *.
    rewrite Hx in Hu. exact Hu.
  - rewrite upsert_review_new.
    + rewrite map_app. cbn [map rv_patient].
      apply NoDup_app. split; [exact Hu|]. split; [|apply NoDup_singleton].
      intros q Hq Hq'. apply list_elem_of_In in Hq, Hq'. destruct Hq' as [<-|[]].
      apply in_map_iff in Hq. destruct Hq as (r & Hr & Hin).
      assert (existsb (fun r => Nat.eqb (rv_patient r) patient) rs = true) as Ht.
      { apply existsb_exists. exists r. split; [exact Hin|]. apply Nat.eqb_eq. exact Hr. }
      congruence.
    + intros r Hin Hr.
      assert (existsb (fun r => Nat.eqb (rv_patient r) patient) rs = true) as Ht.
      { apply existsb_exists. exists r. split; [exact Hin|]. apply Nat.eqb_eq. exact Hr. }
      congruence.
Qed.

Lemma find_after_doctor_save id d d' ds :
  List.find (fun d0 => Nat.eqb (dr_id d0) id) ds = Some d ->
  dr_id d' = dr_id d ->
  List.find (fun d0 => Nat.eqb (dr_id d0) id)
    (map (fun d0 => if Nat.eqb (dr_id d0) (dr_id d') then d' else d0) ds)
  = Some d'.
Proof.
  intros Hf Hid. pose proof (find_some _ _ Hf) as [_ He]. apply Nat.eqb_eq in He.
  rewrite Hid, He. revert Hf.
  induction ds as [|d0 ds IH]; cbn [List.find map]; [discriminate|].
  destruct (Nat.eqb (dr_id d0) id) eqn:E.
  - intros _. rewrite Hid, He, Nat.eqb_refl. reflexivity.
  - intros Hf. rewrite E. apply IH; assumption.
Qed.

(** C2. When [addDoctorReview] succeeds for patient P, the stored review list,
    which is also the list in the response, is as follows.  If P had a review,
    the list has the same length and no entry is added for P: the first entry
    of P is overwritten with the rating and the comment sent and the date of
    the request, every other entry is as it was; so with one review per patient
    before (the data model), there is one review per patient after and the
    only entry of P carries the new values.  If P had no review, the list is
    the old one followed by one new entry for P. *)
Theorem review_upsert now doctorId user body o w d p rating :
  succeeded (fst (run (addDoctorReview now doctorId user body) o w)) = true ->
  List.find (fun d => Nat.eqb (dr_id d) doctorId) (doctors (committed w)) = Some d ->
  List.find (fun p => Nat.eqb (pt_user p) (au_id user)) (patients (committed w)) = Some p ->
  rb_rating body = Some rating ->
  let r := run (addDoctorReview now doctorId user body) o w in
  let entry := mkReview (pt_id p) rating (rb_comment body) now in
  exists d',
    List.find (fun d => Nat.eqb (dr_id d) doctorId) (doctors (committed (snd r))) = Some d'
    /\ (exists resp, fst r = Ok resp /\ res_data resp = Some (reviews d'))
    /\ ((exists old, In old (reviews d) /\ rv_patient old = pt_id p) ->
        length (reviews d') = length (reviews d)
        /\ length (reviews_by (pt_id p) (reviews d'))
           = length (reviews_by (pt_id p) (reviews d))
        /\ (exists l1 x l2,
              reviews d = (l1 ++ x :: l2)%list /\ rv_patient x = pt_id p
              /\ reviews_by (pt_id p) l1 = []
              /\ reviews d' = (l1 ++ entry :: l2)%list)
        /\ (reviews_unique (reviews d) ->
            reviews_unique (reviews d')
            /\ reviews_by (pt_id p) (reviews d') = [entry]))
    /\ ((forall old, In old (reviews d) -> rv_patient old <> pt_id p) ->
        reviews d' = (reviews d ++ [entry])%list).
Proof.
  intros Hs Hd Hpt Hr r entry. subst r. revert Hs.
  unfold addDoctorReview. rewrite Hr.
  destruct (rating_rejected (Some rating)); io_unfold; [discriminate|].
  io_db E0; [discriminate|]. rewrite Hd. io_unfold.
  io_db E1; [discriminate|]. rewrite Hpt. io_unfold.
  io_db E2; [discriminate|].
  destruct (List.find _ (appointments (committed w))) as [a|] eqn:Hf; io_unfold;
    [|discriminate].
  io_db E3; [discriminate|]. intros _.
  set (rs' := upsert_review (reviews d) (pt_id p) rating (rb_comment body) now).
  set (d' := with_averageRating (with_reviews d rs') (average_of rs')).
  exists d'. split; [|split; [|split]].
  - destruct (pending w); cbn [Mongoose.set_doctors doctors committed];
      apply find_after_doctor_save with (d := d); auto.
  - eexists. split; reflexivity.
  - intros Hex. cbn [d' with_averageRating with_reviews reviews].
    destruct (upsert_review_existing (reviews d) (pt_id p) rating (rb_comment body) now Hex)
      as (l1 & x & l2 & Hl & Hx & Hl1 & Hup).
    pose proof (reviews_by_none _ l1 Hl1) as Hn1.
    assert (Hby : forall e, rv_patient e = pt_id p ->
              reviews_by (pt_id p) (l1 ++ e :: l2)
              = e :: reviews_by (pt_id p) l2).
    { intros e He. unfold reviews_by. rewrite List.filter_app.
      fold (reviews_by (pt_id p) l1). rewrite Hn1.
      cbn [List.filter app]. rewrite He, Nat.eqb_refl. reflexivity. }
    split; [|split; [|split]].
    + unfold rs'. rewrite Hup, Hl, !length_app. reflexivity.
    + unfold rs'. rewrite Hup, Hl, !Hby by auto. reflexivity.
    + exists l1, x, l2. auto.
    + intros Hu. split; [apply upsert_review_unique; exact Hu|].
      unfold rs'. rewrite Hup, Hby by reflexivity. f_equal.
      apply reviews_by_none.
      intros y Hy Hp. unfold reviews_unique in Hu. rewrite Hl, map_app in Hu.
      cbn [map] in Hu. apply NoDup_app in Hu. destruct Hu as (_ & _ & Hu).
      apply NoDup_cons in Hu. destruct Hu as [Hnot _]. apply Hnot.
      apply list_elem_of_In, in_map_iff. exists y. split; [congruence|exact Hy].
  - intros Hnone. cbn [d' with_averageRating with_reviews reviews].
    apply upsert_review_new. exact Hnone.
Qed.

Lemma review_upsert_witness :
  let body := mkReviewBody (Some 4) "Very attentive" in
  let w := Sample.world_of Sample.reviewed_doctor [Sample.visit "completed"] in
  let r := run (addDoctorReview 1721100000000 1%nat Sample.patient_user body) no_fault w in
  let entry := mkReview 5%nat 4 "Very attentive" 1721100000000 in
  exists d',
    List.find (fun d => Nat.eqb (dr_id d) 1%nat) (doctors (committed (snd r))) = Some d'
    /\ (exists resp, fst r = Ok resp /\ res_data resp = Some (reviews d'))
    /\ ((exists old, In old (reviews Sample.reviewed_doctor) /\ rv_patient old = 5%nat) ->
        length (reviews d') = length (reviews Sample.reviewed_doctor)
        /\ length (reviews_by 5%nat (reviews d'))
           = length (reviews_by 5%nat (reviews Sample.reviewed_doctor))
        /\ (exists l1 x l2,
              reviews Sample.reviewed_doctor = (l1 ++ x :: l2)%list /\ rv_patient x = 5%nat
              /\ reviews_by 5%nat l1 = []
              /\ reviews d' = (l1 ++ entry :: l2)%list)
        /\ (reviews_unique (reviews Sample.reviewed_doctor) ->
            reviews_unique (reviews d')
            /\ reviews_by 5%nat (reviews d') = [entry]))
    /\ ((forall old, In old (reviews Sample.reviewed_doctor) -> rv_patient old <> 5%nat) ->
        reviews d' = (reviews Sample.reviewed_doctor ++ [entry])%list).
Proof.
  apply (review_upsert 1721100000000 1%nat Sample.patient_user
           (mkReviewBody (Some 4) "Very attentive") no_fault
           (Sample.world_of Sample.reviewed_doctor [Sample.visit "completed"])
           Sample.reviewed_doctor (mkPatient 5%nat 20%nat) 4).
  - reflexivity.
  - reflexivity.
  - reflexivity.
  - reflexivity.
Defined.

(** ** getDoctorAvailability on an available day *)

Lemma includes_booked_times (p : Appointment -> bool) s l :
  includes (map appointmentTime (List.filter p l)) s
  = existsb (fun a => p a && (appointmentTime a =? s)%string) l.
Proof.
  unfold includes. induction l as [|a l IH]; [reflexivity|].
  cbn [List.filter existsb]. destruct (p a); cbn [map existsb andb orb]; rewrite IH;
    reflexivity.
Qed.

Lemma existsb_ext_in {A} (f g : A -> bool) l :
  (forall a, In a l -> f a = g a) -> existsb f l = existsb g l.
Proof.
  induction l as [|a l IH]; intros H; [reflexivity|]. cbn [existsb].
  rewrite (H a) by (left; reflexivity). rewrite IH; [reflexivity|].
  intros b Hb. apply H. right; exact Hb.
Qed.

(** What the handler answers on an available day: a slot is marked booked when
    an appointment of the doctor, neither cancelled nor no-show, has that start
    time and a date from [lo] (included) to [hi] (excluded). *)
Lemma availability_available_day tza doctorId queryDate o w d da :
  no_db_fault o ->
  List.find (fun d => Nat.eqb (dr_id d) doctorId) (doctors (committed w)) = Some d ->
  let dayOfWeek := nth (Z.to_nat (getDay tza queryDate)) day_names "" in
  List.find (fun a => (day a =? dayOfWeek)%string) (availability d) = Some da ->
  isAvailable da = true ->
  let lo := setHours tza queryDate 0 0 0 in
  let hi := setHours tza lo 23 59 59 in
  run (getDoctorAvailability tza doctorId (ValidDate queryDate)) o w
  = (Ok (mkResponse 200%nat true ""
           (Some (OnDay dayOfWeek true
              (map (fun slot =>
                      mkBookedSlot slot
                        (existsb (fun a => booked_on doctorId lo hi a
                                           && (appointmentTime a =? startTime slot)%string)
                                 (appointments (committed w))))
                   (slots da))))), w).
Proof.
  intros H Hd dayOfWeek Hda Hav lo hi.
  unfold getDoctorAvailability. io_unfold.
  io_ok H. rewrite Hd. io_unfold. io_ok H.
  fold dayOfWeek. rewrite Hda, Hav. cbn [negb]. fold lo. fold hi.
  do 5 f_equal. apply map_ext. intros slot. rewrite includes_booked_times. reflexivity.
Qed.

(** The window of the query: it starts at the local midnight of the queried
    date plus the milliseconds of the queried instant, and ends 23:59:59
    later. *)
Lemma availability_window tza queryDate :
  let lo := setHours tza queryDate 0 0 0 in
  let hi := setHours tza lo 23 59 59 in
  lo = Day (queryDate + tza) * msPerDay + (queryDate + tza) mod 1000 - tza
  /\ hi = lo + 86399000.
Proof.
  cbv zeta. unfold setHours, LocalTime, UTC, MakeDate, MakeTime, Day, msPerDay.
  split; [lia|]. Z.div_mod_to_equations. lia.
Qed.

(** X2. For a query without milliseconds and appointments dated before the last
    second of their day, the handler marks the slots as the contract asks. *)
Lemma availability_booked_as_specified tza doctorId queryDate o w d da :
  no_db_fault o ->
  List.find (fun d => Nat.eqb (dr_id d) doctorId) (doctors (committed w)) = Some d ->
  let dayOfWeek := nth (Z.to_nat (getDay tza queryDate)) day_names "" in
  List.find (fun a => (day a =? dayOfWeek)%string) (availability d) = Some da ->
  isAvailable da = true ->
  (queryDate + tza) mod 1000 = 0 ->
  (forall a, In a (appointments (committed w)) ->
     (appointmentDate a + tza) mod msPerDay < 86399000) ->
  run (getDoctorAvailability tza doctorId (ValidDate queryDate)) o w
  = (Ok (mkResponse 200%nat true ""
           (Some (OnDay dayOfWeek true
              (map (fun slot =>
                      mkBookedSlot slot
                        (spec_booked tza doctorId queryDate (appointments (committed w)) slot))
                   (slots da))))), w).
Proof.
  intros H Hd dayOfWeek Hda Hav Hms Hearly.
  rewrite (availability_available_day tza doctorId queryDate o w d da H Hd Hda Hav).
  do 5 f_equal. apply map_ext. intros slot. unfold spec_booked. f_equal.
  apply existsb_ext_in. intros a Hin. specialize (Hearly a Hin).
  destruct (availability_window tza queryDate) as [Hlo Hhi].
  unfold booked_on. rewrite Hhi, Hlo, Hms. unfold includes. cbn [existsb].
  rewrite orb_false_r, negb_orb, (String.eqb_sym "cancelled"), (String.eqb_sym "no-show").
  destruct (Nat.eqb (ap_doctor a) doctorId); cbn [andb]; [|reflexivity].
  replace ((Day (queryDate + tza) * msPerDay + 0 - tza <=? appointmentDate a)
           && (appointmentDate a <? Day (queryDate + tza) * msPerDay + 0 - tza + 86399000))
    with (Day (LocalTime tza (appointmentDate a)) =? Day (LocalTime tza queryDate)).
  - destruct (Day (LocalTime tza (appointmentDate a)) =? Day (LocalTime tza queryDate));
      cbn [andb]; [|reflexivity].
    destruct (appointmentTime a =? startTime slot)%string; cbn [andb];
      [|rewrite andb_false_r; reflexivity].
    rewrite andb_true_r. reflexivity.
  - unfold LocalTime, Day, msPerDay in *.
    destruct (Z.eqb_spec ((appointmentDate a + tza) / 86400000) ((queryDate + tza) / 86400000)),
             (Z.leb_spec ((queryDate + tza) / 86400000 * 86400000 + 0 - tza) (appointmentDate a)),
             (Z.ltb_spec (appointmentDate a)
                ((queryDate + tza) / 86400000 * 86400000 + 0 - tza + 86399000));
      cbn [andb]; try reflexivity; exfalso; Z.div_mod_to_equations; lia.
Qed.

(** ** The calendar *)

Lemma DayFromYear_step y :
  DayFromYear (y + 1) = DayFromYear y + 365 + (if InLeapYear y then 1 else 0).
Proof.
  unfold DayFromYear, InLeapYear.
  destruct (Z.eqb_spec (y mod 4) 0), (Z.eqb_spec (y mod 100) 0), (Z.eqb_spec (y mod 400) 0);
    cbn [andb orb negb]; Z.div_mod_to_equations; lia.
Qed.

Lemma DayFromYear_mono y1 y2 : y1 <= y2 -> DayFromYear y1 <= DayFromYear y2.
Proof. unfold DayFromYear. intros H. Z.div_mod_to_equations. lia. Qed.

Lemma YearFromDay_bracket d :
  DayFromYear (YearFromDay d) <= d < DayFromYear (YearFromDay d + 1).
Proof.
  unfold YearFromDay.
  destruct (Z.leb_spec (DayFromYear (1970 + d * 400 / 146097 + 1)) d) as [H1|H1].
  - split; [exact H1|]. revert H1. unfold DayFromYear. Z.div_mod_to_equations. lia.
  - destruct (Z.leb_spec (DayFromYear (1970 + d * 400 / 146097)) d) as [H2|H2].
    + split; assumption.
    + replace (1970 + d * 400 / 146097 - 1 + 1) with (1970 + d * 400 / 146097) by lia.
      split; [|exact H2]. revert H2. unfold DayFromYear. Z.div_mod_to_equations. lia.
Qed.

(** [MakeDay] depends on the year and the month through the month count
    [12 * year + month] only. *)
Lemma MakeDay_month_count y m date : MakeDay y m date = MakeDay 0 (12 * y + m) date.
Proof.
  unfold MakeDay.
  replace (0 + (12 * y + m) / 12) with (y + m / 12) by (Z.div_mod_to_equations; lia).
  replace ((12 * y + m) mod 12) with (m mod 12) by (Z.div_mod_to_equations; lia).
  reflexivity.
Qed.

Lemma month_cases r :
  0 <= r < 12 ->
  r = 0 \/ r = 1 \/ r = 2 \/ r = 3 \/ r = 4 \/ r = 5 \/ r = 6 \/ r = 7 \/ r = 8
  \/ r = 9 \/ r = 10 \/ r = 11.
Proof. lia. Qed.

Lemma MakeDay_first_of_month y r :
  0 <= r < 12 ->
  MakeDay 0 (12 * y + r) 1 = DayFromYear y + month_start (InLeapYear y) r.
Proof.
  intros Hr. unfold MakeDay.
  replace (0 + (12 * y + r) / 12) with y by (Z.div_mod_to_equations; lia).
  replace ((12 * y + r) mod 12) with r by (Z.div_mod_to_equations; lia).
  lia.
Qed.

(** A month has between 28 and 31 days. *)
Lemma MakeDay_next_month k :
  28 <= MakeDay 0 (k + 1) 1 - MakeDay 0 k 1 <= 31.
Proof.
  assert (Hk : k = 12 * (k / 12) + k mod 12) by (Z.div_mod_to_equations; lia).
  assert (Hr : 0 <= k mod 12 < 12) by (Z.div_mod_to_equations; lia).
  set (y := k / 12) in *. set (r := k mod 12) in *. rewrite Hk. clearbody y r. clear Hk.
  destruct (Z.eq_dec r 11) as [->|Hne].
  - replace (12 * y + 11 + 1) with (12 * (y + 1) + 0) by lia.
    rewrite !MakeDay_first_of_month by lia. rewrite DayFromYear_step.
    destruct (InLeapYear y), (InLeapYear (y + 1)); cbn; lia.
  - replace (12 * y + r + 1) with (12 * y + (r + 1)) by lia.
    rewrite !MakeDay_first_of_month by lia.
    pose proof (month_cases r Hr) as Hc.
    repeat (destruct Hc as [Hc|Hc];
            [subst r; destruct (InLeapYear y); unfold month_start; simpl; lia|]).
    lia.
Qed.

Lemma MakeDay_month_mono k1 k2 : k1 <= k2 -> MakeDay 0 k1 1 <= MakeDay 0 k2 1.
Proof.
  intros H. replace k2 with (k1 + Z.of_nat (Z.to_nat (k2 - k1))) by lia.
  induction (Z.to_nat (k2 - k1)) as [|n IH].
  - replace (k1 + Z.of_nat 0) with k1 by lia. lia.
  - pose proof (MakeDay_next_month (k1 + Z.of_nat n)).
    replace (k1 + Z.of_nat (S n)) with (k1 + Z.of_nat n + 1) by lia. lia.
Qed.

(** The month of a time value is the one whose days hold its day. *)
Lemma month_bracket t :
  0 <= MonthFromTime t < 12
  /\ MakeDay 0 (12 * YearFromTime t + MonthFromTime t) 1 <= Day t
     < MakeDay 0 (12 * YearFromTime t + MonthFromTime t + 1) 1.
Proof.
  unfold MonthFromTime, YearFromTime.
  pose proof (YearFromDay_bracket (Day t)) as [Hlo Hhi].
  rewrite DayFromYear_step in Hhi.
  set (y := YearFromDay (Day t)) in *. set (d := Day t) in *.
  assert (Hlast : MakeDay 0 (12 * y + 11 + 1) 1 = DayFromYear y + 365
                  + (if InLeapYear y then 1 else 0)).
  { replace (12 * y + 11 + 1) with (12 * (y + 1) + 0) by lia.
    rewrite MakeDay_first_of_month by lia. rewrite DayFromYear_step.
    unfold month_start. simpl. lia. }
  cbv zeta.
  repeat match goal with
  | |- context [?a <? ?b] => destruct (Z.ltb_spec a b)
  end;
  (split; [lia|]);
  try rewrite Hlast;
  repeat match goal with
  | |- context [12 * y + ?r + 1] =>
    replace (12 * y + r + 1) with (12 * y + (r + 1)) by lia
  end;
  rewrite ?MakeDay_first_of_month by lia;
  destruct (InLeapYear y); unfold month_start in *; simpl in *; lia.
Qed.

Lemma month_of_day t k :
  MakeDay 0 k 1 <= Day t < MakeDay 0 (k + 1) 1 ->
  12 * YearFromTime t + MonthFromTime t = k.
Proof.
  intros [Hlo Hhi]. destruct (month_bracket t) as (_ & Hlo' & Hhi').
  set (k0 := 12 * YearFromTime t + MonthFromTime t) in *.
  destruct (Z.lt_trichotomy k k0) as [Hlt|[Heq|Hgt]]; [|congruence|].
  - pose proof (MakeDay_month_mono (k + 1) k0). lia.
  - pose proof (MakeDay_month_mono (k0 + 1) k). lia.
Qed.

(** ** The aggregation of getMonthlyAppointmentStats *)

Lemma find_group_add m y m' y' gs :
  match List.find (fun a => (g_month a =? m') && (g_year a =? y')) (group_add m y gs) with
  | Some a => g_count a
  | None => 0
  end
  = match List.find (fun a => (g_month a =? m') && (g_year a =? y')) gs with
    | Some a => g_count a
    | None => 0
    end + (if (m =? m') && (y =? y') then 1 else 0).
Proof.
  induction gs as [|g gs IH]; cbn [group_add List.find g_month g_year g_count].
  - destruct ((m =? m') && (y =? y')); reflexivity.
  - destruct ((g_month g =? m) && (g_year g =? y)) eqn:Eg.
    + apply andb_true_iff in Eg. destruct Eg as [Em Ey].
      apply Z.eqb_eq in Em, Ey. subst m y.
      cbn [List.find g_month g_year g_count].
      destruct ((g_month g =? m') && (g_year g =? y')); cbn [g_count]; lia.
    + cbn [List.find].
      destruct ((g_month g =? m') && (g_year g =? y')) eqn:Ek.
      * apply andb_true_iff in Ek. destruct Ek as [Em Ey].
        apply Z.eqb_eq in Em, Ey. subst m' y'.
        rewrite (Z.eqb_sym m), (Z.eqb_sym y), Eg. lia.
      * exact IH.
Qed.

Lemma find_group_by_month m' y' docs : forall acc,
  match List.find (fun a => (g_month a =? m') && (g_year a =? y'))
          (fold_left
             (fun gs a => group_add (mongo_month (createdAt a)) (mongo_year (createdAt a)) gs)
             docs acc) with
  | Some a => g_count a
  | None => 0
  end
  = match List.find (fun a => (g_month a =? m') && (g_year a =? y')) acc with
    | Some a => g_count a
    | None => 0
    end
    + Z.of_nat (length (List.filter
        (fun a => (mongo_month (createdAt a) =? m') && (mongo_year (createdAt a) =? y'))
        docs)).
Proof.
  induction docs as [|a docs IH]; intros acc; cbn [fold_left List.filter].
  - cbn. lia.
  - rewrite IH, find_group_add.
    destruct ((mongo_month (createdAt a) =? m') && (mongo_year (createdAt a) =? y'));
      cbn [length]; lia.
Qed.

(** Sorting the groups does not change which group a key finds. *)
Lemma find_insert_group m y g l :
  List.find (fun a => (g_month a =? m) && (g_year a =? y)) (insert_group g l)
  = if (g_month g =? m) && (g_year g =? y) then Some g
    else List.find (fun a => (g_month a =? m) && (g_year a =? y)) l.
Proof.
  induction l as [|h l IH]; cbn [insert_group List.find]; [reflexivity|].
  destruct (group_le g h) eqn:Ele; cbn [List.find]; [reflexivity|].
  rewrite IH.
  destruct ((g_month g =? m) && (g_year g =? y)) eqn:Eg; [|reflexivity].
  destruct ((g_month h =? m) && (g_year h =? y)) eqn:Eh; [|reflexivity].
  exfalso. apply andb_true_iff in Eg, Eh. destruct Eg as [Gm Gy], Eh as [Hm Hy].
  apply Z.eqb_eq in Gm, Gy, Hm, Hy. unfold group_le in Ele.
  rewrite Gm, Gy, Hm, Hy, Z.eqb_refl, Z.leb_refl, orb_true_r in Ele. discriminate.
Qed.

Lemma find_sort_groups m y l :
  List.find (fun a => (g_month a =? m) && (g_year a =? y)) (sort_groups l)
  = List.find (fun a => (g_month a =? m) && (g_year a =? y)) l.
Proof.
  induction l as [|g l IH]; [reflexivity|].
  cbn [sort_groups fold_right]. fold (sort_groups l).
  rewrite find_insert_group, IH. reflexivity.
Qed.

(** The count the loop finds for a month: the matched documents created in it
    (in UTC). *)
Lemma aggregate_months_count doctorId sixMonthsAgo docs m y :
  match List.find (fun a => (g_month a =? m) && (g_year a =? y))
          (aggregate_months doctorId sixMonthsAgo docs) with
  | Some a => g_count a
  | None => 0
  end
  = Z.of_nat (length (List.filter
      (fun a => (Nat.eqb (ap_doctor a) doctorId && (sixMonthsAgo <=? createdAt a))
                && ((mongo_month (createdAt a) =? m) && (mongo_year (createdAt a) =? y)))
      docs)).
Proof.
  unfold aggregate_months, group_by_month.
  rewrite find_sort_groups, find_group_by_month. cbn [List.find].
  rewrite Z.add_0_l. f_equal. f_equal.
  induction docs as [|a docs IH]; [reflexivity|]. cbn [List.filter].
  destruct (Nat.eqb (ap_doctor a) doctorId && (sixMonthsAgo <=? createdAt a));
    cbn [List.filter andb]; [|exact IH].
  destruct ((mongo_month (createdAt a) =? m) && (mongo_year (createdAt a) =? y));
    [f_equal|]; exact IH.
Qed.

(** ** getMonthlyAppointmentStats on a server whose time zone is UTC *)

Lemma year_of_nonnegative t : 0 <= t -> 1970 <= YearFromTime t.
Proof.
  intros Ht. unfold YearFromTime.
  pose proof (YearFromDay_bracket (Day t)) as [_ Hhi].
  assert (0 <= Day t) by (unfold Day, msPerDay; Z.div_mod_to_equations; lia).
  destruct (Z.le_gt_cases 1970 (YearFromDay (Day t))) as [|Hlt]; [assumption|].
  pose proof (DayFromYear_mono (YearFromDay (Day t) + 1) 1970 ltac:(lia)) as Hm.
  change (DayFromYear 1970) with 0 in Hm. lia.
Qed.

Lemma Date_ymd_utc y m :
  ~ 0 <= y <= 99 -> Date_ymd 0 y m 1 = MakeDay 0 (12 * y + m) 1 * msPerDay.
Proof.
  intros Hy. unfold Date_ymd, UTC, MakeDate.
  destruct (Z.leb_spec 0 y), (Z.leb_spec y 99); cbn [andb]; try lia;
    rewrite (MakeDay_month_count y m 1); lia.
Qed.

Lemma first_of_month_fields k :
  YearFromTime (MakeDay 0 k 1 * msPerDay) = k / 12
  /\ MonthFromTime (MakeDay 0 k 1 * msPerDay) = k mod 12.
Proof.
  set (t := MakeDay 0 k 1 * msPerDay).
  assert (Hd : Day t = MakeDay 0 k 1).
  { unfold t, Day. apply Z.div_mul. unfold msPerDay. lia. }
  pose proof (month_bracket t) as (Hm & _).
  pose proof (MakeDay_next_month k) as Hn.
  pose proof (month_of_day t k ltac:(rewrite Hd; lia)) as Hk.
  Z.div_mod_to_equations. lia.
Qed.

Lemma created_since_window_start k5 k t :
  k5 <= k ->
  12 * YearFromTime t + MonthFromTime t = k ->
  MakeDay 0 k5 1 * msPerDay <= t.
Proof.
  intros Hle Hk. destruct (month_bracket t) as (_ & Hlo & _). rewrite Hk in Hlo.
  pose proof (MakeDay_month_mono k5 k Hle) as Hm.
  unfold Day, msPerDay in *. Z.div_mod_to_equations. lia.
Qed.

Lemma month_entry_utc_server now doctorId docs i :
  0 <= now -> 0 <= i <= 5 ->
  month_entry 0 now
    (aggregate_months doctorId
       (Date_ymd 0 (getFullYear 0 now) (getMonth 0 now - 5) 1) docs) i
  = let ym := 12 * YearFromTime (now + 0) + MonthFromTime (now + 0) - i in
    mkMonthStat (nth (Z.to_nat (ym mod 12)) month_names "") (ym / 12)
      (spec_month_count 0 doctorId (ym / 12) (ym mod 12) docs).
Proof.
  intros Hnow Hi. unfold month_entry, getFullYear, getMonth, LocalTime.
  rewrite !Z.add_0_r.
  pose proof (year_of_nonnegative now Hnow) as Hy.
  rewrite !Date_ymd_utc by lia.
  set (Y := YearFromTime now) in *. set (M := MonthFromTime now).
  replace (12 * Y + (M - i)) with (12 * Y + M - i) by lia.
  replace (12 * Y + (M - 5)) with (12 * Y + M - 5) by lia.
  destruct (first_of_month_fields (12 * Y + M - i)) as [Hyear Hmonth].
  rewrite Hyear, Hmonth. cbv zeta.
  rewrite aggregate_months_count. unfold spec_month_count.
  f_equal. f_equal. f_equal. apply List.filter_ext. intros a.
  unfold mongo_month, mongo_year. rewrite ?Z.add_0_r.
  destruct (Nat.eqb (ap_doctor a) doctorId); cbn [andb]; [|reflexivity].
  replace (MonthFromTime (createdAt a) + 1 =? (12 * Y + M - i) mod 12 + 1)
    with (MonthFromTime (createdAt a) =? (12 * Y + M - i) mod 12)
    by (destruct (Z.eqb_spec (MonthFromTime (createdAt a)) ((12 * Y + M - i) mod 12)),
          (Z.eqb_spec (MonthFromTime (createdAt a) + 1) ((12 * Y + M - i) mod 12 + 1));
        lia || reflexivity).
  rewrite (andb_comm (MonthFromTime (createdAt a) =? _)).
  destruct (Z.eqb_spec (YearFromTime (createdAt a)) ((12 * Y + M - i) / 12));
    cbn [andb]; [|apply andb_false_r].
  destruct (Z.eqb_spec (MonthFromTime (createdAt a)) ((12 * Y + M - i) mod 12));
    cbn [andb]; [|apply andb_false_r].
  rewrite andb_true_r. apply Z.leb_le.
  apply created_since_window_start with (k := 12 * Y + M - i); [lia|].
  Z.div_mod_to_equations. lia.
Qed.

(** X1. When the server's time zone is UTC the helper returns what the contract
    asks for: six dense entries, oldest first, each with the number of the
    doctor's appointments created in that calendar month. *)
Lemma monthly_stats_utc_server now doctorId o w :
  no_db_fault o -> 0 <= now ->
  run (getMonthlyAppointmentStats 0 now doctorId) o w
  = (Ok (spec_monthly_stats 0 now doctorId (appointments (committed w))), w).
Proof.
  intros H Hnow. unfold getMonthlyAppointmentStats. io_unfold. io_ok H.
  cbn [fold_left]. unfold spec_monthly_stats. cbn [map].
  rewrite !month_entry_utc_server by lia. reflexivity.
Qed.

(** Whatever the time zone, the helper returns six entries. *)
Lemma monthly_stats_six_entries tza now doctorId o w :
  no_db_fault o ->
  exists l, fst (run (getMonthlyAppointmentStats tza now doctorId) o w) = Ok l
            /\ length l = 6%nat.
Proof.
  intros H. unfold getMonthlyAppointmentStats. io_unfold. io_ok H.
  eexists. split; reflexivity.
Qed.

(** ** The failing inputs of getDoctorAvailability and getMonthlyAppointmentStats *)

(** C3. On inputs the handler can receive, a slot with a live appointment on
    the queried date is not marked booked.  The server is in UTC and the doctor
    takes patients on Mondays at 10:00.  (a) The patient has a 'scheduled'
    appointment dated Monday 2024-07-15 00:00:00.000 at 10:00, and the query
    is for the instant 2024-07-15T10:23:45.678Z: [setHours(0, 0, 0)] keeps the
    678 milliseconds, the window starts after the appointment, and the slot is
    answered with [isBooked] false.  (b) The appointment is dated 23:59:59 that
    Monday and the query is for its midnight: the window ends at 23:59:59
    excluded, and the slot is answered with [isBooked] false.  In both the
    contract asks for [isBooked] true; in the run of the same query at
    midnight against the appointment of (a) the handler answers true. *)
Theorem availability_window_misses_appointments :
  let slot := mkSlot "10:00" "10:30" in
  let answer (booked : bool) : Outcome (Response AvailabilityData) :=
    Ok (mkResponse 200%nat true ""
          (Some (OnDay "Monday" true
             [mkBookedSlot slot booked; mkBookedSlot (mkSlot "11:00" "11:30") false]))) in
  let midnight := Sample.monday in
  let with_millis := Sample.monday + MakeTime 10 23 45 678 in
  let w := Sample.world [Sample.visit "scheduled"] in
  let w_late := Sample.world [Sample.late_visit] in
  (setHours 0 with_millis 0 0 0 = midnight + 678
   /\ fst (run (getDoctorAvailability 0 1%nat (ValidDate with_millis)) no_fault w)
      = answer false
   /\ spec_booked 0 1%nat with_millis (appointments (committed w)) slot = true)
  /\ (setHours 0 (setHours 0 midnight 0 0 0) 23 59 59 = appointmentDate Sample.late_visit
      /\ fst (run (getDoctorAvailability 0 1%nat (ValidDate midnight)) no_fault w_late)
         = answer false
      /\ spec_booked 0 1%nat midnight (appointments (committed w_late)) slot = true)
  /\ fst (run (getDoctorAvailability 0 1%nat (ValidDate midnight)) no_fault w)
     = answer true.
Proof. vm_compute. repeat split; reflexivity. Qed.

(** C1. On a server five hours behind UTC, at 2024-07-15T12:00:00Z, for a
    doctor with one appointment created at 2024-02-01T02:00:00Z (January 31,
    21:00 local) and one created at 2024-04-01T02:00:00Z (March 31, 21:00
    local), the helper returns six entries, February to July 2024, with the
    only count in April.  The first appointment is dropped by [$match], whose
    bound is the local start of February, 05:00Z; the second is grouped by
    [$month] under its UTC month.  Counting by the local calendar month gives
    March 1 and April 0; counting by the UTC calendar month gives February 1
    and April 1.  The helper's answer is neither. *)
Theorem monthly_stats_mixes_time_zones :
  let tza := -18000000 in
  let now := 1721044800000 in
  let docs := [Sample.booking 201%nat 1706752800000;
               Sample.booking 202%nat 1711936800000] in
  let stats (feb mar apr : Z) :=
    [mkMonthStat "Feb" 2024 feb; mkMonthStat "Mar" 2024 mar; mkMonthStat "Apr" 2024 apr;
     mkMonthStat "May" 2024 0; mkMonthStat "Jun" 2024 0; mkMonthStat "Jul" 2024 0] in
  fst (run (getMonthlyAppointmentStats tza now 1%nat) no_fault (Sample.world docs))
  = Ok (stats 0 0 1)
  /\ spec_monthly_stats tza now 1%nat docs = stats 0 1 0
  /\ spec_monthly_stats 0 now 1%nat docs = stats 1 0 1.
Proof. vm_compute. repeat split; reflexivity. Qed.

(** * More properties *)

Ltac iox_unfold :=
  cbv beta iota delta
    [run bind ret try_catch finally startSession commitTransaction abortTransaction
     Doctor_findOne Doctor_findById User_findById Patient_findOne Appointment_findOne
     Appointment_find Appointment_countDocuments Appointment_updateMany
     Doctor_findByIdAndDelete Doctor_insert Doctor_save User_save updateAverageRating
     startTransaction endSession with_pending with_committed write
     Doctor_countDocuments Appointment_distinct_patient refused
     succeeded fail server_error];
  cbn [db_calls fs_calls committed pending storage fileLog fst snd res_success
       res_status res_data res_message].

Ltac iox_db E :=
  rewrite await_db_unfold; iox_unfold;
  match goal with
  | |- context [db_fault ?o ?n] => destruct (db_fault o n) eqn:E
  end; iox_unfold.

Ltac iox_ok H := rewrite await_db_unfold, H; iox_unfold.

Lemma monthly_stats_utc_server_witness :
  let docs := [Sample.booking 201%nat 1706752800000;
               Sample.booking 202%nat 1711936800000] in
  run (getMonthlyAppointmentStats 0 1721044800000 1%nat) no_fault (Sample.world docs)
  = (Ok (spec_monthly_stats 0 1721044800000 1%nat docs), Sample.world docs).
Proof.
  apply (monthly_stats_utc_server 1721044800000 1%nat no_fault
           (Sample.world [Sample.booking 201%nat 1706752800000;
                          Sample.booking 202%nat 1711936800000])).
  - intros n. reflexivity.
  - lia.
Defined.

Lemma availability_booked_as_specified_witness :
  let w := Sample.world [Sample.visit "scheduled"; Sample.visit "cancelled"] in
  run (getDoctorAvailability 0 1%nat (ValidDate (Sample.monday + 36000000))) no_fault w
  = (Ok (mkResponse 200%nat true ""
           (Some (OnDay "Monday" true
              (map (fun slot =>
                      mkBookedSlot slot
                        (spec_booked 0 1%nat (Sample.monday + 36000000)
                           (appointments (committed w)) slot))
                   [mkSlot "10:00" "10:30"; mkSlot "11:00" "11:30"])))), w).
Proof.
  apply (availability_booked_as_specified 0 1%nat (Sample.monday + 36000000) no_fault
           (Sample.world [Sample.visit "scheduled"; Sample.visit "cancelled"])
           Sample.doctor
           (mkDayAvailability "Monday" true
              [mkSlot "10:00" "10:30"; mkSlot "11:00" "11:30"])).
  - intros n. reflexivity.
  - reflexivity.
  - reflexivity.
  - reflexivity.
  - reflexivity.
  - intros a [<-|[<-|[]]]; vm_compute; reflexivity.
Defined.

(** ** getMonthlyAppointmentStats in any time zone *)

Lemma Date_ymd_local tza y m :
  ~ 0 <= y <= 99 -> Date_ymd tza y m 1 = MakeDay 0 (12 * y + m) 1 * msPerDay - tza.
Proof.
  intros Hy. unfold Date_ymd, UTC, MakeDate.
  destruct (Z.leb_spec 0 y), (Z.leb_spec y 99); cbn [andb]; try lia;
    rewrite (MakeDay_month_count y m 1); lia.
Qed.

Lemma month_entry_any_zone tza now doctorId docs i :
  0 <= now + tza ->
  let ym := 12 * getFullYear tza now + getMonth tza now - i in
  let sixMonthsAgo := Date_ymd tza (getFullYear tza now) (getMonth tza now - 5) 1 in
  month_entry tza now (aggregate_months doctorId sixMonthsAgo docs) i
  = mkMonthStat (nth (Z.to_nat (ym mod 12)) month_names "") (ym / 12)
      (Z.of_nat (length (List.filter
         (fun a => (Nat.eqb (ap_doctor a) doctorId && (sixMonthsAgo <=? createdAt a))
                   && ((mongo_month (createdAt a) =? ym mod 12 + 1)
                       && (mongo_year (createdAt a) =? ym / 12)))
         docs))).
Proof.
  intros Hnow ym sixMonthsAgo. unfold month_entry.
  pose proof (year_of_nonnegative (now + tza) Hnow) as Hy.
  fold (LocalTime tza now) in Hy. fold (getFullYear tza now) in Hy.
  rewrite (Date_ymd_local tza (getFullYear tza now) (getMonth tza now - i)) by lia.
  replace (12 * getFullYear tza now + (getMonth tza now - i)) with ym by (unfold ym; lia).
  destruct (first_of_month_fields ym) as [Hyear Hmonth].
  assert (Hm : getMonth tza (MakeDay 0 ym 1 * msPerDay - tza) = ym mod 12).
  { unfold getMonth, LocalTime. rewrite <- Hmonth. f_equal. lia. }
  assert (Hf : getFullYear tza (MakeDay 0 ym 1 * msPerDay - tza) = ym / 12).
  { unfold getFullYear, LocalTime. rewrite <- Hyear. f_equal. lia. }
  rewrite Hm, Hf. cbv zeta.
  rewrite aggregate_months_count. reflexivity.
Qed.

(** X3. In any time zone (local time not before 1970), with no failing
    database call, the helper returns six entries for six consecutive calendar
    months of the server's local calendar, the current month last.  The count
    of a month is the number of the doctor's appointments created at or after
    the local start of the first month whose creation date, read in UTC, falls
    in the month of that name and year.  Nothing is written. *)
Theorem monthly_stats_any_zone tza now doctorId o w :
  no_db_fault o ->
  0 <= now + tza ->
  let sixMonthsAgo := Date_ymd tza (getFullYear tza now) (getMonth tza now - 5) 1 in
  run (getMonthlyAppointmentStats tza now doctorId) o w
  = (Ok (map
           (fun i =>
              let ym := 12 * getFullYear tza now + getMonth tza now - i in
              mkMonthStat (nth (Z.to_nat (ym mod 12)) month_names "") (ym / 12)
                (Z.of_nat (length (List.filter
                   (fun a => (Nat.eqb (ap_doctor a) doctorId
                              && (sixMonthsAgo <=? createdAt a))
                             && ((mongo_month (createdAt a) =? ym mod 12 + 1)
                                 && (mongo_year (createdAt a) =? ym / 12)))
                   (appointments (committed w))))))
           [5; 4; 3; 2; 1; 0]), w).
Proof.
  intros H Hnow sixMonthsAgo. unfold getMonthlyAppointmentStats. iox_unfold. iox_ok H.
  cbn [fold_left map]. fold sixMonthsAgo.
  unfold sixMonthsAgo. rewrite !month_entry_any_zone by assumption. reflexivity.
Qed.

Lemma monthly_stats_any_zone_witness :
  let tza := -18000000 in
  let now := 1721044800000 in
  let w := Sample.world [Sample.booking 201%nat 1706752800000;
                         Sample.booking 202%nat 1711936800000] in
  let sixMonthsAgo := Date_ymd tza (getFullYear tza now) (getMonth tza now - 5) 1 in
  run (getMonthlyAppointmentStats tza now 1%nat) no_fault w
  = (Ok (map
           (fun i =>
              let ym := 12 * getFullYear tza now + getMonth tza now - i in
              mkMonthStat (nth (Z.to_nat (ym mod 12)) month_names "") (ym / 12)
                (Z.of_nat (length (List.filter
                   (fun a => (Nat.eqb (ap_doctor a) 1%nat
                              && (sixMonthsAgo <=? createdAt a))
                             && ((mongo_month (createdAt a) =? ym mod 12 + 1)
                                 && (mongo_year (createdAt a) =? ym / 12)))
                   (appointments (committed w))))))
           [5; 4; 3; 2; 1; 0]), w).
Proof.
  apply (monthly_stats_any_zone (-18000000) 1721044800000 1%nat no_fault
           (Sample.world [Sample.booking 201%nat 1706752800000;
                          Sample.booking 202%nat 1711936800000])).
  - intros n. reflexivity.
  - lia.
Defined.

(** ** Sorting and paging *)

Lemma insert_by_perm {A} (before : A -> A -> bool) x l :
  Permutation (insert_by before x l) (x :: l).
Proof.
  induction l as [|y l IH]; cbn [insert_by]; [reflexivity|].
  destruct (before x y); [reflexivity|].
  rewrite IH. apply perm_swap.
Qed.

Lemma sort_by_perm {A} (before : A -> A -> bool) l : Permutation (sort_by before l) l.
Proof.
  induction l as [|x l IH]; [reflexivity|].
  cbn [sort_by fold_right]. fold (sort_by before l).
  rewrite insert_by_perm. apply perm_skip. exact IH.
Qed.

Lemma sort_by_length {A} (before : A -> A -> bool) l :
  length (sort_by before l) = length l.
Proof. apply Permutation_length, sort_by_perm. Qed.

Lemma sort_by_In {A} (before : A -> A -> bool) l a : In a (sort_by before l) <-> In a l.
Proof.
  split; apply Permutation_in; [|symmetry]; apply sort_by_perm.
Qed.

(** With a total and transitive order the result is sorted. *)
Lemma insert_by_sorted {A} (before : A -> A -> bool) x l :
  (forall a b, before a b = false -> before b a = true) ->
  (forall a b c, before a b = true -> before b c = true -> before a c = true) ->
  StronglySorted (fun a b => before a b = true) l ->
  StronglySorted (fun a b => before a b = true) (insert_by before x l).
Proof.
  intros Htotal Htrans Hs. induction Hs as [|y l Hs IH Hy]; cbn [insert_by].
  - constructor; constructor.
  - destruct (before x y) eqn:E.
    + constructor; [constructor; assumption|].
      constructor; [exact E|].
      eapply List.Forall_impl; [|exact Hy]. intros z Hz. cbn in Hz. eapply Htrans; eassumption.
    + constructor; [exact IH|].
      eapply Permutation_Forall; [symmetry; apply insert_by_perm|].
      constructor; [apply Htotal; exact E|exact Hy].
Qed.

Lemma sort_by_sorted {A} (before : A -> A -> bool) l :
  (forall a b, before a b = false -> before b a = true) ->
  (forall a b c, before a b = true -> before b c = true -> before a c = true) ->
  StronglySorted (fun a b => before a b = true) (sort_by before l).
Proof.
  intros Htotal Htrans. induction l as [|x l IH]; [constructor|].
  cbn [sort_by fold_right]. fold (sort_by before l).
  apply insert_by_sorted; assumption.
Qed.

Lemma StronglySorted_skipn {A} (R : A -> A -> Prop) n l :
  StronglySorted R l -> StronglySorted R (skipn n l).
Proof.
  revert l. induction n as [|n IH]; intros l Hs; [exact Hs|].
  destruct l as [|x l]; [constructor|]. cbn [skipn]. apply IH.
  inversion Hs; assumption.
Qed.

Lemma StronglySorted_firstn {A} (R : A -> A -> Prop) n l :
  StronglySorted R l -> StronglySorted R (firstn n l).
Proof.
  revert l. induction n as [|n IH]; intros l Hs; [constructor|].
  destruct l as [|x l]; [constructor|]. cbn [firstn].
  inversion Hs as [|? ? Hl Hx]; subst. constructor; [apply IH; exact Hl|].
  apply List.Forall_forall. intros y Hy. rewrite List.Forall_forall in Hx. apply Hx.
  revert Hy. clear. revert l. induction n as [|n IH]; intros l Hy; [destruct Hy|].
  destruct l as [|z l]; [destruct Hy|]. cbn [firstn] in Hy.
  destruct Hy as [<-|Hy]; [left; reflexivity|right; apply IH; exact Hy].
Qed.

Lemma In_firstn {A} n (l : list A) a : In a (firstn n l) -> In a l.
Proof.
  revert l. induction n as [|n IH]; intros l Hy; [destruct Hy|].
  destruct l as [|z l]; [destruct Hy|]. cbn [firstn] in Hy.
  destruct Hy as [<-|Hy]; [left; reflexivity|right; apply IH; exact Hy].
Qed.

Lemma In_skipn {A} n (l : list A) a : In a (skipn n l) -> In a l.
Proof.
  revert l. induction n as [|n IH]; intros l Hy; [exact Hy|].
  destruct l as [|z l]; [destruct Hy|]. cbn [skipn] in Hy. right. apply IH. exact Hy.
Qed.

(** The page holds the ranks [skip], [skip + 1], ... of the sorted list. *)
Lemma find_page_nth {A} (before : A -> A -> bool) skip limit (l : list A) j :
  0 <= skip -> (j < Z.to_nat (Z.abs limit))%nat ->
  nth_error (find_page before skip limit l) j
  = nth_error (sort_by before l) (Z.to_nat skip + j).
Proof.
  intros Hs Hj. unfold find_page.
  rewrite nth_error_firstn.
  destruct (Nat.ltb_spec j (Z.to_nat (Z.abs limit))); [|lia].
  apply nth_error_skipn.
Qed.

Lemma find_page_length {A} (before : A -> A -> bool) skip limit (l : list A) :
  (length (find_page before skip limit l) <= Z.to_nat (Z.abs limit))%nat.
Proof. unfold find_page. apply firstn_le_length. Qed.

Lemma find_page_In {A} (before : A -> A -> bool) skip limit (l : list A) a :
  In a (find_page before skip limit l) -> In a l.
Proof.
  unfold find_page. intros H. apply In_firstn, In_skipn in H.
  apply sort_by_In in H. exact H.
Qed.

Lemma find_page_sorted {A} (before : A -> A -> bool) skip limit (l : list A) :
  (forall a b, before a b = false -> before b a = true) ->
  (forall a b c, before a b = true -> before b c = true -> before a c = true) ->
  StronglySorted (fun a b => before a b = true) (find_page before skip limit l).
Proof.
  intros Htotal Htrans. unfold find_page.
  apply StronglySorted_firstn, StronglySorted_skipn, sort_by_sorted; assumption.
Qed.

(** [Math.ceil(total / limit)] is the least number of pages that hold [total]
    documents. *)
Lemma ceil_div_pages total limit :
  0 <= total -> 1 <= limit ->
  (ceil_div total limit - 1) * limit < total <= ceil_div total limit * limit
  \/ (total = 0 /\ ceil_div total limit = 0).
Proof.
  intros Ht Hl. unfold ceil_div.
  destruct (Z.eq_dec total 0) as [->|Hne].
  - right. split; [reflexivity|]. cbn. rewrite Z.div_0_l by lia. reflexivity.
  - left. pose proof (Z.div_mod (- total) limit ltac:(lia)) as Hd.
    pose proof (Z.mod_pos_bound (- total) limit ltac:(lia)) as Hm. nia.
Qed.

(** ** The orders of the queries *)

Lemma string_leb_trans a : forall b c,
  String.leb a b = true -> String.leb b c = true -> String.leb a c = true.
Proof.
  unfold String.leb.
  induction a as [|c1 a IH]; intros [|c2 b] [|c3 c]; cbn [String.compare];
    try reflexivity; try discriminate.
  unfold Ascii.compare.
  destruct (N.compare_spec (Ascii.N_of_ascii c1) (Ascii.N_of_ascii c2)) as [H12|H12|H12],
           (N.compare_spec (Ascii.N_of_ascii c2) (Ascii.N_of_ascii c3)) as [H23|H23|H23],
           (N.compare_spec (Ascii.N_of_ascii c1) (Ascii.N_of_ascii c3)) as [H13|H13|H13];
    try reflexivity; try discriminate; try lia.
  apply IH.
Qed.

Lemma newest_first_total a b : newest_first a b = false -> newest_first b a = true.
Proof. unfold newest_first. intros H. apply Z.leb_gt in H. apply Z.leb_le. lia. Qed.

Lemma newest_first_trans a b c :
  newest_first a b = true -> newest_first b c = true -> newest_first a c = true.
Proof. unfold newest_first. rewrite !Z.leb_le. lia. Qed.

Lemma latest_first_total a b : latest_first a b = false -> latest_first b a = true.
Proof.
  unfold latest_first. intros H.
  apply orb_false_iff in H. destruct H as [Hlt Heq]. apply Z.ltb_ge in Hlt.
  destruct (Z.ltb_spec (appointmentDate a) (appointmentDate b)); [reflexivity|].
  assert (appointmentDate b = appointmentDate a) as He by lia.
  rewrite He, Z.eqb_refl in *. cbn [andb orb] in *.
  destruct (String.leb_total (appointmentTime a) (appointmentTime b)); congruence.
Qed.

Lemma latest_first_trans a b c :
  latest_first a b = true -> latest_first b c = true -> latest_first a c = true.
Proof.
  unfold latest_first. intros Hab Hbc.
  apply orb_true_iff in Hab, Hbc. apply orb_true_iff.
  destruct Hab as [Hab|Hab], Hbc as [Hbc|Hbc];
    rewrite ?andb_true_iff, ?Z.ltb_lt, ?Z.eqb_eq in *.
  - left. lia.
  - left. lia.
  - left. lia.
  - right. destruct Hab as [Eab Lab], Hbc as [Ebc Lbc]. split; [lia|].
    eapply string_leb_trans; eassumption.
Qed.

Lemma best_rated_first_total a b :
  best_rated_first a b = false -> best_rated_first b a = true.
Proof.
  unfold best_rated_first. intros H. apply Qle_bool_iff.
  destruct (Qlt_le_dec (averageRating a) (averageRating b)) as [Hlt|Hle].
  - apply Qlt_le_weak. exact Hlt.
  - apply Qle_bool_iff in Hle. congruence.
Qed.

Lemma best_rated_first_trans a b c :
  best_rated_first a b = true -> best_rated_first b c = true ->
  best_rated_first a c = true.
Proof.
  unfold best_rated_first. rewrite !Qle_bool_iff. intros Hab Hbc.
  eapply Qle_trans; eassumption.
Qed.

(** ** getDoctorAppointments *)

Lemma appointment_filter_sound doctorId q f a :
  appointment_filter doctorId q = Some f -> f a = true ->
  ap_doctor a = doctorId
  /\ (aq_status q = "" \/ status a = aq_status q)
  /\ (forall lo hi, aq_startDate q = ValidDate lo -> aq_endDate q = ValidDate hi ->
        lo <= appointmentDate a <= hi).
Proof.
  unfold appointment_filter. intros Hf Ha.
  assert (Hst : forall b, (if (aq_status q =? "")%string then true
                           else (status a =? aq_status q)%string) = true ->
                          b = true -> aq_status q = "" \/ status a = aq_status q).
  { intros b Hs _. destruct (aq_status q =? "")%string eqn:E.
    - left. apply String.eqb_eq. exact E.
    - right. apply String.eqb_eq. exact Hs. }
  destruct (aq_startDate q) as [| |lo] eqn:Es, (aq_endDate q) as [| |hi] eqn:Ee;
    try discriminate; injection Hf as <-;
    repeat (apply andb_true_iff in Ha; destruct Ha as [Ha ?]);
    try (apply Nat.eqb_eq in Ha);
    (split; [assumption|split; [eauto|]]); intros lo' hi' Hlo Hhi; try discriminate.
  injection Hlo as <-. injection Hhi as <-.
  match goal with
  | H1 : (lo <=? _) = true, H2 : (_ <=? hi) = true |- _ =>
    apply Z.leb_le in H1, H2; lia
  end.
Qed.

Lemma getDoctorAppointments_run user q o w d f :
  no_db_fault o ->
  List.find (fun d => Nat.eqb (dr_user d) (au_id user)) (doctors (committed w)) = Some d ->
  appointment_filter (dr_id d) q = Some f ->
  1 <= or_default (aq_page q) 1 -> 1 <= or_default (aq_limit q) 10 ->
  let page := or_default (aq_page q) 1 in
  let limit := or_default (aq_limit q) 10 in
  let matching := List.filter f (appointments (committed w)) in
  run (getDoctorAppointments user q) o w
  = (Ok (mkResponse 200%nat true ""
           (Some (find_page latest_first ((page - 1) * limit) limit matching,
                  mkPagination (length matching) page limit
                    (ceil_div (Z.of_nat (length matching)) limit)))), w).
Proof.
  intros H Hd Hf Hp Hl page limit matching.
  unfold getDoctorAppointments. iox_unfold. iox_ok H. rewrite Hd, Hf. iox_unfold.
  unfold Appointment_find_page. fold page limit.
  destruct (Z.ltb_spec ((page - 1) * limit) 0) as [Hneg|_]; [unfold page, limit in Hneg; nia|].
  iox_unfold. iox_ok H. iox_ok H. reflexivity.
Qed.

(** X4. With no failing database call, a doctor on file, dates that parse and a
    page and a limit of at least 1, [getDoctorAppointments] answers 200 and
    writes nothing.  The page holds at most [limit] appointments; each is a
    stored appointment of this doctor that has the status asked for, if one
    was, and a date in the range, if both ends were given; they are ordered by
    date, then time, latest first. *)
Theorem doctor_appointments_page user q o w d f :
  no_db_fault o ->
  List.find (fun d => Nat.eqb (dr_user d) (au_id user)) (doctors (committed w)) = Some d ->
  appointment_filter (dr_id d) q = Some f ->
  1 <= or_default (aq_page q) 1 -> 1 <= or_default (aq_limit q) 10 ->
  exists appts pagination,
    run (getDoctorAppointments user q) o w
    = (Ok (mkResponse 200%nat true "" (Some (appts, pagination))), w)
    /\ Z.of_nat (length appts) <= or_default (aq_limit q) 10
    /\ (forall a, In a appts ->
          In a (appointments (committed w))
          /\ ap_doctor a = dr_id d
          /\ (aq_status q = "" \/ status a = aq_status q)
          /\ (forall lo hi, aq_startDate q = ValidDate lo -> aq_endDate q = ValidDate hi ->
                lo <= appointmentDate a <= hi))
    /\ StronglySorted (fun a b => latest_first a b = true) appts.
Proof.
  intros H Hd Hf Hp Hl.
  do 2 eexists. split; [apply (getDoctorAppointments_run user q o w d f); assumption|].
  split; [|split].
  - pose proof (find_page_length latest_first
                  ((or_default (aq_page q) 1 - 1) * or_default (aq_limit q) 10)
                  (or_default (aq_limit q) 10)
                  (List.filter f (appointments (committed w)))). lia.
  - intros a Ha. apply find_page_In in Ha. apply filter_In in Ha. destruct Ha as [Hin Hfa].
    split; [exact Hin|]. exact (appointment_filter_sound _ _ _ _ Hf Hfa).
  - apply find_page_sorted; [exact latest_first_total|exact latest_first_trans].
Qed.

(** Two sorted lists with the same elements are the same list when the order
    is antisymmetric on them. *)
Lemma sorted_permutation_unique {A} (R : A -> A -> Prop) : forall l1 l2,
  (forall a b, In a l1 -> In b l1 -> R a b -> R b a -> a = b) ->
  Permutation l1 l2 -> StronglySorted R l1 -> StronglySorted R l2 -> l1 = l2.
Proof.
  induction l1 as [|x l1 IH]; intros l2 Hanti Hperm Hs1 Hs2.
  - apply Permutation_nil in Hperm. congruence.
  - destruct l2 as [|y l2].
    { apply Permutation_sym, Permutation_nil in Hperm. discriminate. }
    inversion Hs1 as [|? ? Hs1' Hx]; subst. inversion Hs2 as [|? ? Hs2' Hy]; subst.
    rewrite List.Forall_forall in Hx, Hy.
    assert (Hxy : x = y).
    { assert (Hyin : In y (x :: l1)).
      { apply (Permutation_in y (Permutation_sym Hperm)). left. reflexivity. }
      assert (Hxin : In x (y :: l2)).
      { apply (Permutation_in x Hperm). left. reflexivity. }
      destruct Hyin as [Heq|Hyin]; [exact Heq|].
      destruct Hxin as [Heq|Hxin]; [symmetry; exact Heq|].
      apply Hanti; [left; reflexivity|right; exact Hyin|apply Hx; exact Hyin
                   |apply Hy; exact Hxin]. }
    subst y. f_equal. apply IH.
    + intros a b Ha Hb. apply Hanti; right; assumption.
    + apply Permutation_cons_inv with (a := x). exact Hperm.
    + exact Hs1'.
    + exact Hs2'.
Qed.

Lemma string_leb_antisym a b :
  String.leb a b = true -> String.leb b a = true -> a = b.
Proof.
  unfold String.leb. intros Hab Hba. destruct (String.compare a b) eqn:E.
  - apply String.compare_eq_iff. exact E.
  - rewrite String.compare_antisym, E in Hba. discriminate Hba.
  - discriminate Hab.
Qed.

Lemma latest_first_antisym a b :
  latest_first a b = true -> latest_first b a = true ->
  (appointmentDate a, appointmentTime a) = (appointmentDate b, appointmentTime b).
Proof.
  unfold latest_first. intros Hab Hba.
  apply orb_true_iff in Hab, Hba.
  destruct Hab as [Hab|Hab], Hba as [Hba|Hba];
    rewrite ?andb_true_iff, ?Z.ltb_lt, ?Z.eqb_eq in *; try lia.
  destruct Hab as [Hd Hab], Hba as [_ Hba].
  rewrite Hd. f_equal. apply string_leb_antisym; assumption.
Qed.

Lemma NoDup_map_injective {A B} (f : A -> B) l a b :
  List.NoDup (map f l) -> In a l -> In b l -> f a = f b -> a = b.
Proof.
  induction l as [|x l IH]; intros Hn Ha Hb Hf; [destruct Ha|].
  cbn [map] in Hn. inversion Hn as [|? ? Hx Hn']; subst.
  destruct Ha as [->|Ha], Hb as [->|Hb].
  - reflexivity.
  - exfalso. apply Hx. rewrite Hf. apply in_map. exact Hb.
  - exfalso. apply Hx. rewrite <- Hf. apply in_map. exact Ha.
  - apply IH; assumption.
Qed.

(** X5. Under the same conditions, when no two matching appointments have the
    same date and time, the pages are exhaustive and disjoint: in the list of
    the matches ordered latest first, which is then the same whatever the
    database does with ties, the appointment of rank [i] is on the page whose
    range [(page - 1) * limit .. page * limit - 1] holds [i], at offset
    [i - (page - 1) * limit]; [total] is the number of matches and [pages] the
    least number of pages of [limit] that hold them. *)
Theorem doctor_appointments_paging user q o w d f :
  no_db_fault o ->
  List.find (fun d => Nat.eqb (dr_user d) (au_id user)) (doctors (committed w)) = Some d ->
  appointment_filter (dr_id d) q = Some f ->
  1 <= or_default (aq_page q) 1 -> 1 <= or_default (aq_limit q) 10 ->
  List.NoDup (map (fun a => (appointmentDate a, appointmentTime a))
                (List.filter f (appointments (committed w)))) ->
  let page := or_default (aq_page q) 1 in
  let limit := or_default (aq_limit q) 10 in
  let matching := List.filter f (appointments (committed w)) in
  exists appts pagination,
    fst (run (getDoctorAppointments user q) o w)
    = Ok (mkResponse 200%nat true "" (Some (appts, pagination)))
    /\ (forall ordered,
          Permutation ordered matching ->
          StronglySorted (fun a b => latest_first a b = true) ordered ->
          forall i a,
            nth_error ordered i = Some a ->
            (page - 1) * limit <= Z.of_nat i < page * limit ->
            nth_error appts (i - Z.to_nat ((page - 1) * limit)) = Some a)
    /\ pg_total pagination = length matching
    /\ pg_page pagination = page /\ pg_limit pagination = limit
    /\ ((pg_pages pagination - 1) * limit < Z.of_nat (length matching)
          <= pg_pages pagination * limit
        \/ (length matching = 0%nat /\ pg_pages pagination = 0)).
Proof.
  intros H Hd Hf Hp Hl Hties page limit matching.
  do 2 eexists.
  rewrite (getDoctorAppointments_run user q o w d f) by assumption. cbn [fst].
  split; [reflexivity|]. fold page limit matching.
  cbn [pg_total pg_page pg_limit pg_pages].
  split; [|split; [|split; [|split]]].
  - intros ordered Hperm Hsorted i a Hi Hrange.
    assert (Hsame : ordered = sort_by latest_first matching).
    { apply (sorted_permutation_unique (fun a b => latest_first a b = true)).
      - intros x y Hx Hy Hxy Hyx.
        apply (NoDup_map_injective
                 (fun a => (appointmentDate a, appointmentTime a)) matching);
          [exact Hties| | |apply latest_first_antisym; assumption].
        + apply (Permutation_in x Hperm). exact Hx.
        + apply (Permutation_in y Hperm). exact Hy.
      - rewrite Hperm. symmetry. apply sort_by_perm.
      - exact Hsorted.
      - apply sort_by_sorted; [exact latest_first_total|exact latest_first_trans]. }
    rewrite find_page_nth by (unfold page, limit in *; nia || lia).
    rewrite <- Hsame, <- Hi. f_equal. lia.
  - reflexivity.
  - reflexivity.
  - reflexivity.
  - destruct (ceil_div_pages (Z.of_nat (length matching)) limit ltac:(lia) Hl)
      as [Hc|[Hz Hc]].
    + left. exact Hc.
    + right. split; [lia|exact Hc].
Qed.

Lemma doctor_appointments_page_witness :
  let q := mkAppointmentQuery None None "scheduled" NoDate NoDate in
  let w := Sample.world [Sample.visit "scheduled"; Sample.late_visit;
                         Sample.visit "cancelled"] in
  exists appts pagination,
    run (getDoctorAppointments Sample.doctor_user q) no_fault w
    = (Ok (mkResponse 200%nat true "" (Some (appts, pagination))), w)
    /\ Z.of_nat (length appts) <= or_default (aq_limit q) 10
    /\ (forall a, In a appts ->
          In a (appointments (committed w))
          /\ ap_doctor a = dr_id Sample.doctor
          /\ (aq_status q = "" \/ status a = aq_status q)
          /\ (forall lo hi, aq_startDate q = ValidDate lo -> aq_endDate q = ValidDate hi ->
                lo <= appointmentDate a <= hi))
    /\ StronglySorted (fun a b => latest_first a b = true) appts.
Proof.
  intros q w.
  apply (doctor_appointments_page Sample.doctor_user q no_fault w Sample.doctor
           (fun a => Nat.eqb (ap_doctor a) 1 && (status a =? "scheduled")%string)).
  - intros n. reflexivity.
  - reflexivity.
  - reflexivity.
  - vm_compute. discriminate.
  - vm_compute. discriminate.
Defined.

Lemma doctor_appointments_paging_witness :
  let q := mkAppointmentQuery (Some 2) (Some 1) "" NoDate NoDate in
  let w := Sample.world
             [Sample.visit "scheduled"; Sample.late_visit;
              mkAppointment 102%nat 1%nat 5%nat (Sample.monday + msPerDay) "09:00"
                "cancelled" None 1719792000000] in
  let page := or_default (aq_page q) 1 in
  let limit := or_default (aq_limit q) 10 in
  let matching :=
    List.filter (fun a => Nat.eqb (ap_doctor a) 1 && true) (appointments (committed w)) in
  exists appts pagination,
    fst (run (getDoctorAppointments Sample.doctor_user q) no_fault w)
    = Ok (mkResponse 200%nat true "" (Some (appts, pagination)))
    /\ (forall ordered,
          Permutation ordered matching ->
          StronglySorted (fun a b => latest_first a b = true) ordered ->
          forall i a,
            nth_error ordered i = Some a ->
            (page - 1) * limit <= Z.of_nat i < page * limit ->
            nth_error appts (i - Z.to_nat ((page - 1) * limit)) = Some a)
    /\ pg_total pagination = length matching
    /\ pg_page pagination = page /\ pg_limit pagination = limit
    /\ ((pg_pages pagination - 1) * limit < Z.of_nat (length matching)
          <= pg_pages pagination * limit
        \/ (length matching = 0%nat /\ pg_pages pagination = 0)).
Proof.
  intros q w.
  apply (doctor_appointments_paging Sample.doctor_user q no_fault w Sample.doctor
           (fun a => Nat.eqb (ap_doctor a) 1 && true)).
  - intros n. reflexivity.
  - reflexivity.
  - reflexivity.
  - vm_compute. discriminate.
  - vm_compute. discriminate.
  - cbn. repeat (apply List.NoDup_cons; [cbn; intros Hin;
                   repeat (destruct Hin as [Hin|Hin]; [discriminate Hin|]);
                   exact Hin|]).
    apply List.NoDup_nil.
Defined.

(** ** The public listings: filterDoctorsBySpecialty, getDoctorById *)

(** X6. Whatever is asked and whichever calls fail, a listing by specialty
    only shows stored profiles that are verified and whose specialties match;
    it shows at most |limit| of them, best rated first, and writes nothing. *)
Theorem specialty_listing_verified_only regex_i specialty page_sent limit_sent o w :
  let r := run (filterDoctorsBySpecialty regex_i specialty page_sent limit_sent) o w in
  snd r = w
  /\ forall resp listed pagination,
       fst r = Ok resp -> res_data resp = Some (listed, pagination) ->
       (forall d, In d listed ->
          In d (doctors (committed w))
          /\ isVerified d = true
          /\ exists matches, regex_i specialty = Some matches
                             /\ specialty_matches matches (specialties d) = true)
       /\ Z.of_nat (length listed) <= Z.abs (or_default limit_sent 10)
       /\ StronglySorted (fun a b => best_rated_first a b = true) listed.
Proof.
  cbv zeta. unfold filterDoctorsBySpecialty. iox_unfold.
  destruct (specialty =? "")%string.
  { iox_unfold. split; [reflexivity|]. intros resp listed pagination Hr Hd.
    injection Hr as <-. discriminate Hd. }
  destruct (regex_i specialty) as [matches|] eqn:Hre.
  2: { iox_unfold. split; [reflexivity|]. intros resp listed pagination Hr Hd.
       injection Hr as <-. discriminate Hd. }
  unfold Doctor_find_page.
  destruct ((or_default page_sent 1 - 1) * or_default limit_sent 10 <? 0).
  { iox_unfold. split; [reflexivity|]. intros resp listed pagination Hr Hd.
    injection Hr as <-. discriminate Hd. }
  iox_db E0.
  { split; [reflexivity|]. intros resp listed pagination Hr Hd.
    injection Hr as <-. discriminate Hd. }
  iox_db E1.
  { split; [reflexivity|]. intros resp listed pagination Hr Hd.
    injection Hr as <-. discriminate Hd. }
  split; [reflexivity|]. intros resp listed pagination Hr Hd.
  injection Hr as <-. cbn [res_data] in Hd. injection Hd as <- <-.
  split; [|split].
  - intros d Hin. apply find_page_In in Hin. apply filter_In in Hin.
    destruct Hin as [Hin Hf]. apply andb_true_iff in Hf. destruct Hf as [Hm Hv].
    split; [exact Hin|]. split; [exact Hv|]. exists matches. split; [reflexivity|exact Hm].
  - pose proof (find_page_length best_rated_first
                  ((or_default page_sent 1 - 1) * or_default limit_sent 10)
                  (or_default limit_sent 10)
                  (List.filter
                     (fun d => specialty_matches matches (specialties d) && isVerified d)
                     (doctors (committed w)))). lia.
  - apply find_page_sorted; [exact best_rated_first_total|exact best_rated_first_trans].
Qed.

(** X7. Whichever calls fail, [getDoctorById] writes nothing, and a profile it
    returns is the stored profile of that id and is verified: an unverified
    profile is never shown. *)
Theorem public_profile_verified_only doctorId o w :
  let r := run (getDoctorById doctorId) o w in
  snd r = w
  /\ forall resp d,
       fst r = Ok resp -> res_data resp = Some d ->
       List.find (fun d => Nat.eqb (dr_id d) doctorId) (doctors (committed w)) = Some d
       /\ dr_id d = doctorId
       /\ isVerified d = true.
Proof.
  cbv zeta. unfold getDoctorById. iox_unfold.
  iox_db E0.
  { split; [reflexivity|]. intros resp d Hr Hd. injection Hr as <-. discriminate Hd. }
  destruct (List.find _ (doctors (committed w))) as [d0|] eqn:Hf; iox_unfold.
  2: { split; [reflexivity|]. intros resp d Hr Hd. injection Hr as <-. discriminate Hd. }
  destruct (isVerified d0) eqn:Hv; cbn [negb]; iox_unfold.
  - split; [reflexivity|]. intros resp d Hr Hd. injection Hr as <-.
    cbn [res_data] in Hd. injection Hd as <-.
    split; [reflexivity|]. split; [|exact Hv].
    apply find_some in Hf. destruct Hf as [_ Hid]. apply Nat.eqb_eq. exact Hid.
  - split; [reflexivity|]. intros resp d Hr Hd. injection Hr as <-. discriminate Hd.
Qed.

(** ** Verification: verifyDoctor, updateDoctor, createDoctor, getDoctorById *)

Lemma doctor_save_find id d d' ds :
  List.find (fun d0 => Nat.eqb (dr_id d0) id) ds = Some d ->
  dr_id d' = dr_id d ->
  List.find (fun d0 => Nat.eqb (dr_id d0) id)
    (map (fun d0 => if Nat.eqb (dr_id d0) (dr_id d') then d' else d0) ds)
  = Some d'.
Proof.
  intros Hf Hid. pose proof (find_some _ _ Hf) as [_ He]. apply Nat.eqb_eq in He.
  rewrite Hid, He. revert Hf.
  induction ds as [|d0 ds IH]; cbn [List.find map]; [discriminate|].
  destruct (Nat.eqb (dr_id d0) id) eqn:E.
  - intros _. rewrite Hid, He, Nat.eqb_refl. reflexivity.
  - intros Hf. rewrite E. apply IH; assumption.
Qed.

(** X8. [verifyDoctor] is all or nothing and for admins only.  A user who is
    not an admin gets 403 and nothing changes; whichever calls fail, a run
    that does not succeed changes nothing; a run that succeeds was asked by an
    admin and replaces the profile of that id by the same profile marked
    verified, with every document marked verified, the names and urls of the
    documents and everything else in the world as before. *)
Theorem verifyDoctor_effect doctorId user o w :
  let r := run (verifyDoctor doctorId user) o w in
  (au_role user <> "admin" ->
     r = (Ok (fail 403%nat "Not authorized to verify doctors"), w))
  /\ (succeeded (fst r) = false -> snd r = w)
  /\ (succeeded (fst r) = true ->
      au_role user = "admin"
      /\ exists d,
           List.find (fun d => Nat.eqb (dr_id d) doctorId) (doctors (committed w)) = Some d
           /\ let d' := with_documents d (map mark_verified (verificationDocuments d)) true in
              fst r = Ok (mkResponse 200%nat true "Doctor verified successfully" (Some d'))
              /\ List.find (fun d => Nat.eqb (dr_id d) doctorId)
                   (doctors (committed (snd r))) = Some d'
              /\ map vd_url (verificationDocuments d') = map vd_url (verificationDocuments d)
              /\ Forall (fun doc => vd_verified doc = true) (verificationDocuments d')
              /\ users (committed (snd r)) = users (committed w)
              /\ appointments (committed (snd r)) = appointments (committed w)
              /\ storage (snd r) = storage w).
Proof.
  cbv zeta. unfold verifyDoctor. iox_unfold.
  destruct (au_role user =? "admin")%string eqn:Er; cbn [negb]; iox_unfold.
  2: { repeat split; try discriminate. }
  apply String.eqb_eq in Er.
  split; [intros Hne; contradiction|].
  iox_db E0. { split; [reflexivity|discriminate]. }
  destruct (List.find _ (doctors (committed w))) as [d|] eqn:Hf; iox_unfold.
  2: { split; [reflexivity|discriminate]. }
  iox_db E1. { split; [reflexivity|discriminate]. }
  split; [discriminate|]. intros _. split; [exact Er|]. exists d.
  split; [reflexivity|]. split; [reflexivity|]. split; [|split; [|split; [|split]]].
  - cbn [Mongoose.set_doctors doctors committed].
    apply doctor_save_find with (d := d); [exact Hf|reflexivity].
  - cbn [with_documents verificationDocuments]. rewrite map_map. reflexivity.
  - cbn [with_documents verificationDocuments]. apply List.Forall_forall.
    intros doc Hin. apply in_map_iff in Hin. destruct Hin as (doc0 & <- & _). reflexivity.
  - reflexivity.
  - split; reflexivity.
Qed.

(** Uploads that do not fail: one document per file, unverified, in order. *)
Lemma upload_all_ok files : forall acc o t w,
  no_fs_fault o ->
  exists t' w',
    upload_all files acc o t w
    = (Ok (acc ++ map (fun f => mkVerificationDocument (originalname f) (file_url f) false)
                      files)%list, t', w')
    /\ db_calls t' = db_calls t
    /\ committed w' = committed w
    /\ pending w' = pending w
    /\ storage w' = (rev (map file_url files) ++ storage w)%list.
Proof.
  induction files as [|f files IH]; intros acc o t w H.
  - exists t, w. cbn [upload_all map rev app]. rewrite app_nil_r. repeat split; reflexivity.
  - cbn [upload_all]. rewrite bind_unfold. unfold uploadFile. rewrite await_fs_unfold, H.
    cbn [fst snd].
    match goal with
    | |- context [upload_all files ?a o ?t1 ?w1] =>
      destruct (IH a o t1 w1 H) as (t' & w' & Hrun & Ht & Hc & Hp & Hst)
    end.
    exists t', w'. rewrite Hrun. split; [|split; [|split; [|split]]].
    + cbn [map]. rewrite <- app_assoc. reflexivity.
    + exact Ht.
    + exact Hc.
    + exact Hp.
    + rewrite Hst. cbn [storage map rev]. rewrite <- app_assoc. reflexivity.
Qed.

Lemma createDoctor_run blank user body files o w user0 :
  no_db_fault o -> no_fs_fault o ->
  List.find (fun d => (registrationNumber d =? cb_registrationNumber body)%string)
    (doctors (committed w)) = None ->
  List.find (fun u => Nat.eqb (us_id u) (au_id user)) (users (committed w)) = Some user0 ->
  role user0 = "doctor" \/ role user0 = "admin" ->
  let nd := new_Doctor blank (au_id user) body (map document_of files) in
  exists w',
    run (createDoctor blank user body files) o w
    = (Ok (mkResponse 201%nat true
             "Doctor profile created successfully and pending verification" (Some nd)), w')
    /\ doctors (committed w') = (doctors (committed w) ++ [nd])%list
    /\ List.find (fun u => Nat.eqb (us_id u) (au_id user)) (users (committed w'))
       = Some (set_role user0 "doctor")
    /\ patients (committed w') = patients (committed w)
    /\ appointments (committed w') = appointments (committed w)
    /\ pending w' = None
    /\ storage w' = (rev (map file_url files) ++ storage w)%list.
Proof.
  intros H Hfs Hd Hu Hrole nd.
  unfold createDoctor. iox_unfold. iox_ok H. iox_ok H. rewrite Hd. iox_unfold.
  iox_ok H. rewrite Hu. iox_unfold.
  assert (Hr : negb (role user0 =? "doctor")%string && negb (role user0 =? "admin")%string
               = false).
  { destruct Hrole as [-> | ->]; reflexivity. }
  rewrite Hr. iox_unfold.
  match goal with
  | |- context [upload_all files ?a o ?t1 ?w1] =>
    destruct (upload_all_ok files a o t1 w1 Hfs) as (t' & w' & Hrun & Ht & Hc & Hpe & Hst)
  end.
  rewrite Hrun. cbn [pending committed storage app] in Hc, Hpe, Hst. fold document_of. fold nd.
  iox_ok H. rewrite Hpe. iox_unfold.
  destruct (role user0 =? "doctor")%string eqn:Er; cbn [negb]; iox_unfold.
  - iox_ok H. eexists. split; [reflexivity|].
    cbn [Mongoose.set_doctors doctors users patients appointments committed pending storage].
    repeat split; try assumption.
    rewrite Hu. f_equal. apply String.eqb_eq in Er. destruct user0 as [uid r]; unfold set_role; cbn [us_id role] in *; subst r; reflexivity.
  - iox_ok H. iox_ok H. eexists. split; [reflexivity|].
    cbn [Mongoose.set_doctors Mongoose.set_users doctors users patients appointments
         committed pending storage].
    repeat split; try assumption.
    apply find_after_role_write. exact Hu.
Qed.

Lemma find_app_fresh id (nd : Doctor) ds :
  (forall d, In d ds -> dr_id d <> id) -> dr_id nd = id ->
  List.find (fun d => Nat.eqb (dr_id d) id) (ds ++ [nd]) = Some nd.
Proof.
  intros Hfresh Hid. induction ds as [|d ds IH]; cbn [app List.find].
  - rewrite Hid, Nat.eqb_refl. reflexivity.
  - destruct (Nat.eqb (dr_id d) id) eqn:E.
    + apply Nat.eqb_eq in E. exfalso. apply (Hfresh d); [left; reflexivity|exact E].
    + apply IH. intros d' Hin. apply Hfresh. right. exact Hin.
Qed.

Lemma getDoctorById_run doctorId o w d :
  no_db_fault o ->
  List.find (fun d => Nat.eqb (dr_id d) doctorId) (doctors (committed w)) = Some d ->
  run (getDoctorById doctorId) o w
  = (Ok (if isVerified d then mkResponse 200%nat true "" (Some d)
         else fail 403%nat "This doctor profile is not available"), w).
Proof.
  intros H Hf. unfold getDoctorById. iox_unfold. iox_ok H. rewrite Hf. iox_unfold.
  destruct (isVerified d); reflexivity.
Qed.

Lemma verifyDoctor_run doctorId user o w d :
  no_db_fault o -> au_role user = "admin" ->
  List.find (fun d => Nat.eqb (dr_id d) doctorId) (doctors (committed w)) = Some d ->
  let d' := with_documents d (map mark_verified (verificationDocuments d)) true in
  exists w',
    run (verifyDoctor doctorId user) o w
    = (Ok (mkResponse 200%nat true "Doctor verified successfully" (Some d')), w')
    /\ List.find (fun d => Nat.eqb (dr_id d) doctorId) (doctors (committed w')) = Some d'.
Proof.
  intros H Hr Hf d'. unfold verifyDoctor. iox_unfold. rewrite Hr. cbn [String.eqb Ascii.eqb Bool.eqb negb].
  iox_unfold. iox_ok H. rewrite Hf. iox_unfold. iox_ok H.
  eexists. split; [reflexivity|].
  cbn [Mongoose.set_doctors doctors committed].
  apply doctor_save_find with (d := d); [exact Hf|reflexivity].
Qed.

(** X9. Creation, then verification.  With no failing call, a registration
    number that is not on file, a requester who is a doctor or an admin and a
    fresh [_id], [createDoctor] answers 201 with a profile that is not
    verified and holds one unverified document per uploaded file, in order;
    the requester's role is 'doctor' afterwards, also when it was 'admin'.
    The public [getDoctorById] answers 403 for the new profile until an admin
    runs [verifyDoctor], after which it answers 200 with the profile marked
    verified. *)
Theorem created_profile_hidden_until_verified blank user body files admin o w user0 :
  no_db_fault o -> no_fs_fault o ->
  List.find (fun d => (registrationNumber d =? cb_registrationNumber body)%string)
    (doctors (committed w)) = None ->
  List.find (fun u => Nat.eqb (us_id u) (au_id user)) (users (committed w)) = Some user0 ->
  role user0 = "doctor" \/ role user0 = "admin" ->
  (forall d, In d (doctors (committed w)) -> dr_id d <> dr_id blank) ->
  au_role admin = "admin" ->
  let nd := new_Doctor blank (au_id user) body (map document_of files) in
  let created := run (createDoctor blank user body files) o w in
  let verified := run (verifyDoctor (dr_id nd) admin) o (snd created) in
  fst created
  = Ok (mkResponse 201%nat true
          "Doctor profile created successfully and pending verification" (Some nd))
  /\ isVerified nd = false
  /\ dr_user nd = au_id user
  /\ map vd_url (verificationDocuments nd) = map file_url files
  /\ Forall (fun doc => vd_verified doc = false) (verificationDocuments nd)
  /\ (exists u,
        List.find (fun u => Nat.eqb (us_id u) (au_id user))
          (users (committed (snd created))) = Some u
        /\ role u = "doctor")
  /\ run (getDoctorById (dr_id nd)) o (snd created)
     = (Ok (fail 403%nat "This doctor profile is not available"), snd created)
  /\ run (getDoctorById (dr_id nd)) o (snd verified)
     = (Ok (mkResponse 200%nat true ""
              (Some (with_documents nd (map mark_verified (verificationDocuments nd)) true))),
        snd verified).
Proof.
  intros H Hfs Hd Hu Hrole Hfresh Ha nd created verified.
  destruct (createDoctor_run blank user body files o w user0 H Hfs Hd Hu Hrole)
    as (w1 & Hrun & Hds & Hus & _ & _ & _ & _).
  fold nd in Hrun, Hds.
  assert (Hfind : List.find (fun d => Nat.eqb (dr_id d) (dr_id nd)) (doctors (committed w1))
                  = Some nd).
  { rewrite Hds. apply find_app_fresh; [exact Hfresh|reflexivity]. }
  destruct (verifyDoctor_run (dr_id nd) admin o w1 nd H Ha Hfind) as (w2 & Hv & Hfind2).
  subst created verified. rewrite Hrun. cbn [fst snd]. rewrite Hv. cbn [fst snd].
  split; [reflexivity|]. split; [reflexivity|]. split; [reflexivity|].
  split; [cbn [nd new_Doctor verificationDocuments]; rewrite map_map; reflexivity|].
  split.
  { cbn [nd new_Doctor verificationDocuments]. apply List.Forall_forall.
    intros doc Hin. apply in_map_iff in Hin. destruct Hin as (f & <- & _). reflexivity. }
  split; [exists (set_role user0 "doctor"); split; [exact Hus|reflexivity]|].
  split.
  - rewrite (getDoctorById_run (dr_id nd) o w1 nd H Hfind). reflexivity.
  - rewrite (getDoctorById_run (dr_id nd) o w2 _ H Hfind2). reflexivity.
Qed.

Lemma created_profile_hidden_until_verified_witness :
  let blank := mkDoctor 2%nat 0%nat "" JUndefined (JArr []) (JArr []) JUndefined JUndefined
                 (JArr []) JUndefined (JArr []) JUndefined (JBool true) (JBool true)
                 [] [] false [] (Qmake 0 1) 0%nat in
  let body := mkCreateBody JUndefined (JArr [JStr "Cardiology"]) (JNum 3) "REG-2"
                JUndefined JUndefined JUndefined (JNum 300) JUndefined JUndefined in
  let files := [mkFile "degree.pdf" "files/degree.pdf"] in
  let w := Sample.world [] in
  let nd := new_Doctor blank (au_id Sample.admin_user) body (map document_of files) in
  let created := run (createDoctor blank Sample.admin_user body files) no_fault w in
  let verified := run (verifyDoctor (dr_id nd) Sample.admin_user) no_fault (snd created) in
  fst created
  = Ok (mkResponse 201%nat true
          "Doctor profile created successfully and pending verification" (Some nd))
  /\ isVerified nd = false
  /\ dr_user nd = au_id Sample.admin_user
  /\ map vd_url (verificationDocuments nd) = map file_url files
  /\ Forall (fun doc => vd_verified doc = false) (verificationDocuments nd)
  /\ (exists u,
        List.find (fun u => Nat.eqb (us_id u) (au_id Sample.admin_user))
          (users (committed (snd created))) = Some u
        /\ role u = "doctor")
  /\ run (getDoctorById (dr_id nd)) no_fault (snd created)
     = (Ok (fail 403%nat "This doctor profile is not available"), snd created)
  /\ run (getDoctorById (dr_id nd)) no_fault (snd verified)
     = (Ok (mkResponse 200%nat true ""
              (Some (with_documents nd (map mark_verified (verificationDocuments nd)) true))),
        snd verified).
Proof.
  intros blank body files w.
  apply (created_profile_hidden_until_verified blank Sample.admin_user body files
           Sample.admin_user no_fault w (mkUser 30%nat "admin")).
  - intros n. reflexivity.
  - intros n. reflexivity.
  - reflexivity.
  - reflexivity.
  - right. reflexivity.
  - intros d [<-|[]]. cbn. discriminate.
  - reflexivity.
Defined.

(** ** New documents suspend the verification *)

Lemma updateDoctor_run doctorId user body files o w d :
  no_db_fault o -> (files <> [] -> no_fs_fault o) ->
  List.find (fun d => Nat.eqb (dr_id d) doctorId) (doctors (committed w)) = Some d ->
  dr_user d = au_id user \/ au_role user = "admin" ->
  let d' := match files with
            | [] => updateDoctor_fields d body
            | _ => with_documents (updateDoctor_fields d body)
                     (verificationDocuments d ++ map document_of files)%list false
            end in
  exists w',
    run (updateDoctor doctorId user body files) o w
    = (Ok (mkResponse 200%nat true "Doctor profile updated successfully" (Some d')), w')
    /\ List.find (fun d => Nat.eqb (dr_id d) doctorId) (doctors (committed w')) = Some d'.
Proof.
  intros H Hfs Hf Hauth.
  unfold updateDoctor. iox_unfold. iox_ok H. rewrite Hf. iox_unfold.
  assert (Ha : negb (Nat.eqb (dr_user d) (au_id user))
               && negb (au_role user =? "admin")%string = false).
  { destruct Hauth as [-> | ->]; [rewrite Nat.eqb_refl; reflexivity|].
    apply andb_false_iff. right. reflexivity. }
  rewrite Ha. iox_unfold.
  destruct files as [|f files].
  - iox_unfold. iox_ok H. eexists. split; [reflexivity|].
    cbn [Mongoose.set_doctors doctors committed].
    apply doctor_save_find with (d := d); [exact Hf|reflexivity].
  - match goal with
    | |- context [upload_all ?fs ?a o ?t1 ?w1] =>
      destruct (upload_all_ok fs a o t1 w1 (Hfs ltac:(discriminate)))
        as (t' & w' & Hrun & Ht & Hc & Hpe & Hst)
    end.
    rewrite Hrun. iox_unfold. iox_ok H.
    eexists. split; [reflexivity|].
    cbn [Mongoose.set_doctors doctors]. rewrite Hc.
    apply doctor_save_find with (d := d); [exact Hf|reflexivity].
Qed.

(** X10. With no failing call, [updateDoctor] by the owner or an admin
    appends one unverified document per uploaded file to the stored ones,
    which keep their flags.  When at least one file is sent the profile is
    stored as not verified, so that the public [getDoctorById] answers 403
    for it from then on; with no file the verification is as it was. *)
Theorem new_documents_suspend_verification doctorId user body files o w d :
  no_db_fault o -> no_fs_fault o ->
  List.find (fun d => Nat.eqb (dr_id d) doctorId) (doctors (committed w)) = Some d ->
  dr_user d = au_id user \/ au_role user = "admin" ->
  let r := run (updateDoctor doctorId user body files) o w in
  exists d',
    fst r = Ok (mkResponse 200%nat true "Doctor profile updated successfully" (Some d'))
    /\ List.find (fun d => Nat.eqb (dr_id d) doctorId) (doctors (committed (snd r))) = Some d'
    /\ verificationDocuments d'
       = (verificationDocuments d ++ map document_of files)%list
    /\ isVerified d' = match files with [] => isVerified d | _ => false end
    /\ (files <> [] ->
        run (getDoctorById doctorId) o (snd r)
        = (Ok (fail 403%nat "This doctor profile is not available"), snd r)).
Proof.
  intros H Hfs Hf Hauth r. subst r.
  destruct (updateDoctor_run doctorId user body files o w d H (fun _ => Hfs) Hf Hauth)
    as (w' & Hrun & Hfind).
  rewrite Hrun. cbn [fst snd]. eexists. split; [reflexivity|]. split; [exact Hfind|].
  destruct files as [|f files].
  - split; [cbn [map]; rewrite app_nil_r; reflexivity|]. split; [reflexivity|].
    intros Hne. contradiction.
  - split; [reflexivity|]. split; [reflexivity|]. intros _.
    rewrite (getDoctorById_run doctorId o w' _ H Hfind). reflexivity.
Qed.

Lemma new_documents_suspend_verification_witness :
  let body := mkUpdateBody JUndefined JUndefined JUndefined JUndefined JUndefined
                JUndefined JUndefined JUndefined None JUndefined JUndefined in
  let files := [mkFile "degree.pdf" "files/degree.pdf"] in
  let r := run (updateDoctor 1%nat Sample.doctor_user body files) no_fault (Sample.world []) in
  exists d',
    fst r = Ok (mkResponse 200%nat true "Doctor profile updated successfully" (Some d'))
    /\ List.find (fun d => Nat.eqb (dr_id d) 1%nat) (doctors (committed (snd r))) = Some d'
    /\ verificationDocuments d'
       = (verificationDocuments Sample.doctor ++ map document_of files)%list
    /\ isVerified d' = match files with [] => isVerified Sample.doctor | _ => false end
    /\ (files <> [] ->
        run (getDoctorById 1%nat) no_fault (snd r)
        = (Ok (fail 403%nat "This doctor profile is not available"), snd r)).
Proof.
  intros body files.
  apply (new_documents_suspend_verification 1%nat Sample.doctor_user body files no_fault
           (Sample.world []) Sample.doctor).
  - intros n. reflexivity.
  - intros n. reflexivity.
  - reflexivity.
  - left. reflexivity.
Defined.

(** ** What an update writes (C10) *)

Lemma doctor_save_replaces d d' ds :
  In d ds -> dr_id d' = dr_id d ->
  List.find (fun d0 => Nat.eqb (dr_id d0) (dr_id d))
    (map (fun d0 => if Nat.eqb (dr_id d0) (dr_id d') then d' else d0) ds)
  = Some d'.
Proof.
  intros Hin Hid. rewrite Hid.
  induction ds as [|a ds IH]; [destruct Hin|]. cbn [map List.find].
  destruct (Nat.eqb (dr_id a) (dr_id d)) eqn:E.
  - rewrite Hid, Nat.eqb_refl. reflexivity.
  - rewrite E. apply IH. destruct Hin as [->|Hin]; [|exact Hin].
    rewrite Nat.eqb_refl in E. discriminate.
Qed.

Lemma updateDoctorProfile_run user body o w d :
  no_db_fault o ->
  List.find (fun d => Nat.eqb (dr_user d) (au_id user)) (doctors (committed w)) = Some d ->
  exists w',
    run (updateDoctorProfile user body) o w
    = (Ok (mkResponse 200%nat true "Doctor profile updated successfully"
             (Some (updateDoctorProfile_fields d body))), w')
    /\ List.find (fun d0 => Nat.eqb (dr_id d0) (dr_id d)) (doctors (committed w'))
       = Some (updateDoctorProfile_fields d body).
Proof.
  intros H Hf. unfold updateDoctorProfile. iox_unfold. iox_ok H. rewrite Hf. iox_unfold.
  iox_ok H. eexists. split; [reflexivity|].
  cbn [Mongoose.set_doctors doctors committed].
  apply (doctor_save_replaces d (updateDoctorProfile_fields d body));
    [apply (find_some _ _ Hf)|reflexivity].
Qed.

(** C10. A request that is served writes each updatable field by the rule:
    with no failing call, a profile on file and (for [updateDoctor]) the owner
    or an admin asking, the answer is 200 and the profile then stored under
    the [_id] has, for each updatable field, the value sent when it is truthy
    and the value stored before when it is falsy (0, the empty string, null
    and an absent key are falsy); videoConsultation and acceptingNewPatients
    have the value sent unless it is undefined, a falsy one included;
    availability is written by [updateDoctor] alone, when it is sent.
    Whichever calls fail, every profile stored afterwards is one that was
    stored before or the target written by this rule, so a stored fee of 0 or
    an empty bio was already stored before the request.  The value written is
    the value of the request itself: the handlers assign it as sent, and a
    cast by the schema, which is not part of the controller, is not
    modelled. *)
Theorem update_writes_only_truthy o w :
  (forall doctorId user body files,
     let r := run (updateDoctor doctorId user body files) o w in
     let after := doctors (committed (snd r)) in
     stored_after_update (ub_availability body) body (doctors (committed w)) after
     /\ (forall new, In new after -> consultationFee new = JNum 0 ->
           exists old, In old (doctors (committed w)) /\ consultationFee old = JNum 0)
     /\ (forall new, In new after -> bio new = JStr "" ->
           exists old, In old (doctors (committed w)) /\ bio old = JStr "")
     /\ (forall old,
           no_db_fault o -> (files <> [] -> no_fs_fault o) ->
           List.find (fun d => Nat.eqb (dr_id d) doctorId) (doctors (committed w))
           = Some old ->
           dr_user old = au_id user \/ au_role user = "admin" ->
           exists new,
             fst r = Ok (mkResponse 200%nat true "Doctor profile updated successfully"
                           (Some new))
             /\ List.find (fun d => Nat.eqb (dr_id d) doctorId) after = Some new
             /\ update_rule (ub_availability body) body old new))
  /\ (forall user body,
        let r := run (updateDoctorProfile user body) o w in
        let after := doctors (committed (snd r)) in
        stored_after_update None body (doctors (committed w)) after
        /\ (forall new, In new after -> consultationFee new = JNum 0 ->
              exists old, In old (doctors (committed w)) /\ consultationFee old = JNum 0)
        /\ (forall new, In new after -> bio new = JStr "" ->
              exists old, In old (doctors (committed w)) /\ bio old = JStr "")
        /\ (forall old,
              no_db_fault o ->
              List.find (fun d => Nat.eqb (dr_user d) (au_id user)) (doctors (committed w))
              = Some old ->
              exists new,
                fst r = Ok (mkResponse 200%nat true "Doctor profile updated successfully"
                              (Some new))
                /\ List.find (fun d => Nat.eqb (dr_id d) (dr_id old)) after = Some new
                /\ update_rule None body old new))
  /\ truthy (JNum 0) = false /\ truthy (JStr "") = false
  /\ truthy JNull = false /\ truthy JUndefined = false.
Proof.
  split; [|split; [|repeat split]].
  - intros doctorId user body files r after.
    pose proof (updateDoctor_stored doctorId user body files o w) as H.
    fold r in H. fold after in H.
    split; [exact H|]. split; [|split].
    + intros new Hin Hz.
      destruct (stored_after_update_fee _ _ _ _ H new Hin) as (old & Ho & He).
      { rewrite Hz. reflexivity. }
      exists old. split; congruence.
    + intros new Hin Hz.
      destruct (stored_after_update_bio _ _ _ _ H new Hin) as (old & Ho & He).
      { rewrite Hz. reflexivity. }
      exists old. split; congruence.
    + intros old Hdb Hfs Hold Hauth.
      destruct (updateDoctor_run doctorId user body files o w old Hdb Hfs Hold Hauth)
        as (w' & Hrun & Hfind).
      unfold after, r. rewrite Hrun. cbn [fst snd].
      eexists. split; [reflexivity|]. split; [exact Hfind|].
      destruct files; [|apply with_documents_rule]; apply updateDoctor_fields_rule.
  - intros user body r after.
    pose proof (updateDoctorProfile_stored user body o w) as H.
    fold r in H. fold after in H.
    split; [exact H|]. split; [|split].
    + intros new Hin Hz.
      destruct (stored_after_update_fee _ _ _ _ H new Hin) as (old & Ho & He).
      { rewrite Hz. reflexivity. }
      exists old. split; congruence.
    + intros new Hin Hz.
      destruct (stored_after_update_bio _ _ _ _ H new Hin) as (old & Ho & He).
      { rewrite Hz. reflexivity. }
      exists old. split; congruence.
    + intros old Hdb Hold.
      destruct (updateDoctorProfile_run user body o w old Hdb Hold) as (w' & Hrun & Hfind).
      unfold after, r. rewrite Hrun. cbn [fst snd].
      eexists. split; [reflexivity|]. split; [exact Hfind|].
      apply updateDoctorProfile_fields_rule.
Qed.

(** A fee of 0 is sent with a new bio and [videoConsultation: false]: the
    request is served, the fee stays, the bio and the flag are written. *)
Lemma update_writes_only_truthy_witness :
  let body := mkUpdateBody JUndefined JUndefined JUndefined JUndefined JUndefined
                (JNum 0) JUndefined (JStr "Heart surgeon") None (JBool false) JUndefined in
  let r := run (updateDoctorProfile Sample.doctor_user body) no_fault (Sample.world []) in
  exists new,
    fst r = Ok (mkResponse 200%nat true "Doctor profile updated successfully" (Some new))
    /\ List.find (fun d => Nat.eqb (dr_id d) (dr_id Sample.doctor))
         (doctors (committed (snd r))) = Some new
    /\ update_rule None body Sample.doctor new.
Proof.
  intros body.
  apply (proj2 (proj2 (proj2
           (proj1 (proj2 (update_writes_only_truthy no_fault (Sample.world [])))
              Sample.doctor_user body))) Sample.doctor).
  - intros n. reflexivity.
  - reflexivity.
Defined.

(** ** What a rolled-back transaction leaves in the file store *)

Ltac store_close Hc Hst :=
  cbn [committed pending storage fileLog Mongoose.set_doctors Mongoose.set_users
       Mongoose.set_appointments];
  first [ discriminate
        | intros _; split; [first [exact Hc | reflexivity]|exact Hst] ].

(** X11. Uploads are not undone.  When every upload succeeds and a database
    call after the uploads fails (the insert, the role write, the commit),
    [createDoctor] does not succeed and the committed database is as before,
    but every uploaded file is in the file store: no profile refers to it. *)
Theorem createDoctor_uploads_outlive_rollback blank user body files o w user0 :
  no_fs_fault o ->
  (forall n, (n < 3)%nat -> db_fault o n = false) ->
  List.find (fun d => (registrationNumber d =? cb_registrationNumber body)%string)
    (doctors (committed w)) = None ->
  List.find (fun u => Nat.eqb (us_id u) (au_id user)) (users (committed w)) = Some user0 ->
  role user0 = "doctor" \/ role user0 = "admin" ->
  let r := run (createDoctor blank user body files) o w in
  succeeded (fst r) = false ->
  committed (snd r) = committed w
  /\ storage (snd r) = (rev (map file_url files) ++ storage w)%list.
Proof.
  intros Hfs H Hd Hu Hrole r. subst r.
  unfold createDoctor. iox_unfold.
  iox_db E0. { rewrite H in E0 by lia. discriminate. }
  iox_db E1. { rewrite H in E1 by lia. discriminate. }
  rewrite Hd. iox_unfold.
  iox_db E2. { rewrite H in E2 by lia. discriminate. }
  rewrite Hu. iox_unfold.
  assert (Hr : negb (role user0 =? "doctor")%string && negb (role user0 =? "admin")%string
               = false).
  { destruct Hrole as [-> | ->]; reflexivity. }
  rewrite Hr. iox_unfold.
  match goal with
  | |- context [upload_all files ?a o ?t1 ?w1] =>
    destruct (upload_all_ok files a o t1 w1 Hfs) as (t' & w' & Hrun & Ht & Hc & Hpe & Hst)
  end.
  rewrite Hrun. cbn [pending committed storage app db_calls] in Ht, Hc, Hpe, Hst.
  iox_db E3. { iox_db Ea; store_close Hc Hst. }
  rewrite Hpe. iox_unfold.
  destruct (role user0 =? "doctor")%string eqn:Er; cbn [negb]; iox_unfold.
  - iox_db E4. { iox_db Ea; store_close Hc Hst. }
    store_close Hc Hst.
  - iox_db E4. { iox_db Ea; store_close Hc Hst. }
    iox_db E5. { iox_db Ea; store_close Hc Hst. }
    store_close Hc Hst.
Qed.

Lemma createDoctor_uploads_outlive_rollback_witness :
  let blank := mkDoctor 2%nat 0%nat "" JUndefined (JArr []) (JArr []) JUndefined JUndefined
                 (JArr []) JUndefined (JArr []) JUndefined (JBool true) (JBool true)
                 [] [] false [] (Qmake 0 1) 0%nat in
  let body := mkCreateBody JUndefined (JArr [JStr "Cardiology"]) (JNum 3) "REG-2"
                JUndefined JUndefined JUndefined (JNum 300) JUndefined JUndefined in
  let files := [mkFile "degree.pdf" "files/degree.pdf"] in
  let o := mkOracle (fun n => Nat.eqb n 3) (fun _ => false) in
  let r := run (createDoctor blank Sample.admin_user body files) o (Sample.world []) in
  committed (snd r) = committed (Sample.world [])
  /\ storage (snd r) = (rev (map file_url files) ++ storage (Sample.world []))%list.
Proof.
  intros blank body files o.
  apply (createDoctor_uploads_outlive_rollback blank Sample.admin_user body files o
           (Sample.world []) (mkUser 30%nat "admin")).
  - intros n. reflexivity.
  - intros n Hn. destruct n as [|[|[|n]]]; try reflexivity. lia.
  - reflexivity.
  - reflexivity.
  - right. reflexivity.
  - reflexivity.
Defined.

Lemma delete_files_storage docs : forall o t w,
  no_fs_fault o ->
  exists t' w',
    for_of docs delete_document_file o t w = (Ok tt, t', w')
    /\ db_calls t' = db_calls t
    /\ committed w' = committed w
    /\ pending w' = pending w
    /\ (forall u, In u (storage w') -> In u (storage w))
    /\ (forall doc, In doc docs -> vd_url doc <> "" -> ~ In (vd_url doc) (storage w')).
Proof.
  induction docs as [|doc docs IH]; intros o t w Hfs.
  - exists t, w. cbn [for_of]. unfold ret. repeat split; auto.
  - cbn [for_of]. rewrite bind_unfold. unfold delete_document_file at 1.
    destruct (vd_url doc =? "")%string eqn:Eu; cbn [negb].
    + unfold ret at 1. cbn [fst snd].
      destruct (IH o t w Hfs) as (t' & w' & Hrun & Ht & Hc & Hp & Hsub & Hgone).
      exists t', w'. rewrite Hrun. repeat split; auto.
      intros doc' [<-|Hin] Hne; [|auto].
      apply String.eqb_eq in Eu. contradiction.
    + unfold try_catch, deleteFile. rewrite await_fs_unfold, Hfs. cbn [fst snd].
      match goal with
      | |- context [for_of docs _ o ?t1 ?w1] =>
        destruct (IH o t1 w1 Hfs) as (t' & w' & Hrun & Ht & Hc & Hp & Hsub & Hgone)
      end.
      exists t', w'. rewrite Hrun.
      cbn [committed pending storage fileLog log_file db_calls] in Ht, Hc, Hp, Hsub.
      split; [reflexivity|]. split; [exact Ht|]. split; [exact Hc|]. split; [exact Hp|].
      split.
      * intros u Hin. apply Hsub in Hin. apply filter_In in Hin. tauto.
      * intros doc' [<-|Hin] Hne; [|auto].
        intros Hin. apply Hsub in Hin. apply filter_In in Hin. destruct Hin as [_ Hn].
        rewrite String.eqb_refl in Hn. discriminate.
Qed.

Ltac files_close Hc Hgone :=
  cbn [committed pending storage fileLog Mongoose.set_doctors Mongoose.set_users
       Mongoose.set_appointments];
  first [ discriminate
        | intros _; split; [first [exact Hc | reflexivity]|exact Hgone] ].

(** X12. Deleted files are not restored.  [deleteDoctor] deletes the files of
    the verification documents before its database writes.  When every file
    deletion succeeds and a later database call fails (the bulk update, the
    profile delete, the role write, the commit), the handler does not succeed
    and the committed database is as before: the profile is still stored, but
    none of the files of its documents is in the file store any more. *)
Theorem deleteDoctor_files_not_restored now user o w d :
  no_fs_fault o ->
  (forall n, (n < 3)%nat -> db_fault o n = false) ->
  List.find (fun d => Nat.eqb (dr_user d) (au_id user)) (doctors (committed w)) = Some d ->
  (forall a, In a (appointments (committed w)) -> is_active (dr_id d) now a = false) ->
  let r := run (deleteDoctor now user) o w in
  succeeded (fst r) = false ->
  committed (snd r) = committed w
  /\ (forall doc, In doc (verificationDocuments d) -> vd_url doc <> "" ->
        ~ In (vd_url doc) (storage (snd r))).
Proof.
  intros Hfs H Hd Hact r. subst r.
  pose proof (filter_count_zero _ _ Hact) as Hc0.
  unfold deleteDoctor. iox_unfold.
  iox_db E0. { rewrite H in E0 by lia. discriminate. }
  iox_db E1. { rewrite H in E1 by lia. discriminate. }
  rewrite Hd. iox_unfold.
  iox_db E2. { rewrite H in E2 by lia. discriminate. }
  rewrite Hc0. cbn [Nat.ltb Nat.leb]. iox_unfold.
  match goal with
  | |- context [for_of ?docs delete_document_file o ?t1 ?w1] =>
    destruct (delete_files_storage docs o t1 w1 Hfs)
      as (t' & w' & Hrun & Ht & Hc & Hpe & _ & Hgone)
  end.
  rewrite Hrun. cbn [pending committed storage db_calls] in Ht, Hc, Hpe.
  iox_db E3. { iox_db Ea; files_close Hc Hgone. }
  rewrite Hpe. iox_unfold.
  iox_db E4. { iox_db Ea; files_close Hc Hgone. }
  iox_db E5. { iox_db Ea; files_close Hc Hgone. }
  rewrite Hc.
  destruct (List.find (fun u => Nat.eqb (us_id u) (au_id user)) (users (committed w)))
    as [user0|]; iox_unfold.
  - iox_db E6. { iox_db Ea; files_close Hc Hgone. }
    iox_db E7. { iox_db Ea; files_close Hc Hgone. }
    files_close Hc Hgone.
  - iox_db E6. { iox_db Ea; files_close Hc Hgone. }
    files_close Hc Hgone.
Qed.

Lemma deleteDoctor_files_not_restored_witness :
  let o := mkOracle (fun n => Nat.eqb n 7) (fun _ => false) in
  let r := run (deleteDoctor 1721001600000 Sample.doctor_user) o (Sample.world []) in
  committed (snd r) = committed (Sample.world [])
  /\ (forall doc, In doc (verificationDocuments Sample.doctor) -> vd_url doc <> "" ->
        ~ In (vd_url doc) (storage (snd r))).
Proof.
  intros o.
  apply (deleteDoctor_files_not_restored 1721001600000 Sample.doctor_user o
           (Sample.world []) Sample.doctor).
  - intros n. reflexivity.
  - intros n Hn. destruct n as [|[|[|n]]]; try reflexivity. lia.
  - reflexivity.
  - intros a [].
  - reflexivity.
Defined.

(** ** A second profile for the same user *)

Lemma find_app_first {A} (p : A -> bool) l l' x :
  List.find p l = Some x -> List.find p (l ++ l') = Some x.
Proof.
  induction l as [|y l IH]; cbn [List.find app]; [discriminate|].
  destruct (p y); [trivial|exact IH].
Qed.

Lemma getDoctorProfile_run user o w d :
  no_db_fault o ->
  List.find (fun d => Nat.eqb (dr_user d) (au_id user)) (doctors (committed w)) = Some d ->
  run (getDoctorProfile user) o w = (Ok (mkResponse 200%nat true "" (Some d)), w).
Proof.
  intros H Hf. unfold getDoctorProfile. iox_unfold. iox_ok H. rewrite Hf. reflexivity.
Qed.

(** X13. [createDoctor] checks the registration number only: a user who has
    a profile already gets a second one under a new registration number (the
    controller itself keeps no profile unique per user).  With no failing
    call the answer is 201 and both profiles are stored for the same user;
    the handlers that look a profile up by its user, such as
    [getDoctorProfile], go on answering with the older one. *)
Theorem createDoctor_second_profile blank user body files o w user0 d0 :
  no_db_fault o -> no_fs_fault o ->
  List.find (fun d => (registrationNumber d =? cb_registrationNumber body)%string)
    (doctors (committed w)) = None ->
  List.find (fun u => Nat.eqb (us_id u) (au_id user)) (users (committed w)) = Some user0 ->
  role user0 = "doctor" \/ role user0 = "admin" ->
  List.find (fun d => Nat.eqb (dr_user d) (au_id user)) (doctors (committed w)) = Some d0 ->
  let r := run (createDoctor blank user body files) o w in
  exists nd,
    fst r = Ok (mkResponse 201%nat true
                  "Doctor profile created successfully and pending verification" (Some nd))
    /\ doctors (committed (snd r)) = (doctors (committed w) ++ [nd])%list
    /\ In d0 (doctors (committed (snd r)))
    /\ dr_user nd = dr_user d0
    /\ registrationNumber nd <> registrationNumber d0
    /\ run (getDoctorProfile user) o (snd r)
       = (Ok (mkResponse 200%nat true "" (Some d0)), snd r).
Proof.
  intros H Hfs Hd Hu Hrole Hown r. subst r.
  destruct (createDoctor_run blank user body files o w user0 H Hfs Hd Hu Hrole)
    as (w1 & Hrun & Hds & _).
  rewrite Hrun. cbn [fst snd]. eexists. split; [reflexivity|]. split; [exact Hds|].
  pose proof (find_some _ _ Hown) as [Hin Hid]. apply Nat.eqb_eq in Hid.
  split; [rewrite Hds; apply in_or_app; left; exact Hin|].
  split; [cbn [new_Doctor dr_user]; symmetry; exact Hid|].
  split.
  - cbn [new_Doctor registrationNumber]. intros Heq.
    pose proof (find_none _ _ Hd d0 Hin) as Hn. cbn beta in Hn.
    rewrite Heq, String.eqb_refl in Hn. discriminate.
  - apply getDoctorProfile_run; [exact H|]. rewrite Hds. apply find_app_first. exact Hown.
Qed.

Lemma createDoctor_second_profile_witness :
  let blank := mkDoctor 2%nat 0%nat "" JUndefined (JArr []) (JArr []) JUndefined JUndefined
                 (JArr []) JUndefined (JArr []) JUndefined (JBool true) (JBool true)
                 [] [] false [] (Qmake 0 1) 0%nat in
  let body := mkCreateBody JUndefined (JArr [JStr "Cardiology"]) (JNum 3) "REG-2"
                JUndefined JUndefined JUndefined (JNum 300) JUndefined JUndefined in
  let r := run (createDoctor blank Sample.doctor_user body []) no_fault (Sample.world []) in
  exists nd,
    fst r = Ok (mkResponse 201%nat true
                  "Doctor profile created successfully and pending verification" (Some nd))
    /\ doctors (committed (snd r)) = (doctors (committed (Sample.world [])) ++ [nd])%list
    /\ In Sample.doctor (doctors (committed (snd r)))
    /\ dr_user nd = dr_user Sample.doctor
    /\ registrationNumber nd <> registrationNumber Sample.doctor
    /\ run (getDoctorProfile Sample.doctor_user) no_fault (snd r)
       = (Ok (mkResponse 200%nat true "" (Some Sample.doctor)), snd r).
Proof.
  intros blank body.
  apply (createDoctor_second_profile blank Sample.doctor_user body [] no_fault
           (Sample.world []) (mkUser 10%nat "doctor") Sample.doctor).
  - intros n. reflexivity.
  - intros n. reflexivity.
  - reflexivity.
  - reflexivity.
  - left. reflexivity.
  - reflexivity.
Defined.

(** ** The weekly schedule *)

Lemma updateDoctorAvailability_run doctorId user week o w d :
  no_db_fault o ->
  List.find (fun d => Nat.eqb (dr_id d) doctorId) (doctors (committed w)) = Some d ->
  dr_user d = au_id user ->
  exists w',
    run (updateDoctorAvailability doctorId user (Some week)) o w
    = (Ok (mkResponse 200%nat true "Availability updated successfully" (Some week)), w')
    /\ List.find (fun d => Nat.eqb (dr_id d) doctorId) (doctors (committed w'))
       = Some (with_availability d week)
    /\ users (committed w') = users (committed w)
    /\ appointments (committed w') = appointments (committed w).
Proof.
  intros H Hf Hown. unfold updateDoctorAvailability. iox_unfold. iox_ok H.
  rewrite Hf. iox_unfold. rewrite Hown, Nat.eqb_refl. cbn [negb]. iox_unfold. iox_ok H.
  eexists. split; [reflexivity|].
  cbn [Mongoose.set_doctors doctors users appointments committed].
  split; [|split; reflexivity].
  apply doctor_save_find with (d := d); [exact Hf|reflexivity].
Qed.

(** X14. The schedule round trip.  With no failing database call, the week
    the owner stores with [updateDoctorAvailability] is the week
    [getDoctorAvailability] returns for that doctor when no date is asked;
    the stored profile differs from the old one in its availability only, and
    users and appointments are untouched. *)
Theorem availability_round_trip tza doctorId user week o w d :
  no_db_fault o ->
  List.find (fun d => Nat.eqb (dr_id d) doctorId) (doctors (committed w)) = Some d ->
  dr_user d = au_id user ->
  let r := run (updateDoctorAvailability doctorId user (Some week)) o w in
  fst r = Ok (mkResponse 200%nat true "Availability updated successfully" (Some week))
  /\ run (getDoctorAvailability tza doctorId NoDate) o (snd r)
     = (Ok (mkResponse 200%nat true "" (Some (Schedule week))), snd r)
  /\ List.find (fun d => Nat.eqb (dr_id d) doctorId) (doctors (committed (snd r)))
     = Some (with_availability d week)
  /\ users (committed (snd r)) = users (committed w)
  /\ appointments (committed (snd r)) = appointments (committed w).
Proof.
  intros H Hf Hown r. subst r.
  destruct (updateDoctorAvailability_run doctorId user week o w d H Hf Hown)
    as (w' & Hrun & Hfind & Hus & Hap).
  rewrite Hrun. cbn [fst snd]. split; [reflexivity|].
  split; [|split; [exact Hfind|split; assumption]].
  unfold getDoctorAvailability. iox_unfold. iox_ok H. rewrite Hfind. reflexivity.
Qed.

Lemma availability_round_trip_witness :
  let week := [mkDayAvailability "Friday" true [mkSlot "09:00" "09:30"]] in
  let r := run (updateDoctorAvailability 1%nat Sample.doctor_user (Some week)) no_fault
             (Sample.world []) in
  fst r = Ok (mkResponse 200%nat true "Availability updated successfully" (Some week))
  /\ run (getDoctorAvailability 0 1%nat NoDate) no_fault (snd r)
     = (Ok (mkResponse 200%nat true "" (Some (Schedule week))), snd r)
  /\ List.find (fun d => Nat.eqb (dr_id d) 1%nat) (doctors (committed (snd r)))
     = Some (with_availability Sample.doctor week)
  /\ users (committed (snd r)) = users (committed (Sample.world []))
  /\ appointments (committed (snd r)) = appointments (committed (Sample.world [])).
Proof.
  intros week.
  apply (availability_round_trip 0 1%nat Sample.doctor_user week no_fault
           (Sample.world []) Sample.doctor).
  - intros n. reflexivity.
  - reflexivity.
  - reflexivity.
Defined.

(** X15. The two routes to the schedule agree.  For a user whose profile is
    the one stored under its [_id], [updateAvailability] does what
    [updateDoctorAvailability] does on that [_id]: the same answer and the
    same world, whatever is sent and whichever calls fail. *)
Theorem availability_routes_agree user sent o w d :
  List.find (fun d => Nat.eqb (dr_user d) (au_id user)) (doctors (committed w)) = Some d ->
  List.find (fun d0 => Nat.eqb (dr_id d0) (dr_id d)) (doctors (committed w)) = Some d ->
  run (updateAvailability user sent) o w
  = run (updateDoctorAvailability (dr_id d) user sent) o w.
Proof.
  intros Hu Hi. pose proof (find_some _ _ Hu) as [_ Hown]. apply Nat.eqb_eq in Hown.
  unfold updateAvailability, updateDoctorAvailability. iox_unfold.
  rewrite !await_db_unfold. iox_unfold.
  destruct (db_fault o 0); iox_unfold; [reflexivity|].
  rewrite Hu, Hi. iox_unfold.
  rewrite Hown, Nat.eqb_refl. cbn [negb]. reflexivity.
Qed.

Lemma availability_routes_agree_witness :
  run (updateAvailability Sample.doctor_user None) no_fault (Sample.world [])
  = run (updateDoctorAvailability (dr_id Sample.doctor) Sample.doctor_user None) no_fault
      (Sample.world []).
Proof.
  apply (availability_routes_agree Sample.doctor_user None no_fault (Sample.world [])
           Sample.doctor).
  - reflexivity.
  - reflexivity.
Defined.

(** X16. An admin and the schedule.  [updateDoctorAvailability] is for the
    owner alone: asked by anyone else, an admin included, it changes nothing
    and does not succeed, whichever calls fail.  [updateDoctor] takes the same
    week from an admin and stores it. *)
Theorem availability_admin_route doctorId admin week body o w d :
  no_db_fault o ->
  List.find (fun d => Nat.eqb (dr_id d) doctorId) (doctors (committed w)) = Some d ->
  dr_user d <> au_id admin ->
  au_role admin = "admin" ->
  ub_availability body = Some week ->
  (forall o' sent,
     let r := run (updateDoctorAvailability doctorId admin sent) o' w in
     succeeded (fst r) = false /\ snd r = w
     /\ (no_db_fault o' ->
         fst r = Ok (fail 403%nat "Not authorized to update availability")))
  /\ let r := run (updateDoctor doctorId admin body []) o w in
     succeeded (fst r) = true
     /\ exists d',
          List.find (fun d => Nat.eqb (dr_id d) doctorId) (doctors (committed (snd r)))
          = Some d'
          /\ availability d' = week.
Proof.
  intros H Hf Hown Hadmin Hweek. split.
  - intros o' sent r. subst r.
    unfold updateDoctorAvailability. iox_unfold.
    iox_db E0.
    { split; [reflexivity|]. split; [reflexivity|]. intros H'. rewrite H' in E0.
      discriminate. }
    rewrite Hf. iox_unfold.
    apply Nat.eqb_neq in Hown. rewrite Hown. cbn [negb]. iox_unfold.
    repeat split.
  - cbv zeta.
    destruct (updateDoctor_run doctorId admin body [] o w d H
                (fun Hne => False_ind _ (Hne eq_refl)) Hf (or_intror Hadmin))
      as (w' & Hrun & Hfind).
    rewrite Hrun. cbn [fst snd succeeded res_success]. split; [reflexivity|].
    eexists. split; [exact Hfind|].
    cbn [updateDoctor_fields availability]. rewrite Hweek. reflexivity.
Qed.

Lemma availability_admin_route_witness :
  let week := [mkDayAvailability "Friday" true [mkSlot "09:00" "09:30"]] in
  let body := mkUpdateBody JUndefined JUndefined JUndefined JUndefined JUndefined
                JUndefined JUndefined JUndefined (Some week) JUndefined JUndefined in
  let w := Sample.world [] in
  (forall o' sent,
     let r := run (updateDoctorAvailability 1%nat Sample.admin_user sent) o' w in
     succeeded (fst r) = false /\ snd r = w
     /\ (no_db_fault o' ->
         fst r = Ok (fail 403%nat "Not authorized to update availability")))
  /\ let r := run (updateDoctor 1%nat Sample.admin_user body []) no_fault w in
     succeeded (fst r) = true
     /\ exists d',
          List.find (fun d => Nat.eqb (dr_id d) 1%nat) (doctors (committed (snd r)))
          = Some d'
          /\ availability d' = week.
Proof.
  intros week body w.
  apply (availability_admin_route 1%nat Sample.admin_user week body no_fault w
           Sample.doctor).
  - intros n. reflexivity.
  - reflexivity.
  - cbn. discriminate.
  - reflexivity.
  - reflexivity.
Defined.

(** ** The dashboard *)

Lemma setHours_ms_midnight tza t :
  setHours_ms tza t 0 0 0 0 = t - (t + tza) mod msPerDay.
Proof.
  unfold setHours_ms, UTC, MakeDate, MakeTime, Day, LocalTime, msPerDay.
  Z.div_mod_to_equations. lia.
Qed.

(** [d.setDate(d.getDate() + k)] moves a date by [k] days. *)
Lemma setDate_days tza t k : setDate tza t (getDate tza t + k) = t + k * msPerDay.
Proof.
  unfold setDate, getDate, DateFromTime. cbv zeta.
  set (lt := LocalTime tza t).
  destruct (month_bracket lt) as (Hm & _).
  unfold MakeDay.
  replace (MonthFromTime lt / 12) with 0 by (Z.div_mod_to_equations; lia).
  replace (MonthFromTime lt mod 12) with (MonthFromTime lt)
    by (Z.div_mod_to_equations; lia).
  rewrite Z.add_0_r.
  unfold UTC, MakeDate. unfold lt, LocalTime, Day, msPerDay.
  Z.div_mod_to_equations. lia.
Qed.

Lemma same_local_day tza now t :
  now - (now + tza) mod msPerDay <= t < now - (now + tza) mod msPerDay + msPerDay
  <-> Day (LocalTime tza t) = Day (LocalTime tza now).
Proof.
  unfold Day, LocalTime, msPerDay. split; intros H; Z.div_mod_to_equations; lia.
Qed.

Lemma getDoctorDashboardStats_run tza now later user o w d :
  no_db_fault o ->
  List.find (fun d => Nat.eqb (dr_user d) (au_id user)) (doctors (committed w)) = Some d ->
  let today := now - (now + tza) mod msPerDay in
  let appts := appointments (committed w) in
  exists stats,
    run (getMonthlyAppointmentStats tza later (dr_id d)) o w = (Ok stats, w)
    /\ run (getDoctorDashboardStats tza now later user) o w
       = (Ok (mkResponse 200%nat true ""
                (Some (mkDashboardData
                   (List.filter (dated_today (dr_id d) today (today + msPerDay)) appts)
                   (length (List.filter
                      (dated_upcoming (dr_id d) (today + msPerDay) (today + 7 * msPerDay))
                      appts))
                   (length (List.filter (fun a => Nat.eqb (ap_doctor a) (dr_id d)) appts))
                   (length (nodup Nat.eq_dec
                      (map ap_patient
                         (List.filter (fun a => Nat.eqb (ap_doctor a) (dr_id d)) appts))))
                   (averageRating d) (totalReviews d) stats
                   (firstn 5 (sort_by newest_first (reviews d)))))), w).
Proof.
  intros H Hd today appts.
  eexists. split.
  - unfold getMonthlyAppointmentStats. iox_unfold. iox_ok H. reflexivity.
  - unfold getDoctorDashboardStats. iox_unfold. iox_ok H. rewrite Hd. iox_unfold.
    rewrite !setDate_days, setHours_ms_midnight. fold today.
    replace (today + 1 * msPerDay) with (today + msPerDay) by lia.
    iox_ok H. iox_ok H. iox_ok H. iox_ok H.
    unfold getMonthlyAppointmentStats. iox_unfold. iox_ok H. reflexivity.
Qed.

(** In a sorted list the first [n] elements stand before the others. *)
Lemma sorted_cut {A} (R : A -> A -> Prop) n : forall l x y,
  StronglySorted R l -> In x (firstn n l) -> In y (skipn n l) -> R x y.
Proof.
  induction n as [|n IH]; intros l x y Hs Hx Hy; [destruct Hx|].
  destruct l as [|z l]; [destruct Hx|].
  inversion Hs as [|? ? Hl Hz]; subst. cbn [firstn skipn] in Hx, Hy.
  destruct Hx as [<-|Hx].
  - rewrite List.Forall_forall in Hz. apply Hz. apply In_skipn in Hy. exact Hy.
  - apply (IH l); assumption.
Qed.

Lemma In_firstn_or_skipn {A} n (l : list A) a :
  In a l -> In a (firstn n l) \/ In a (skipn n l).
Proof. intros H. rewrite <- (firstn_skipn n l) in H. apply in_app_or in H. exact H. Qed.

(** X17. The dashboard of a doctor on file, with no failing database call:
    the answer is 200 and nothing is written.  Today's list holds the stored
    appointments of the doctor whose date falls on the same day as [now] in
    the server's zone, whatever their status; the total counts the doctor's
    appointments and the patients are counted once each; the recent reviews
    are the (at most five) newest of the profile, newest first: a review that
    is left out is no newer than any that is shown. *)
Theorem dashboard_today_and_recent tza now later user o w d :
  no_db_fault o ->
  List.find (fun d => Nat.eqb (dr_user d) (au_id user)) (doctors (committed w)) = Some d ->
  let appts := appointments (committed w) in
  exists data,
    run (getDoctorDashboardStats tza now later user) o w
    = (Ok (mkResponse 200%nat true "" (Some data)), w)
    /\ (forall a, In a (todayAppointments data) <->
          In a appts /\ ap_doctor a = dr_id d
          /\ Day (LocalTime tza (appointmentDate a)) = Day (LocalTime tza now))
    /\ totalAppointments data
       = length (List.filter (fun a => Nat.eqb (ap_doctor a) (dr_id d)) appts)
    /\ (exists seen,
          List.NoDup seen
          /\ (forall p, In p seen <->
                exists a, In a appts /\ ap_doctor a = dr_id d /\ ap_patient a = p)
          /\ totalPatients data = length seen)
    /\ (totalPatients data <= totalAppointments data)%nat
    /\ length (recentReviews data) = Nat.min 5 (length (reviews d))
    /\ StronglySorted (fun a b => newest_first a b = true) (recentReviews data)
    /\ (forall r, In r (recentReviews data) -> In r (reviews d))
    /\ (forall r shown, In r (reviews d) -> ~ In r (recentReviews data) ->
          In shown (recentReviews data) -> rv_date r <= rv_date shown).
Proof.
  intros H Hd appts.
  destruct (getDoctorDashboardStats_run tza now later user o w d H Hd)
    as (stats & _ & Hrun).
  eexists. split; [exact Hrun|].
  cbn [todayAppointments totalAppointments totalPatients recentReviews]. fold appts.
  split; [|split; [reflexivity|split; [|split; [|split; [|split; [|split]]]]]].
  - intros a. rewrite filter_In. unfold dated_today.
    rewrite !andb_true_iff, Nat.eqb_eq, Z.leb_le, Z.ltb_lt.
    rewrite <- same_local_day. tauto.
  - eexists. split; [apply List.NoDup_nodup|]. split; [|reflexivity].
    intros p. rewrite nodup_In, in_map_iff. split.
    + intros (a & Hp & Hin). apply filter_In in Hin. destruct Hin as [Hin Hdoc].
      apply Nat.eqb_eq in Hdoc. exists a. auto.
    + intros (a & Hin & Hdoc & Hp). exists a. split; [exact Hp|].
      apply filter_In. split; [exact Hin|]. apply Nat.eqb_eq. exact Hdoc.
  - rewrite <- (length_map ap_patient
                  (List.filter (fun a => Nat.eqb (ap_doctor a) (dr_id d)) appts)).
    apply List.NoDup_incl_length; [apply List.NoDup_nodup|].
    intros p Hp. apply nodup_In in Hp. exact Hp.
  - rewrite length_firstn, sort_by_length. reflexivity.
  - apply StronglySorted_firstn, sort_by_sorted;
      [exact newest_first_total|exact newest_first_trans].
  - intros r Hr. apply In_firstn in Hr. apply sort_by_In in Hr. exact Hr.
  - intros r shown Hr Hout Hshown.
    apply (sort_by_In newest_first) in Hr.
    destruct (In_firstn_or_skipn 5 _ _ Hr) as [Hin|Hin]; [contradiction|].
    pose proof (sorted_cut (fun a b => newest_first a b = true) 5 _ shown r
                  (sort_by_sorted newest_first (reviews d)
                     newest_first_total newest_first_trans) Hshown Hin) as Hle.
    unfold newest_first in Hle. apply Z.leb_le in Hle. exact Hle.
Qed.

Lemma dashboard_today_and_recent_witness :
  let w := Sample.world_of Sample.reviewed_doctor
             [Sample.visit "scheduled"; Sample.late_visit] in
  let appts := appointments (committed w) in
  let d := Sample.reviewed_doctor in
  exists data,
    run (getDoctorDashboardStats 0 (Sample.monday + 3600000) (Sample.monday + 3600001)
           Sample.doctor_user) no_fault w
    = (Ok (mkResponse 200%nat true "" (Some data)), w)
    /\ (forall a, In a (todayAppointments data) <->
          In a appts /\ ap_doctor a = dr_id d
          /\ Day (LocalTime 0 (appointmentDate a)) = Day (LocalTime 0 (Sample.monday + 3600000)))
    /\ totalAppointments data
       = length (List.filter (fun a => Nat.eqb (ap_doctor a) (dr_id d)) appts)
    /\ (exists seen,
          List.NoDup seen
          /\ (forall p, In p seen <->
                exists a, In a appts /\ ap_doctor a = dr_id d /\ ap_patient a = p)
          /\ totalPatients data = length seen)
    /\ (totalPatients data <= totalAppointments data)%nat
    /\ length (recentReviews data) = Nat.min 5 (length (reviews d))
    /\ StronglySorted (fun a b => newest_first a b = true) (recentReviews data)
    /\ (forall r, In r (recentReviews data) -> In r (reviews d))
    /\ (forall r shown, In r (reviews d) -> ~ In r (recentReviews data) ->
          In shown (recentReviews data) -> rv_date r <= rv_date shown).
Proof.
  intros w.
  apply (dashboard_today_and_recent 0 (Sample.monday + 3600000) (Sample.monday + 3600001)
           Sample.doctor_user no_fault w Sample.reviewed_doctor).
  - intros n. reflexivity.
  - reflexivity.
Defined.

(** The world with one more appointment on file. *)
Lemma dashboard_filter_cons (p : Appointment -> bool) a l :
  p a = false -> List.filter p (a :: l) = List.filter p l.
Proof. intros H. cbn [List.filter]. rewrite H. reflexivity. Qed.

(** X18. The upcoming window is open at its start.  An appointment of the
    doctor dated exactly at the next midnight of the server's zone (the date
    of tomorrow, stored without a time of day on a server in UTC) is neither
    in today's list, which ends before that midnight, nor in the upcoming
    count, which starts after it: putting it on file raises the total by one
    and leaves today's list and the upcoming count as they are. *)
Theorem dashboard_misses_next_midnight tza now later user o w d a :
  no_db_fault o ->
  List.find (fun d => Nat.eqb (dr_user d) (au_id user)) (doctors (committed w)) = Some d ->
  ap_doctor a = dr_id d ->
  appointmentDate a = now - (now + tza) mod msPerDay + msPerDay ->
  let w' := with_committed w (set_appointments (cons a) (committed w)) in
  exists data data',
    fst (run (getDoctorDashboardStats tza now later user) o w)
    = Ok (mkResponse 200%nat true "" (Some data))
    /\ fst (run (getDoctorDashboardStats tza now later user) o w')
       = Ok (mkResponse 200%nat true "" (Some data'))
    /\ todayAppointments data' = todayAppointments data
    /\ upcomingAppointments data' = upcomingAppointments data
    /\ totalAppointments data' = S (totalAppointments data).
Proof.
  intros H Hd Hdoc Hdate w'.
  destruct (getDoctorDashboardStats_run tza now later user o w d H Hd)
    as (stats & _ & Hrun).
  assert (Hd' : List.find (fun d => Nat.eqb (dr_user d) (au_id user))
                  (doctors (committed w')) = Some d) by exact Hd.
  destruct (getDoctorDashboardStats_run tza now later user o w' d H Hd')
    as (stats' & _ & Hrun').
  do 2 eexists. rewrite Hrun, Hrun'. cbn [fst].
  split; [reflexivity|]. split; [reflexivity|].
  cbn [todayAppointments upcomingAppointments totalAppointments].
  unfold w'. cbn [with_committed committed Mongoose.set_appointments appointments].
  split; [|split].
  - apply dashboard_filter_cons. unfold dated_today. rewrite Hdate.
    rewrite Z.ltb_irrefl, andb_false_r. reflexivity.
  - rewrite dashboard_filter_cons; [reflexivity|]. unfold dated_upcoming. rewrite Hdate.
    rewrite Z.ltb_irrefl, andb_false_r. reflexivity.
  - cbn [List.filter]. rewrite Hdoc, Nat.eqb_refl. reflexivity.
Qed.

Lemma dashboard_misses_next_midnight_witness :
  let a := mkAppointment 102%nat 1%nat 5%nat (Sample.monday + 86400000) "10:00" "scheduled"
             None 1719792000000 in
  let w := Sample.world [Sample.visit "scheduled"] in
  let w' := with_committed w (set_appointments (cons a) (committed w)) in
  exists data data',
    fst (run (getDoctorDashboardStats 0 (Sample.monday + 3600000) (Sample.monday + 3600001)
                Sample.doctor_user) no_fault w)
    = Ok (mkResponse 200%nat true "" (Some data))
    /\ fst (run (getDoctorDashboardStats 0 (Sample.monday + 3600000)
                   (Sample.monday + 3600001) Sample.doctor_user) no_fault w')
       = Ok (mkResponse 200%nat true "" (Some data'))
    /\ todayAppointments data' = todayAppointments data
    /\ upcomingAppointments data' = upcomingAppointments data
    /\ totalAppointments data' = S (totalAppointments data).
Proof.
  intros a w.
  apply (dashboard_misses_next_midnight 0 (Sample.monday + 3600000)
           (Sample.monday + 3600001) Sample.doctor_user no_fault w Sample.doctor a).
  - intros n. reflexivity.
  - reflexivity.
  - reflexivity.
  - reflexivity.
Defined.

(** ** getDoctorReviews *)

(** X19. Whichever calls fail, [getDoctorReviews] writes nothing, and a list
    it returns is the list of reviews of the profile of the user, each review
    once, ordered newest first, with the stored average and total. *)
Theorem doctor_reviews_newest_first user o w :
  let r := run (getDoctorReviews user) o w in
  snd r = w
  /\ forall resp data,
       fst r = Ok resp -> res_data resp = Some data ->
       exists d,
         List.find (fun d => Nat.eqb (dr_user d) (au_id user)) (doctors (committed w))
         = Some d
         /\ Permutation (rd_reviews data) (reviews d)
         /\ StronglySorted (fun a b => newest_first a b = true) (rd_reviews data)
         /\ rd_averageRating data = averageRating d
         /\ rd_totalReviews data = totalReviews d.
Proof.
  cbv zeta. unfold getDoctorReviews. iox_unfold.
  iox_db E0.
  { split; [reflexivity|]. intros resp data Hr Hdata. injection Hr as <-.
    discriminate Hdata. }
  destruct (List.find _ (doctors (committed w))) as [d|] eqn:Hf; iox_unfold.
  2: { split; [reflexivity|]. intros resp data Hr Hdata. injection Hr as <-.
       discriminate Hdata. }
  split; [reflexivity|]. intros resp data Hr Hdata. injection Hr as <-.
  cbn [res_data] in Hdata. injection Hdata as <-.
  exists d. split; [reflexivity|]. cbn [rd_reviews rd_averageRating rd_totalReviews].
  split; [apply sort_by_perm|]. split; [|split; reflexivity].
  apply sort_by_sorted; [exact newest_first_total|exact newest_first_trans].
Qed.

(** ** Reviewing twice *)

Lemma first_split_unique {A} (p : A -> bool) : forall l1 x l2 l1' x' l2',
  (l1 ++ x :: l2 = l1' ++ x' :: l2')%list ->
  p x = true -> p x' = true ->
  (forall y, In y l1 -> p y = false) -> (forall y, In y l1' -> p y = false) ->
  l1 = l1' /\ x = x' /\ l2 = l2'.
Proof.
  induction l1 as [|a l1 IH]; intros x l2 l1' x' l2' Heq Hx Hx' Hl1 Hl1'.
  - destruct l1' as [|a' l1']; cbn [app] in Heq.
    + injection Heq as <- <-. auto.
    + injection Heq as <- _. rewrite (Hl1' x (or_introl eq_refl)) in Hx. discriminate.
  - destruct l1' as [|a' l1']; cbn [app] in Heq.
    + injection Heq as <- _. rewrite (Hl1 a (or_introl eq_refl)) in Hx'. discriminate.
    + injection Heq as <- Heq.
      destruct (IH x l2 l1' x' l2' Heq Hx Hx') as (-> & -> & ->).
      * intros y Hy. apply Hl1. right. exact Hy.
      * intros y Hy. apply Hl1'. right. exact Hy.
      * auto.
Qed.

Lemma upsert_review_at rs l1 x l2 patient rating comment now :
  rs = (l1 ++ x :: l2)%list -> rv_patient x = patient ->
  (forall y, In y l1 -> rv_patient y <> patient) ->
  upsert_review rs patient rating comment now
  = (l1 ++ mkReview patient rating comment now :: l2)%list.
Proof.
  intros Hrs Hx Hl1.
  destruct (upsert_review_existing rs patient rating comment now)
    as (l1' & x' & l2' & Hrs' & Hx' & Hl1' & Hup).
  { exists x. split; [|exact Hx]. subst rs. apply in_or_app. right. left. reflexivity. }
  rewrite Hup. rewrite Hrs in Hrs'.
  destruct (first_split_unique (fun r => Nat.eqb (rv_patient r) patient)
              l1 x l2 l1' x' l2' Hrs') as (-> & _ & ->).
  - apply Nat.eqb_eq. exact Hx.
  - apply Nat.eqb_eq. exact Hx'.
  - intros y Hy. apply Nat.eqb_neq. apply Hl1. exact Hy.
  - intros y Hy. apply Nat.eqb_neq. apply Hl1'. exact Hy.
  - reflexivity.
Qed.

Lemma others_filter_none patient l :
  (forall y, In y l -> rv_patient y <> patient) ->
  List.find (fun r => Nat.eqb (rv_patient r) patient) l = None.
Proof.
  intros H. induction l as [|y l IH]; [reflexivity|]. cbn [List.find].
  destruct (Nat.eqb (rv_patient y) patient) eqn:E.
  - apply Nat.eqb_eq in E. destruct (H y (or_introl eq_refl) E).
  - apply IH. intros z Hz. apply H. right. exact Hz.
Qed.

Lemma find_app_later {A} (p : A -> bool) l l' :
  List.find p l = None -> List.find p (l ++ l') = List.find p l'.
Proof.
  induction l as [|y l IH]; cbn [List.find app]; [reflexivity|].
  destruct (p y); [discriminate|exact IH].
Qed.

(** The shape of the list after the find-then-update-or-push. *)
Lemma upsert_review_shape rs patient rating comment now :
  exists l1 l2,
    (forall y, In y l1 -> rv_patient y <> patient)
    /\ upsert_review rs patient rating comment now
       = (l1 ++ mkReview patient rating comment now :: l2)%list
    /\ ((rs = l1 /\ l2 = [])
        \/ exists x, rs = (l1 ++ x :: l2)%list /\ rv_patient x = patient).
Proof.
  destruct (existsb (fun r => Nat.eqb (rv_patient r) patient) rs) eqn:Ex.
  - apply existsb_exists in Ex. destruct Ex as (r & Hin & Hr). apply Nat.eqb_eq in Hr.
    destruct (upsert_review_existing rs patient rating comment now)
      as (l1 & x & l2 & Hl & Hx & Hl1 & Hup); [eauto|].
    exists l1, l2. split; [exact Hl1|]. split; [exact Hup|]. right. eauto.
  - assert (Hnone : forall r, In r rs -> rv_patient r <> patient).
    { intros r Hin Hr.
      assert (existsb (fun r => Nat.eqb (rv_patient r) patient) rs = true) as Ht.
      { apply existsb_exists. exists r. split; [exact Hin|]. apply Nat.eqb_eq. exact Hr. }
      congruence. }
    exists rs, []. split; [exact Hnone|]. split; [apply upsert_review_new; exact Hnone|].
    left. auto.
Qed.

(** X20. The last review wins.  In the review list [addDoctorReview] builds,
    a patient who reviews twice leaves what one review with the last values
    would have left, whether or not a review of that patient was on file; the
    reviews of the other patients are as they were, in the same order; and the
    first review of the patient in the list is the new one. *)
Theorem upsert_review_last_wins rs patient rating1 comment1 now1 rating2 comment2 now2 :
  upsert_review (upsert_review rs patient rating1 comment1 now1)
    patient rating2 comment2 now2
  = upsert_review rs patient rating2 comment2 now2
  /\ List.filter (fun r => negb (Nat.eqb (rv_patient r) patient))
       (upsert_review rs patient rating1 comment1 now1)
     = List.filter (fun r => negb (Nat.eqb (rv_patient r) patient)) rs
  /\ List.find (fun r => Nat.eqb (rv_patient r) patient)
       (upsert_review rs patient rating1 comment1 now1)
     = Some (mkReview patient rating1 comment1 now1).
Proof.
  destruct (upsert_review_shape rs patient rating1 comment1 now1)
    as (l1 & l2 & Hl1 & Hup & Hrs).
  split; [|split].
  - rewrite (upsert_review_at _ l1 (mkReview patient rating1 comment1 now1) l2
               patient rating2 comment2 now2 Hup eq_refl Hl1).
    destruct Hrs as [[-> ->]|(x & Hrs & Hx)].
    + symmetry. apply upsert_review_new. exact Hl1.
    + symmetry. exact (upsert_review_at rs l1 x l2 patient rating2 comment2 now2 Hrs Hx Hl1).
  - rewrite Hup. rewrite List.filter_app. cbn [List.filter rv_patient].
    rewrite Nat.eqb_refl. cbn [negb].
    destruct Hrs as [[-> ->]|(x & -> & Hx)].
    + cbn [List.filter]. rewrite app_nil_r. reflexivity.
    + rewrite List.filter_app. cbn [List.filter]. rewrite Hx, Nat.eqb_refl. reflexivity.
  - rewrite Hup. rewrite find_app_later by (apply others_filter_none; exact Hl1).
    cbn [List.find rv_patient]. rewrite Nat.eqb_refl. reflexivity.
Qed.
